(** * Payment reconciliation and wallet ledger of the Ada's Kitchen backend

    A shallow embedding of [src/routes/stripeWebhook.js] and
    [src/routes/payments.js].  The two route files talk to two external
    collaborators: the document database (Firestore) and the payment
    processor (Stripe).  The database is a pair of finite maps from
    document ids to typed documents; the processor is an explicit record
    of request functions handed to the handlers, each request either
    throwing or answering.  Handlers are written in a small
    state-and-exception monad ([Async]) whose state also records the
    processor requests and database operations issued, in program order,
    so that "no request is issued" and "written exactly once" can be read
    off a run.

    Modelling conventions:
    - amounts and balances are integers (minor currency units), as [Z];
      [Number] on metadata text yields an integer or [NaN] and is a
      parameter of the webhook;
    - a property or document field that the code tests for presence or
      reads with a fallback ([!x], [x || 0], [x || []]) is an [option],
      [None] standing for an absent (or null) value;
    - database calls on existing documents succeed; [update] of a missing
      document throws;
    - console logging is not modelled;
    - all time stamps taken while serving one request share the reading
      [now] that the handler receives;
    - the read-only routes ([payment-method/:id], [cards/:userId]) and the
      pass-through routes ([create-setup-intent],
      [attach-payment-method]) are not embedded. *)

From stdpp Require Import base option strings list gmap pretty.

Open Scope string_scope.
Open Scope list_scope.
Open Scope Z_scope.

(** ** JavaScript values *)

Module Js.

(** The result of [Number(x)] on a metadata string: an integer amount,
    or [NaN] for text that is not a number. *)
Inductive num := Num (z : Z) | NaN.

(** Truthiness of an optional string: [undefined] and [""] are falsy.
    The result is the string itself when it is truthy. *)
Definition truthy (o : option string) : option string :=
  match o with
  | Some s => if decide (s = "") then None else Some s
  | None => None
  end.

(** Truthiness of an optional number ([!amount]): [undefined] and [0]
    are falsy. *)
Definition truthy_num (o : option Z) : option Z :=
  match o with
  | Some z => if decide (z = 0) then None else Some z
  | None => None
  end.

(** A thrown value: an [Error] with its message and, for processor
    errors, the [type] and [code] properties. *)
Record error := Error { message : string; type : option string; code : option string }.

(** JSON values that occur in response bodies. *)
Inductive json :=
| JNull
| JBool (b : bool)
| JNum (z : Z)
| JStr (s : string).

End Js.

(** ** Documents *)

(** Time stamps: [FieldValue.serverTimestamp()] and
    [new Date().toISOString()]. *)
Inductive Stamp :=
| ServerTimestamp (t : Z)
| IsoString (s : string).

Record Clock := { serverTime : Z; isoNow : string }.

Module Card.
Record t := Make {
  id : string;
  brand : string;
  last4 : string;
  expMonth : Z;
  expYear : Z;
  createdAt : string;
}.
End Card.

Module WalletTransaction.
Record t := Make {
  type : string;
  amount : Z;
  previousBalance : Z;
  newBalance : Z;
  timestamp : string;
  status : string;
  description : string;
  stripePaymentIntentId : string;
  stripeChargeId : option string;
  paymentMethod : string;
  saveCard : bool;
}.
End WalletTransaction.

Module User.
Record t := Make {
  email : option string;
  stripeCustomerId : option string;
  walletBalance : option Z;
  savedCards : option (list Card.t);
  defaultPaymentMethod : option string;
  walletTransactions : list WalletTransaction.t;
  orderHistory : list string;
  updatedAt : option Stamp;
}.

(** The document that [set(..., {merge: true})] starts from when the
    user does not exist yet. *)
Definition empty : t := Make None None None None None [] [] None.

Definition with_stripeCustomerId (v : string) (u : t) : t :=
  Make (email u) (Some v) (walletBalance u) (savedCards u)
       (defaultPaymentMethod u) (walletTransactions u) (orderHistory u)
       (updatedAt u).

Definition with_walletBalance (v : Z) (u : t) : t :=
  Make (email u) (stripeCustomerId u) (Some v) (savedCards u)
       (defaultPaymentMethod u) (walletTransactions u) (orderHistory u)
       (updatedAt u).

Definition with_savedCards (v : list Card.t) (u : t) : t :=
  Make (email u) (stripeCustomerId u) (walletBalance u) (Some v)
       (defaultPaymentMethod u) (walletTransactions u) (orderHistory u)
       (updatedAt u).

Definition with_defaultPaymentMethod (v : option string) (u : t) : t :=
  Make (email u) (stripeCustomerId u) (walletBalance u) (savedCards u)
       v (walletTransactions u) (orderHistory u) (updatedAt u).

Definition with_walletTransactions (v : list WalletTransaction.t) (u : t) : t :=
  Make (email u) (stripeCustomerId u) (walletBalance u) (savedCards u)
       (defaultPaymentMethod u) v (orderHistory u) (updatedAt u).

Definition with_orderHistory (v : list string) (u : t) : t :=
  Make (email u) (stripeCustomerId u) (walletBalance u) (savedCards u)
       (defaultPaymentMethod u) (walletTransactions u) v (updatedAt u).

Definition with_updatedAt (v : Stamp) (u : t) : t :=
  Make (email u) (stripeCustomerId u) (walletBalance u) (savedCards u)
       (defaultPaymentMethod u) (walletTransactions u) (orderHistory u)
       (Some v).
End User.

Module Order.
Record t := Make {
  paymentStatus : option string;
  orderStatus : option string;
  verified : option bool;
  currency : option string;
  stripePaymentIntentId : option string;
  stripeChargeId : option string;
  paidAt : option Stamp;
  paymentError : option string;
  updatedAt : option Stamp;
}.
End Order.

#[global] Instance Stamp_eq_dec : EqDecision Stamp.
Proof. solve_decision. Defined.
#[global] Instance Card_eq_dec : EqDecision Card.t.
Proof. solve_decision. Defined.
#[global] Instance WalletTransaction_eq_dec : EqDecision WalletTransaction.t.
Proof. solve_decision. Defined.

(** ** The database *)

Record Firestore := {
  orders : gmap string Order.t;
  users : gmap string User.t;
}.

(** [FieldValue.arrayUnion(x)]: the element is added at the end unless an
    equal element is already in the array. *)
Definition arrayUnion {A} `{EqDecision A} (x : A) (l : list A) : list A :=
  if decide (x ∈ l) then l else l ++ [x].

(** ** The payment processor *)

Module Stripe.

Record PaymentError := { pe_message : option string }.

Record PaymentIntent := {
  id : string;
  status : string;
  client_secret : option string;
  amount : Z;
  latest_charge : option string;
  payment_method : option string;
  metadata : option (gmap string string);
  last_payment_error : option PaymentError;
}.

Record SetupIntent := {
  si_customer : option string;
  si_payment_method : option string;
}.

Record PaymentMethod := {
  pm_id : string;
  card_brand : string;
  card_last4 : string;
  card_exp_month : Z;
  card_exp_year : Z;
}.

(** The request object of [paymentIntents.create].  [confirm] and
    [off_session] are either [true] or absent. *)
Record PaymentIntentParams := {
  p_amount : Z;
  p_currency : string;
  p_customer : string;
  p_metadata : gmap string string;
  p_automatic_payment_methods : bool * string;
  p_payment_method : option string;
  p_confirm : bool;
  p_off_session : bool;
}.

(** A verified webhook event: the [type] discriminator with the object
    it carries. *)
Inductive Event :=
| payment_intent_succeeded (paymentIntent : PaymentIntent)
| payment_intent_payment_failed (paymentIntent : PaymentIntent)
| setup_intent_succeeded (setupIntent : SetupIntent)
| other_event (type : string).

(** Requests sent to the processor. *)
Inductive Request :=
| customers_create (email userId : string)
| paymentMethods_attach (paymentMethodId customer : string)
| paymentMethods_detach (paymentMethodId : string)
| paymentMethods_retrieve (paymentMethodId : string)
| customers_update (customer default_payment_method : string)
| paymentIntents_create (params : PaymentIntentParams).

(** The processor client.  Each request either throws or answers. *)
Record Api := {
  customersCreate : string → string → Js.error + string;
  customersUpdate : string → string → Js.error + unit;
  paymentMethodsAttach : string → string → Js.error + unit;
  paymentMethodsDetach : string → Js.error + unit;
  paymentMethodsRetrieve : string → Js.error + PaymentMethod;
  paymentIntentsCreate : PaymentIntentParams → Js.error + PaymentIntent;
  (** [webhooks.constructEvent(rawBody, signatureHeader, secret)] is a
      local computation: it issues no request. *)
  constructEvent : string → option string → option string → Js.error + Event;
}.

End Stripe.

(** ** Effects *)

Inductive Collection := Orders | Users.

#[global] Instance Collection_eq_dec : EqDecision Collection.
Proof. solve_decision. Defined.

(** What a handler does to the outside world, in program order.  A write
    names the document and the fields of the update object. *)
Inductive Effect :=
| StripeRequest (r : Stripe.Request)
| FsGet (c : Collection) (id : string)
| FsQuery (c : Collection) (field value : string)
| FsUpdate (c : Collection) (id : string) (fields : list string)
| FsSetMerge (c : Collection) (id : string) (fields : list string).

Definition is_write (e : Effect) : bool :=
  match e with
  | FsUpdate _ _ _ | FsSetMerge _ _ _ => true
  | _ => false
  end.

Definition is_request (e : Effect) : bool :=
  match e with StripeRequest _ => true | _ => false end.

Definition is_paymentIntents_create (e : Effect) : bool :=
  match e with
  | StripeRequest (Stripe.paymentIntents_create _) => true
  | _ => false
  end.

Record World := { db : Firestore; trace : list Effect }.

Inductive Outcome (A : Type) :=
| Returned (a : A)
| Thrown (e : Js.error).
Arguments Returned {A} a.
Arguments Thrown {A} e.

(** An asynchronous computation, run to completion: every [await] is a
    sequencing point. *)
Definition Async (A : Type) : Type := World → Outcome A * World.

#[global] Instance Async_ret : MRet Async := λ A a w, (Returned a, w).
#[global] Instance Async_bind : MBind Async := λ A B f m w,
  match m w with
  | (Returned a, w') => f a w'
  | (Thrown e, w') => (Thrown e, w')
  end.

Definition throw {A} (e : Js.error) : Async A := λ w, (Thrown e, w).

(** [try { m } catch (err) { h err }] *)
Definition try_catch {A} (m : Async A) (h : Js.error → Async A) : Async A := λ w,
  match m w with
  | (Returned a, w') => (Returned a, w')
  | (Thrown e, w') => h e w'
  end.

Definition emit (e : Effect) : Async unit := λ w,
  (Returned tt, {| db := db w; trace := trace w ++ [e] |}).

Definition modify_db (f : Firestore → Firestore) : Async unit := λ w,
  (Returned tt, {| db := f (db w); trace := trace w |}).

Definition read_db : Async Firestore := λ w, (Returned (db w), w).

(** A processor request: recorded, then answered or thrown. *)
Definition request {A} (r : Stripe.Request) (answer : Js.error + A) : Async A :=
  emit (StripeRequest r);;
  match answer with
  | inl e => throw e
  | inr a => mret a
  end.


(** ** Database operations *)

Definition set_orders (f : gmap string Order.t → gmap string Order.t) (d : Firestore) : Firestore :=
  {| orders := f (orders d); users := users d |}.

Definition set_users (f : gmap string User.t → gmap string User.t) (d : Firestore) : Firestore :=
  {| orders := orders d; users := f (users d) |}.

(** The error Firestore raises when [update] addresses a missing document. *)
Definition NOT_FOUND : Js.error :=
  Js.Error "5 NOT_FOUND: No document to update" None (Some "5").

(** [db.collection("orders").doc(id).get()]: the snapshot is [Some] data
    when [exists] holds. *)
Definition getOrder (id : string) : Async (option Order.t) :=
  emit (FsGet Orders id);;
  d ← read_db;
  mret (orders d !! id).

Definition getUser (id : string) : Async (option User.t) :=
  emit (FsGet Users id);;
  d ← read_db;
  mret (users d !! id).

(** [ref.update({...})]: changes the named fields of an existing document
    and leaves the others; throws when the document is missing. *)
Definition updateOrder (id : string) (fields : list string) (f : Order.t → Order.t) : Async unit :=
  emit (FsUpdate Orders id fields);;
  d ← read_db;
  match orders d !! id with
  | Some o => modify_db (set_orders <[id := f o]>)
  | None => throw NOT_FOUND
  end.

Definition updateUser (id : string) (fields : list string) (f : User.t → User.t) : Async unit :=
  emit (FsUpdate Users id fields);;
  d ← read_db;
  match users d !! id with
  | Some u => modify_db (set_users <[id := f u]>)
  | None => throw NOT_FOUND
  end.

(** [ref.set({...}, {merge: true})]: as [update], but creates the document
    when it is missing. *)
Definition setUserMerge (id : string) (fields : list string) (f : User.t → User.t) : Async unit :=
  emit (FsSetMerge Users id fields);;
  d ← read_db;
  modify_db (set_users <[id := f (default User.empty (users d !! id))]>).

(** [usersRef.where("stripeCustomerId", "==", v).limit(1).get()]: one
    matching document with its id, if there is any. *)
Definition queryUserByCustomer (v : string) : Async (option (string * User.t)) :=
  emit (FsQuery Users "stripeCustomerId" v);;
  d ← read_db;
  mret (head (filter (λ kv, User.stripeCustomerId kv.2 = Some v) (map_to_list (users d)))).

(** ** Responses *)

Inductive Body :=
| Json (fields : list (string * Js.json))
| Text (s : string).

Record Response := { status : Z; body : Body }.

(** [res.json(obj)] answers with status 200; [res.status(n).json(obj)] and
    [res.status(n).send(text)] with status [n]. *)
Definition res_json (fields : list (string * Js.json)) : Response :=
  {| status := 200; body := Json fields |}.
Definition res_status_json (n : Z) (fields : list (string * Js.json)) : Response :=
  {| status := n; body := Json fields |}.
Definition res_status_send (n : Z) (s : string) : Response :=
  {| status := n; body := Text s |}.

(** A property whose value is [undefined] is left out of the serialised
    object; [null] is written. *)
Definition prop (k : string) (v : option string) : list (string * Js.json) :=
  match v with Some s => [(k, Js.JStr s)] | None => [] end.

Definition str_or_null (v : option string) : Js.json :=
  match v with Some s => Js.JStr s | None => Js.JNull end.

(** The value of field [k] in a response body, if the body is an object
    that has it. *)
Fixpoint assoc (k : string) (l : list (string * Js.json)) : option Js.json :=
  match l with
  | [] => None
  | (k', v) :: l' => if decide (k = k') then Some v else assoc k l'
  end.

Definition field (k : string) (r : Response) : option Js.json :=
  match body r with Json l => assoc k l | Text _ => None end.

(** ** [src/routes/stripeWebhook.js] *)

(** [paymentIntent.metadata || {}] *)
Definition metadata_of (paymentIntent : Stripe.PaymentIntent) : gmap string string :=
  default ∅ (Stripe.metadata paymentIntent).

(** The field lists of the three updates issued on a successful payment. *)
Definition wallet_fields : list string := ["walletBalance"; "updatedAt"].
Definition paid_fields : list string :=
  ["paymentStatus"; "orderStatus"; "verified"; "currency";
   "stripePaymentIntentId"; "stripeChargeId"; "paidAt"; "updatedAt"].
Definition history_fields : list string := ["orderHistory"; "updatedAt"].

Section StripeWebhook.

(** The processor client, the signing secret of the environment and the
    coercion [Number] applied to metadata text. *)
Context (stripe : Stripe.Api).
Context (STRIPE_WEBHOOK_SECRET : option string).
Context (Number : string → Js.num).

Definition order_paid (now : Clock) (paymentIntent : Stripe.PaymentIntent) (o : Order.t) : Order.t :=
  {| Order.paymentStatus := Some "paid";
     Order.orderStatus := Some "confirmed";
     Order.verified := Some true;
     Order.currency := Some "GBP";
     Order.stripePaymentIntentId := Some (Stripe.id paymentIntent);
     Order.stripeChargeId := Js.truthy (Stripe.latest_charge paymentIntent);
     Order.paidAt := Some (ServerTimestamp (serverTime now));
     Order.paymentError := Order.paymentError o;
     Order.updatedAt := Some (ServerTimestamp (serverTime now)) |}.

(** [Number(walletAmount)], where [walletAmount] defaults to [0] when the
    metadata has no such key. *)
Definition walletAmountNum (paymentIntent : Stripe.PaymentIntent) : Js.num :=
  match metadata_of paymentIntent !! "walletAmount" with
  | Some s => Number s
  | None => Js.Num 0
  end.

Definition handlePaymentSuccess (now : Clock) (paymentIntent : Stripe.PaymentIntent) : Async unit :=
  let metadata := metadata_of paymentIntent in
  match Js.truthy (metadata !! "orderId"), Js.truthy (metadata !! "userId") with
  | Some orderId, Some userId =>
    try_catch
      (orderSnap ← getOrder orderId;
       userSnap ← getUser userId;
       match orderSnap, userSnap with
       | None, _ => mret tt
       | Some _, None => mret tt
       | Some order, Some user =>
         (* idempotency check *)
         if decide (Order.paymentStatus order = Some "paid") then mret tt
         else
           (* wallet deduction (hybrid payment) *)
           (match walletAmountNum paymentIntent with
            | Js.Num w =>
              if bool_decide (0 < w) then
                let currentBalance := default 0 (User.walletBalance user) in
                let newBalance := currentBalance - w in
                if bool_decide (0 ≤ newBalance) then
                  updateUser userId wallet_fields
                    (λ u, User.with_updatedAt (ServerTimestamp (serverTime now))
                            (User.with_walletBalance newBalance u))
                else mret tt
              else mret tt
            | Js.NaN => mret tt
            end);;
           (* finalize order *)
           updateOrder orderId paid_fields (order_paid now paymentIntent);;
           (* update order history in user document *)
           updateUser userId history_fields
             (λ u, User.with_updatedAt (ServerTimestamp (serverTime now))
                     (User.with_orderHistory (arrayUnion orderId (User.orderHistory u)) u))
       end)
      (λ err, throw err)
  | _, _ => mret tt
  end.

Definition order_failed (now : Clock) (paymentIntent : Stripe.PaymentIntent) (o : Order.t) : Order.t :=
  {| Order.paymentStatus := Some "failed";
     Order.orderStatus := Order.orderStatus o;
     Order.verified := Order.verified o;
     Order.currency := Order.currency o;
     Order.stripePaymentIntentId := Order.stripePaymentIntentId o;
     Order.stripeChargeId := Order.stripeChargeId o;
     Order.paidAt := Order.paidAt o;
     Order.paymentError :=
       Some (default "Payment failed"
               (Js.truthy (Stripe.last_payment_error paymentIntent ≫= Stripe.pe_message)));
     Order.updatedAt := Some (ServerTimestamp (serverTime now)) |}.

Definition handlePaymentFailure (now : Clock) (paymentIntent : Stripe.PaymentIntent) : Async unit :=
  let metadata := metadata_of paymentIntent in
  match Js.truthy (metadata !! "orderId"), Js.truthy (metadata !! "userId") with
  | Some orderId, Some userId =>
    try_catch
      (updateOrder orderId ["paymentStatus"; "paymentError"; "updatedAt"]
         (order_failed now paymentIntent))
      (λ error, mret tt)
  | _, _ => mret tt
  end.

Definition cardData (now : Clock) (id : string) (paymentMethod : Stripe.PaymentMethod) : Card.t :=
  {| Card.id := id;
     Card.brand := Stripe.card_brand paymentMethod;
     Card.last4 := Stripe.card_last4 paymentMethod;
     Card.expMonth := Stripe.card_exp_month paymentMethod;
     Card.expYear := Stripe.card_exp_year paymentMethod;
     Card.createdAt := isoNow now |}.

Definition handleSetupIntentSuccess (now : Clock) (setupIntent : Stripe.SetupIntent) : Async unit :=
  match Js.truthy (Stripe.si_customer setupIntent),
        Js.truthy (Stripe.si_payment_method setupIntent) with
  | Some customerId, Some paymentMethodId =>
    try_catch
      (paymentMethod ← request (Stripe.paymentMethods_retrieve paymentMethodId)
                         (Stripe.paymentMethodsRetrieve stripe paymentMethodId);
       querySnapshot ← queryUserByCustomer customerId;
       match querySnapshot with
       | None => mret tt
       | Some (userDocId, _) =>
         updateUser userDocId ["savedCards"; "updatedAt"]
           (λ u, User.with_updatedAt (ServerTimestamp (serverTime now))
                   (User.with_savedCards
                      (arrayUnion (cardData now paymentMethodId paymentMethod)
                                  (default [] (User.savedCards u))) u))
       end)
      (λ err, mret tt)
  | _, _ => mret tt
  end.

(** [router.post("/stripe-webhook", ...)]: [rawBody] is the unparsed
    request body and [sig] the [stripe-signature] header.  A handler that
    throws leaves the request without a response ([Thrown]). *)
Definition stripe_webhook (now : Clock) (rawBody : string) (sig : option string) : Async Response :=
  match Stripe.constructEvent stripe rawBody sig STRIPE_WEBHOOK_SECRET with
  | inl err => mret (res_status_send 400 ("Webhook Error: " +:+ Js.message err))
  | inr event =>
    match event with
    | Stripe.payment_intent_succeeded paymentIntent => handlePaymentSuccess now paymentIntent
    | Stripe.payment_intent_payment_failed paymentIntent => handlePaymentFailure now paymentIntent
    | Stripe.setup_intent_succeeded setupIntent => handleSetupIntentSuccess now setupIntent
    | Stripe.other_event _ => mret tt
    end;;
    mret (res_json [("received", Js.JBool true)])
  end.

End StripeWebhook.

(** ** [src/routes/payments.js] *)

(** Request bodies, as destructured by the handlers: a property that the
    client left out is [None]. *)
Module CreatePaymentIntent.
Record body := {
  amount : option Z;
  orderId : option string;
  userId : option string;
  paymentMethodId : option string;
  walletAmount : option Z;
  currency : option string;
}.
End CreatePaymentIntent.

Module AddMoneyToWallet.
Record body := {
  amount : option Z;
  userId : option string;
  paymentMethodId : option string;
  saveCard : option bool;
  currency : option string;
}.
End AddMoneyToWallet.

(** [b.toString()] on a boolean. *)
Definition bool_toString (b : bool) : string := if b then "true" else "false".

(** [err.message || fallback] *)
Definition message_or (fallback : string) (err : Js.error) : string :=
  if decide (Js.message err = "") then fallback else Js.message err.

(** The body of the 500 answers that pass the processor's error on. *)
Definition error_details (fallback : string) (err : Js.error) : list (string * Js.json) :=
  [("error", Js.JStr (message_or fallback err))]
    ++ prop "details" (Js.type err) ++ prop "code" (Js.code err).

Section Payments.

Context (stripe : Stripe.Api).

Definition getOrCreateCustomer (userId : string) (email : option string) : Async string :=
  try_catch
    (userDoc ← getUser userId;
     match userDoc ≫= (λ u, Js.truthy (User.stripeCustomerId u)) with
     | Some stripeCustomerId => mret stripeCustomerId
     | None =>
       let email := default ("user_" +:+ userId +:+ "@example.com") (Js.truthy email) in
       customer_id ← request (Stripe.customers_create email userId)
                       (Stripe.customersCreate stripe email userId);
       setUserMerge userId ["stripeCustomerId"] (User.with_stripeCustomerId customer_id);;
       mret customer_id
     end)
    (λ error, throw error).

(** Attaching the payment method to the customer; a failure is logged
    (under either of two messages) and otherwise ignored. *)
Definition attach_ignoring_errors (paymentMethodId customerId : string) : Async unit :=
  try_catch
    (request (Stripe.paymentMethods_attach paymentMethodId customerId)
       (Stripe.paymentMethodsAttach stripe paymentMethodId customerId))
    (λ error, mret tt).

(** [router.post("/create-payment-intent", ...)] *)
Definition create_payment_intent (req : CreatePaymentIntent.body) : Async Response :=
  try_catch
    (let walletAmount := default 0 (CreatePaymentIntent.walletAmount req) in
     let currency := default "gbp" (CreatePaymentIntent.currency req) in
     match Js.truthy_num (CreatePaymentIntent.amount req) with
     | None => mret (res_status_json 400 [("error", Js.JStr "Invalid amount")])
     | Some amount =>
       if bool_decide (amount ≤ 0)
       then mret (res_status_json 400 [("error", Js.JStr "Invalid amount")])
       else
       match Js.truthy (CreatePaymentIntent.orderId req),
             Js.truthy (CreatePaymentIntent.userId req) with
       | Some orderId, Some userId =>
         userDoc ← getUser userId;
         match userDoc with
         | None => mret (res_status_json 404 [("error", Js.JStr "User not found")])
         | Some userData =>
           customerId ← getOrCreateCustomer userId (User.email userData);
           (* final Stripe amount, after wallet deduction *)
           let stripeAmount := amount - walletAmount in
           if bool_decide (stripeAmount ≤ 0) then
             (* full wallet payment, no Stripe needed *)
             mret (res_json [("clientSecret", Js.JNull);
                             ("paymentIntentId", Js.JNull);
                             ("walletOnly", Js.JBool true)])
           else
             let paymentMethodId := Js.truthy (CreatePaymentIntent.paymentMethodId req) in
             let paymentIntentParams :=
               {| Stripe.p_amount := stripeAmount;
                  Stripe.p_currency := currency;
                  Stripe.p_customer := customerId;
                  Stripe.p_metadata :=
                    {[ "orderId" := orderId; "userId" := userId;
                       "walletAmount" := pretty walletAmount ]};
                  Stripe.p_automatic_payment_methods := (true, "never");
                  Stripe.p_payment_method := paymentMethodId;
                  Stripe.p_confirm := false;
                  Stripe.p_off_session := false |} in
             match paymentMethodId with
             | Some paymentMethodId => attach_ignoring_errors paymentMethodId customerId
             | None => mret tt
             end;;
             paymentIntent ← request (Stripe.paymentIntents_create paymentIntentParams)
                               (Stripe.paymentIntentsCreate stripe paymentIntentParams);
             mret (res_json
               [("clientSecret", str_or_null (Stripe.client_secret paymentIntent));
                ("paymentIntentId", Js.JStr (Stripe.id paymentIntent));
                ("walletOnly", Js.JBool false);
                ("status", Js.JStr (Stripe.status paymentIntent));
                ("requiresConfirmation",
                 Js.JBool (bool_decide (Stripe.status paymentIntent = "requires_confirmation")
                           || bool_decide (Stripe.status paymentIntent = "requires_payment_method")))])
         end
       | _, _ => mret (res_status_json 400 [("error", Js.JStr "Missing required fields")])
       end
     end)
    (λ err, mret (res_status_json 500 (error_details "Failed to create payment intent" err))).

(** [router.post("/set-default-card", ...)] *)
Definition set_default_card (now : Clock) (customerId paymentMethodId userId : option string) : Async Response :=
  try_catch
    (match Js.truthy customerId, Js.truthy paymentMethodId, Js.truthy userId with
     | Some customerId, Some paymentMethodId, Some userId =>
       request (Stripe.customers_update customerId paymentMethodId)
         (Stripe.customersUpdate stripe customerId paymentMethodId);;
       updateUser userId ["defaultPaymentMethod"; "updatedAt"]
         (λ u, User.with_updatedAt (IsoString (isoNow now))
                 (User.with_defaultPaymentMethod (Some paymentMethodId) u));;
       mret (res_json [("success", Js.JBool true);
                       ("message", Js.JStr "Default card updated successfully")])
     | _, _, _ => mret (res_status_json 400 [("error", Js.JStr "Missing required data")])
     end)
    (λ err, mret (res_status_json 500
                    [("error", Js.JStr (message_or "Failed to set default card" err))])).

(** [router.delete("/card/:paymentMethodId", ...)]: [paymentMethodId] is
    the route parameter, [userId] comes from the body. *)
Definition delete_card (now : Clock) (paymentMethodId : string) (userId : option string) : Async Response :=
  try_catch
    (match Js.truthy (Some paymentMethodId), Js.truthy userId with
     | Some paymentMethodId, Some userId =>
       (* detach from Stripe *)
       request (Stripe.paymentMethods_detach paymentMethodId)
         (Stripe.paymentMethodsDetach stripe paymentMethodId);;
       (* remove from Firestore *)
       userDoc ← getUser userId;
       match userDoc with
       | Some userData =>
         let savedCards := default [] (User.savedCards userData) in
         let updatedCards :=
           filter (λ card, Card.id card ≠ paymentMethodId) savedCards in
         updateUser userId ["savedCards"; "defaultPaymentMethod"; "updatedAt"]
           (λ u, User.with_updatedAt (IsoString (isoNow now))
                   (User.with_defaultPaymentMethod
                      (if decide (User.defaultPaymentMethod userData = Some paymentMethodId)
                       then None
                       else User.defaultPaymentMethod userData)
                      (User.with_savedCards updatedCards u)))
       | None => mret tt
       end;;
       mret (res_json [("success", Js.JBool true);
                       ("message", Js.JStr "Card removed successfully")])
     | _, _ => mret (res_status_json 400 [("error", Js.JStr "Missing required data")])
     end)
    (λ error, mret (res_status_json 500
                      [("error", Js.JStr (message_or "Failed to remove card" error))])).

(** The ledger entry written by a successful top-up. *)
Definition deposit (now : Clock) (amount currentBalance newBalance : Z)
    (paymentIntent : Stripe.PaymentIntent) (paymentMethodId : option string)
    (saveCard : bool) : WalletTransaction.t :=
  {| WalletTransaction.type := "deposit";
     WalletTransaction.amount := amount;
     WalletTransaction.previousBalance := currentBalance;
     WalletTransaction.newBalance := newBalance;
     WalletTransaction.timestamp := isoNow now;
     WalletTransaction.status := "completed";
     WalletTransaction.description := "Wallet top-up via card";
     WalletTransaction.stripePaymentIntentId := Stripe.id paymentIntent;
     WalletTransaction.stripeChargeId := Js.truthy (Stripe.latest_charge paymentIntent);
     WalletTransaction.paymentMethod :=
       match paymentMethodId with Some _ => "saved_card" | None => "new_card" end;
     WalletTransaction.saveCard := saveCard |}.

(** [router.post("/add-money-to-wallet", ...)], from the created intent
    on: the answer that asks for confirmation, or the credit of the wallet
    and the final answer. *)
Definition add_money_settle (now : Clock) (userId : string) (userData : User.t)
    (amount : Z) (paymentMethodId : option string) (saveCard : bool)
    (paymentIntent : Stripe.PaymentIntent) : Async Response :=
  let status := Stripe.status paymentIntent in
  (* if payment requires confirmation, return client secret *)
  if bool_decide (status = "requires_action")
     || bool_decide (status = "requires_payment_method")
  then
    mret (res_json
      [("requiresConfirmation", Js.JBool true);
       ("clientSecret", str_or_null (Stripe.client_secret paymentIntent));
       ("paymentIntentId", Js.JStr (Stripe.id paymentIntent));
       ("status", Js.JStr status)])
  else
    (* if payment succeeded, update user's wallet balance *)
    (if bool_decide (status = "succeeded") then
       let currentBalance := default 0 (User.walletBalance userData) in
       let newBalance := currentBalance + amount in
       updateUser userId ["walletBalance"; "updatedAt"; "walletTransactions"]
         (λ u, User.with_walletTransactions
                 (arrayUnion
                    (deposit now amount currentBalance newBalance
                       paymentIntent paymentMethodId saveCard)
                    (User.walletTransactions u))
                 (User.with_updatedAt (IsoString (isoNow now))
                    (User.with_walletBalance newBalance u)));;
       (* if saveCard is true and a new card was used, save it *)
       match saveCard, paymentMethodId, Js.truthy (Stripe.payment_method paymentIntent) with
       | true, None, Some payment_method =>
         try_catch
           (paymentMethod ← request (Stripe.paymentMethods_retrieve payment_method)
                              (Stripe.paymentMethodsRetrieve stripe payment_method);
            updateUser userId ["savedCards"; "updatedAt"]
              (λ u, User.with_updatedAt (IsoString (isoNow now))
                      (User.with_savedCards
                         (arrayUnion
                            (cardData now (Stripe.pm_id paymentMethod) paymentMethod)
                            (default [] (User.savedCards u))) u)))
           (λ error, mret tt)
       | _, _, _ => mret tt
       end
     else mret tt);;
    mret (res_json
      [("success", Js.JBool true);
       ("paymentIntentId", Js.JStr (Stripe.id paymentIntent));
       ("status", Js.JStr status);
       ("requiresConfirmation", Js.JBool false);
       ("amountAdded", Js.JNum amount);
       ("newBalance", Js.JNum (default 0 (User.walletBalance userData) + amount))]).

(** The request object of the top-up: [confirm] and [off_session] stay set
    only when a saved payment method is used. *)
Definition top_up_params (amount : Z) (currency customerId userId : string)
    (saveCard : bool) (paymentMethodId : option string) : Stripe.PaymentIntentParams :=
  {| Stripe.p_amount := amount;
     Stripe.p_currency := currency;
     Stripe.p_customer := customerId;
     Stripe.p_metadata :=
       {[ "userId" := userId; "type" := "wallet_top_up";
          "saveCard" := bool_toString saveCard ]};
     Stripe.p_automatic_payment_methods := (true, "never");
     Stripe.p_payment_method := paymentMethodId;
     Stripe.p_confirm := bool_decide (is_Some paymentMethodId);
     Stripe.p_off_session := bool_decide (is_Some paymentMethodId) |}.

(** [router.post("/add-money-to-wallet", ...)] *)
Definition add_money_to_wallet (now : Clock) (req : AddMoneyToWallet.body) : Async Response :=
  try_catch
    (let saveCard := default false (AddMoneyToWallet.saveCard req) in
     let currency := default "gbp" (AddMoneyToWallet.currency req) in
     match Js.truthy_num (AddMoneyToWallet.amount req) with
     | None => mret (res_status_json 400 [("error", Js.JStr "Invalid amount")])
     | Some amount =>
       if bool_decide (amount ≤ 0)
       then mret (res_status_json 400 [("error", Js.JStr "Invalid amount")])
       else
       match Js.truthy (AddMoneyToWallet.userId req) with
       | None => mret (res_status_json 400 [("error", Js.JStr "Missing user ID")])
       | Some userId =>
         userDoc ← getUser userId;
         match userDoc with
         | None => mret (res_status_json 404 [("error", Js.JStr "User not found")])
         | Some userData =>
           customerId ← getOrCreateCustomer userId (User.email userData);
           let paymentMethodId := Js.truthy (AddMoneyToWallet.paymentMethodId req) in
           let paymentIntentParams :=
             top_up_params amount currency customerId userId saveCard paymentMethodId in
           match paymentMethodId with
           | Some paymentMethodId => attach_ignoring_errors paymentMethodId customerId
           | None => mret tt
           end;;
           paymentIntent ← request (Stripe.paymentIntents_create paymentIntentParams)
                             (Stripe.paymentIntentsCreate stripe paymentIntentParams);
           add_money_settle now userId userData amount paymentMethodId saveCard
             paymentIntent
         end
       end
     end)
    (λ err, mret (res_status_json 500 (error_details "Failed to add money to wallet" err))).

End Payments.

(** ** Running a handler *)

(** A handler is run from a database state; the result is its outcome, the
    database it leaves and the effects it issued, in order. *)
Definition exec {A} (m : Async A) (d : Firestore) : Outcome A * Firestore * list Effect :=
  let '(r, w) := m {| db := d; trace := [] |} in (r, db w, trace w).

Definition outcome {A} (x : Outcome A * Firestore * list Effect) : Outcome A := x.1.1.
Definition final_db {A} (x : Outcome A * Firestore * list Effect) : Firestore := x.1.2.
Definition effects {A} (x : Outcome A * Firestore * list Effect) : list Effect := x.2.

(** The database writes and the processor requests among some effects. *)
Definition writes (t : list Effect) : list Effect := List.filter is_write t.
Definition requests (t : list Effect) : list Effect := List.filter is_request t.

(** [is_update c id k e]: [e] is an update of document [id] of collection
    [c] that writes field [k]. *)
Definition is_update (c : Collection) (id k : string) (e : Effect) : bool :=
  match e with
  | FsUpdate c' id' fields =>
    bool_decide (c = c') && bool_decide (id = id') && bool_decide (k ∈ fields)
  | _ => false
  end.

Fixpoint count (p : Effect → bool) (t : list Effect) : nat :=
  match t with
  | [] => 0%nat
  | e :: t' => ((if p e then 1 else 0) + count p t')%nat
  end.

(** ** Quantities used in the statements *)

(** The balance that [handlePaymentSuccess] writes for a user, if it
    writes one. *)
Definition deduction (Number : string → Js.num)
    (paymentIntent : Stripe.PaymentIntent) (user : User.t) : option Z :=
  match walletAmountNum Number paymentIntent with
  | Js.Num w =>
    if bool_decide (0 < w ∧ 0 ≤ default 0 (User.walletBalance user) - w)
    then Some (default 0 (User.walletBalance user) - w)
    else None
  | Js.NaN => None
  end.

(** The user document after a payment was reconciled: the balance
    [newBalance], when one is written, and the order in the history. *)
Definition user_paid (now : Clock) (orderId : string) (newBalance : option Z) (u : User.t) : User.t :=
  let u' := match newBalance with
            | Some b => User.with_updatedAt (ServerTimestamp (serverTime now))
                          (User.with_walletBalance b u)
            | None => u
            end in
  User.with_updatedAt (ServerTimestamp (serverTime now))
    (User.with_orderHistory (arrayUnion orderId (User.orderHistory u')) u').

(** Delivering the same event once per clock reading, in order: the final
    database and all the effects issued. *)
Fixpoint redeliver (Number : string → Js.num) (paymentIntent : Stripe.PaymentIntent)
    (clocks : list Clock) (d : Firestore) : Firestore * list Effect :=
  match clocks with
  | [] => (d, [])
  | now :: rest =>
    let x := exec (handlePaymentSuccess Number now paymentIntent) d in
    let '(d', t) := redeliver Number paymentIntent rest (final_db x) in
    (d', effects x ++ t)
  end.

(** The event names no order and user that both exist: a metadata key is
    missing or empty, or one of the two documents is. *)
Definition missing_target (paymentIntent : Stripe.PaymentIntent) (d : Firestore) : Prop :=
  match Js.truthy (metadata_of paymentIntent !! "orderId"),
        Js.truthy (metadata_of paymentIntent !! "userId") with
  | Some orderId, Some userId => orders d !! orderId = None ∨ users d !! userId = None
  | _, _ => True
  end.

(** What [getOrCreateCustomer] answers for an existing user: the stored
    customer identity, or else the processor's answer to the creation
    request. *)
Definition customer_email (userId : string) (user : User.t) : string :=
  default ("user_" +:+ userId +:+ "@example.com") (Js.truthy (User.email user)).

Definition customer_of (stripe : Stripe.Api) (userId : string) (user : User.t) : Js.error + string :=
  match Js.truthy (User.stripeCustomerId user) with
  | Some c => inr c
  | None => Stripe.customersCreate stripe (customer_email userId user) userId
  end.

(** [!amount || amount <= 0] *)
Definition invalid_amount (amount : option Z) : Prop :=
  match amount with None => True | Some a => a ≤ 0 end.

(** The response fields that the interface of [create-payment-intent]
    declares. *)
Definition declared_fields : list string :=
  ["clientSecret"; "paymentIntentId"; "walletOnly"; "status"; "requiresConfirmation"].

(** The answer of the top-up once the intent needs no confirmation. *)
Definition top_up_done (paymentIntent : Stripe.PaymentIntent) (amount previousBalance : Z) : Response :=
  {| status := 200;
     body := Json [("success", Js.JBool true);
                   ("paymentIntentId", Js.JStr (Stripe.id paymentIntent));
                   ("status", Js.JStr (Stripe.status paymentIntent));
                   ("requiresConfirmation", Js.JBool false);
                   ("amountAdded", Js.JNum amount);
                   ("newBalance", Js.JNum (previousBalance + amount))] |}.

(** [savedCards || []] *)
Definition savedCards_of (u : User.t) : list Card.t := default [] (User.savedCards u).

(** [walletBalance || 0] *)
Definition walletBalance_of (u : User.t) : Z := default 0 (User.walletBalance u).

(** ** A concrete world

    A processor double, a decimal [Number] and a small database, on which
    the statements below are instantiated. *)

Module Demo.

Definition clock : Clock :=
  {| serverTime := 1700000000; isoNow := "2023-11-14T22:13:20.000Z" |}.

Definition later : Clock :=
  {| serverTime := 1700000060; isoNow := "2023-11-14T22:14:20.000Z" |}.

Definition digit (a : Ascii.ascii) : option Z :=
  let n := Z.of_nat (Ascii.nat_of_ascii a) - 48 in
  if bool_decide (0 ≤ n ≤ 9) then Some n else None.

Fixpoint digits (acc : Z) (s : string) : option Z :=
  match s with
  | EmptyString => Some acc
  | String a s' => d ← digit a; digits (10 * acc + d) s'
  end.

(** [Number] on the decimal spellings of the non-negative integers (the
    empty string is [0]); any other text is taken to [NaN]. *)
Definition Number (s : string) : Js.num :=
  match digits 0 s with Some z => Js.Num z | None => Js.NaN end.

Definition bad_signature : Js.error :=
  Js.Error "No signatures found matching the expected signature for payload"
           (Some "StripeSignatureVerificationError") None.

Definition card_declined : Js.error :=
  Js.Error "No such PaymentMethod" (Some "StripeInvalidRequestError")
           (Some "resource_missing").

(** An intent [pi_1] with the given status and metadata. *)
Definition intent (status : string) (metadata : gmap string string) : Stripe.PaymentIntent :=
  {| Stripe.id := "pi_1";
     Stripe.status := status;
     Stripe.client_secret := Some "pi_1_secret";
     Stripe.amount := 600;
     Stripe.latest_charge := Some "ch_1";
     Stripe.payment_method := None;
     Stripe.metadata := Some metadata;
     Stripe.last_payment_error := Some {| Stripe.pe_message := Some "Your card was declined." |} |}.

(** A processor that answers every request, creates intents with status
    [status], detaches cards only when [detaches] holds, and verifies a
    webhook body when the signature header equals the secret, decoding it
    to [event]. *)
Definition stripe (status : string) (detaches : bool) (event : Stripe.Event) : Stripe.Api :=
  {| Stripe.customersCreate _ userId := inr ("cus_" +:+ userId);
     Stripe.customersUpdate _ _ := inr tt;
     Stripe.paymentMethodsAttach _ _ := inr tt;
     Stripe.paymentMethodsDetach _ := if detaches then inr tt else inl card_declined;
     Stripe.paymentMethodsRetrieve pm :=
       inr {| Stripe.pm_id := pm; Stripe.card_brand := "visa";
              Stripe.card_last4 := "4242"; Stripe.card_exp_month := 12;
              Stripe.card_exp_year := 2030 |};
     Stripe.paymentIntentsCreate p :=
       inr {| Stripe.id := "pi_1";
              Stripe.status := status;
              Stripe.client_secret := Some "pi_1_secret";
              Stripe.amount := Stripe.p_amount p;
              Stripe.latest_charge := Some "ch_1";
              Stripe.payment_method := Stripe.p_payment_method p;
              Stripe.metadata := Some (Stripe.p_metadata p);
              Stripe.last_payment_error := None |};
     Stripe.constructEvent _ sig secret :=
       match sig with
       | Some s => if decide (sig = secret) then inr event else inl bad_signature
       | None => inl bad_signature
       end |}.

Definition visa : Card.t := Card.Make "pm_1" "visa" "4242" 12 2030 "2023-01-01T00:00:00.000Z".
Definition amex : Card.t := Card.Make "pm_2" "amex" "0005" 6 2031 "2023-02-01T00:00:00.000Z".

(** User [u1]: two saved cards, [pm_1] the default. *)
Definition user (balance : Z) : User.t :=
  {| User.email := Some "ada@example.com";
     User.stripeCustomerId := Some "cus_1";
     User.walletBalance := Some balance;
     User.savedCards := Some [visa; amex];
     User.defaultPaymentMethod := Some "pm_1";
     User.walletTransactions := [];
     User.orderHistory := [];
     User.updatedAt := None |}.

(** Order [o1] with the given payment status. *)
Definition order (paymentStatus : string) : Order.t :=
  {| Order.paymentStatus := Some paymentStatus;
     Order.orderStatus := Some "pending";
     Order.verified := Some false;
     Order.currency := Some "GBP";
     Order.stripePaymentIntentId := None;
     Order.stripeChargeId := None;
     Order.paidAt := None;
     Order.paymentError := None;
     Order.updatedAt := None |}.

Definition database (paymentStatus : string) (balance : Z) : Firestore :=
  {| orders := {[ "o1" := order paymentStatus ]};
     users := {[ "u1" := user balance ]} |}.

(** The metadata that [create-payment-intent] attaches for order [o1] of
    user [u1] with 400 paid from the wallet. *)
Definition metadata : gmap string string :=
  {[ "orderId" := "o1"; "userId" := "u1"; "walletAmount" := "400" ]}.

(** A request that pays order [o1] wholly from the wallet. *)
Definition wallet_only_request : CreatePaymentIntent.body :=
  {| CreatePaymentIntent.amount := Some 500;
     CreatePaymentIntent.orderId := Some "o1";
     CreatePaymentIntent.userId := Some "u1";
     CreatePaymentIntent.paymentMethodId := None;
     CreatePaymentIntent.walletAmount := Some 500;
     CreatePaymentIntent.currency := None |}.

(** A top-up of 500 with a new card by user [u1]. *)
Definition top_up_request : AddMoneyToWallet.body :=
  {| AddMoneyToWallet.amount := Some 500;
     AddMoneyToWallet.userId := Some "u1";
     AddMoneyToWallet.paymentMethodId := None;
     AddMoneyToWallet.saveCard := None;
     AddMoneyToWallet.currency := None |}.

(** A payment request without an amount. *)
Definition no_amount_request : CreatePaymentIntent.body :=
  {| CreatePaymentIntent.amount := None;
     CreatePaymentIntent.orderId := Some "o1";
     CreatePaymentIntent.userId := Some "u1";
     CreatePaymentIntent.paymentMethodId := None;
     CreatePaymentIntent.walletAmount := None;
     CreatePaymentIntent.currency := None |}.

(** The intent that [stripe status] creates for [top_up_request]. *)
Definition top_up_intent (status : string) : Stripe.PaymentIntent :=
  {| Stripe.id := "pi_1";
     Stripe.status := status;
     Stripe.client_secret := Some "pi_1_secret";
     Stripe.amount := 500;
     Stripe.latest_charge := Some "ch_1";
     Stripe.payment_method := None;
     Stripe.metadata :=
       Some {[ "userId" := "u1"; "type" := "wallet_top_up"; "saveCard" := "false" ]};
     Stripe.last_payment_error := None |}.

(** A payment of 1000 for order [o1], 400 of it from the wallet. *)
Definition hybrid_request : CreatePaymentIntent.body :=
  {| CreatePaymentIntent.amount := Some 1000;
     CreatePaymentIntent.orderId := Some "o1";
     CreatePaymentIntent.userId := Some "u1";
     CreatePaymentIntent.paymentMethodId := None;
     CreatePaymentIntent.walletAmount := Some 400;
     CreatePaymentIntent.currency := None |}.

End Demo.

(** ** The remaining routes of [src/routes/payments.js] *)

(** What a route answers when it does not answer with a flat object: the
    value it serialises (status 200), or an error response. *)
Inductive Answer (A : Type) :=
| Object (a : A)
| Problem (r : Response).
Arguments Object {A} a.
Arguments Problem {A} r.

Section OtherRoutes.

Context (stripe : Stripe.Api).

(** [router.get("/cards/:userId", ...)] *)
Definition get_cards (userId : string) : Async (Answer (list Card.t)) :=
  try_catch
    (userDoc ← getUser userId;
     match userDoc with
     | None => mret (Problem (res_status_json 404 [("error", Js.JStr "User not found")]))
     | Some userData => mret (Object (default [] (User.savedCards userData)))
     end)
    (λ err, mret (Problem (res_status_json 500
                             [("error", Js.JStr (message_or "Failed to fetch cards" err))]))).

(** [router.get("/payment-method/:id", ...)] *)
Definition get_payment_method (id : string) : Async (Answer Stripe.PaymentMethod) :=
  try_catch
    (paymentMethod ← request (Stripe.paymentMethods_retrieve id)
                       (Stripe.paymentMethodsRetrieve stripe id);
     mret (Object paymentMethod))
    (λ error, mret (Problem (res_status_json 500
                               [("error", Js.JStr (message_or "Failed to retrieve payment method" error))]))).

(** [router.post("/attach-payment-method", ...)]: [Object tt] stands for
    the processor's payment-method object, which the route passes on
    unread. *)
Definition attach_payment_method (paymentMethodId customerId : option string) : Async (Answer unit) :=
  try_catch
    (match Js.truthy paymentMethodId, Js.truthy customerId with
     | Some paymentMethodId, Some customerId =>
       paymentMethod ← request (Stripe.paymentMethods_attach paymentMethodId customerId)
                          (Stripe.paymentMethodsAttach stripe paymentMethodId customerId);
       mret (Object paymentMethod)
     | _, _ => mret (Problem (res_status_json 400 [("error", Js.JStr "Missing required data")]))
     end)
    (λ error,
       if bool_decide (Js.type error = Some "StripeInvalidRequestError")
          && bool_decide (Js.code error = Some "resource_missing")
       then mret (Problem (res_status_json 400
                             [("error", Js.JStr "Payment method could not be attached")]))
       else mret (Problem (res_status_json 500
                             [("error", Js.JStr (message_or "Failed to attach payment method" error))]))).

End OtherRoutes.

(** ** More quantities used in the statements *)

(** The processor [stripe] with another answer to attach requests. *)
Definition with_attach (f : string → string → Js.error + unit) (stripe : Stripe.Api) : Stripe.Api :=
  {| Stripe.customersCreate := Stripe.customersCreate stripe;
     Stripe.customersUpdate := Stripe.customersUpdate stripe;
     Stripe.paymentMethodsAttach := f;
     Stripe.paymentMethodsDetach := Stripe.paymentMethodsDetach stripe;
     Stripe.paymentMethodsRetrieve := Stripe.paymentMethodsRetrieve stripe;
     Stripe.paymentIntentsCreate := Stripe.paymentIntentsCreate stripe;
     Stripe.constructEvent := Stripe.constructEvent stripe |}.

(** The request object that [create-payment-intent] sends. *)
Definition intent_params (stripeAmount walletAmount : Z) (currency customerId orderId userId : string)
    (paymentMethodId : option string) : Stripe.PaymentIntentParams :=
  {| Stripe.p_amount := stripeAmount;
     Stripe.p_currency := currency;
     Stripe.p_customer := customerId;
     Stripe.p_metadata :=
       {[ "orderId" := orderId; "userId" := userId;
          "walletAmount" := pretty walletAmount ]};
     Stripe.p_automatic_payment_methods := (true, "never");
     Stripe.p_payment_method := paymentMethodId;
     Stripe.p_confirm := false;
     Stripe.p_off_session := false |}.

(** The payment-method ids of some cards, in order. *)
Definition ids_of (cards : list Card.t) : list string := Card.id <$> cards.

(** The user document after [handleSetupIntentSuccess] saved a card. *)
Definition user_with_card (now : Clock) (card : Card.t) (u : User.t) : User.t :=
  User.with_updatedAt (ServerTimestamp (serverTime now))
    (User.with_savedCards (arrayUnion card (default [] (User.savedCards u))) u).

(** The document that the customer query of [handleSetupIntentSuccess]
    finds. *)
Definition customer_query (c : string) (us : gmap string User.t) : option (string * User.t) :=
  head (filter (λ kv, User.stripeCustomerId kv.2 = Some c) (map_to_list us)).

(** Every stored wallet balance is non-negative. *)
Definition wallets_nonnegative (d : Firestore) : Prop :=
  ∀ uid u b, users d !! uid = Some u → User.walletBalance u = Some b → 0 ≤ b.


(** [u'] is [u] but for the stored customer identity. *)
Definition same_but_customer (u u' : User.t) : Prop :=
  User.email u' = User.email u ∧
  User.walletBalance u' = User.walletBalance u ∧
  User.savedCards u' = User.savedCards u ∧
  User.defaultPaymentMethod u' = User.defaultPaymentMethod u ∧
  User.walletTransactions u' = User.walletTransactions u ∧
  User.orderHistory u' = User.orderHistory u ∧
  User.updatedAt u' = User.updatedAt u.

(** The answer of [create-payment-intent] for a created intent. *)
Definition intent_answer (paymentIntent : Stripe.PaymentIntent) : Response :=
  {| status := 200;
     body := Json
       [("clientSecret", str_or_null (Stripe.client_secret paymentIntent));
        ("paymentIntentId", Js.JStr (Stripe.id paymentIntent));
        ("walletOnly", Js.JBool false);
        ("status", Js.JStr (Stripe.status paymentIntent));
        ("requiresConfirmation",
         Js.JBool (bool_decide (Stripe.status paymentIntent = "requires_confirmation")
                   || bool_decide (Stripe.status paymentIntent = "requires_payment_method")))] |}.

(** The users after [getOrCreateCustomer] resolved [customerId] for the
    existing user [u]: unchanged when the identity was stored, else with
    the identity merged in. *)
Definition users_with_customer (userId customerId : string) (u : User.t)
    (us : gmap string User.t) : gmap string User.t :=
  match Js.truthy (User.stripeCustomerId u) with
  | Some _ => us
  | None => <[userId := User.with_stripeCustomerId customerId u]> us
  end.

(** The requests and reads of that resolution. *)
Definition customer_effects (userId : string) (u : User.t) : list Effect :=
  match Js.truthy (User.stripeCustomerId u) with
  | Some _ => [FsGet Users userId]
  | None => [FsGet Users userId;
             StripeRequest (Stripe.customers_create (customer_email userId u) userId);
             FsSetMerge Users userId ["stripeCustomerId"]]
  end.

(** The attach request, sent when a payment method is supplied. *)
Definition attach_effects (paymentMethodId : option string) (customerId : string) : list Effect :=
  match paymentMethodId with
  | Some pm => [StripeRequest (Stripe.paymentMethods_attach pm customerId)]
  | None => []
  end.

(** [u'] is [u] after top-ups: the balance is the same or larger, no
    ledger entry and no saved card is lost, and the email, the default
    card and the order history are the same. *)
Definition grown (u u' : User.t) : Prop :=
  (User.walletBalance u' = User.walletBalance u
   ∨ ∃ a, 0 < a ∧ User.walletBalance u' = Some (walletBalance_of u + a)) ∧
  (∀ t, t ∈ User.walletTransactions u → t ∈ User.walletTransactions u') ∧
  (∀ k, k ∈ savedCards_of u → k ∈ savedCards_of u') ∧
  User.defaultPaymentMethod u' = User.defaultPaymentMethod u ∧
  User.orderHistory u' = User.orderHistory u ∧
  User.email u' = User.email u.

(** The user document after a top-up was credited: [ud] is the document
    read at the start of the request, [u] the document updated. *)
Definition credited (now : Clock) (amount : Z) (ud : User.t)
    (paymentIntent : Stripe.PaymentIntent) (paymentMethodId : option string)
    (saveCard : bool) (u : User.t) : User.t :=
  User.with_walletTransactions
    (arrayUnion
       (deposit now amount (walletBalance_of ud) (walletBalance_of ud + amount)
          paymentIntent paymentMethodId saveCard)
       (User.walletTransactions u))
    (User.with_updatedAt (IsoString (isoNow now))
       (User.with_walletBalance (walletBalance_of ud + amount) u)).

(** The user document after a top-up saved the new card. *)
Definition card_saved (now : Clock) (card : Card.t) (u : User.t) : User.t :=
  User.with_updatedAt (IsoString (isoNow now))
    (User.with_savedCards (arrayUnion card (default [] (User.savedCards u))) u).

(** The card that a successful top-up tries to save, with the processor's
    answer to the retrieval: there is one when [saveCard] is set, no
    payment method was supplied and the intent names the method used. *)
Definition new_card_of (stripe : Stripe.Api) (saveCard : bool)
    (paymentMethodId : option string) (paymentIntent : Stripe.PaymentIntent)
    : option (string * (Js.error + Stripe.PaymentMethod)) :=
  match saveCard, paymentMethodId, Js.truthy (Stripe.payment_method paymentIntent) with
  | true, None, Some pm => Some (pm, Stripe.paymentMethodsRetrieve stripe pm)
  | _, _, _ => None
  end.

(** ** More of the concrete world *)

Module Sample.

(** A processor that refuses every request with [Demo.card_declined]. *)
Definition refusing : Stripe.Api :=
  {| Stripe.customersCreate _ _ := inl Demo.card_declined;
     Stripe.customersUpdate _ _ := inl Demo.card_declined;
     Stripe.paymentMethodsAttach _ _ := inl Demo.card_declined;
     Stripe.paymentMethodsDetach _ := inl Demo.card_declined;
     Stripe.paymentMethodsRetrieve _ := inl Demo.card_declined;
     Stripe.paymentIntentsCreate _ := inl Demo.card_declined;
     Stripe.constructEvent _ _ _ := inl Demo.bad_signature |}.

(** The intent that [new_card] creates: paid at once with the new card
    [pm_9]. *)
Definition paid_with_new_card (p : Stripe.PaymentIntentParams) : Stripe.PaymentIntent :=
  {| Stripe.id := "pi_9";
     Stripe.status := "succeeded";
     Stripe.client_secret := Some "pi_9_secret";
     Stripe.amount := Stripe.p_amount p;
     Stripe.latest_charge := Some "ch_9";
     Stripe.payment_method := Some "pm_9";
     Stripe.metadata := Some (Stripe.p_metadata p);
     Stripe.last_payment_error := None |}.

(** A processor whose intents are paid at once with a new card, and that
    returns payment methods only when [retrieves] holds. *)
Definition new_card (retrieves : bool) : Stripe.Api :=
  {| Stripe.customersCreate _ userId := inr ("cus_" +:+ userId);
     Stripe.customersUpdate _ _ := inr tt;
     Stripe.paymentMethodsAttach _ _ := inr tt;
     Stripe.paymentMethodsDetach _ := inr tt;
     Stripe.paymentMethodsRetrieve pm :=
       if retrieves
       then inr {| Stripe.pm_id := pm; Stripe.card_brand := "mastercard";
                   Stripe.card_last4 := "4444"; Stripe.card_exp_month := 1;
                   Stripe.card_exp_year := 2031 |}
       else inl Demo.card_declined;
     Stripe.paymentIntentsCreate p := inr (paid_with_new_card p);
     Stripe.constructEvent _ _ _ := inl Demo.bad_signature |}.


(** A top-up of [amount] by user [u1] with a new card, to be saved or
    not. *)
Definition top_up (amount : Z) (saveCard : bool) : AddMoneyToWallet.body :=
  {| AddMoneyToWallet.amount := Some amount;
     AddMoneyToWallet.userId := Some "u1";
     AddMoneyToWallet.paymentMethodId := None;
     AddMoneyToWallet.saveCard := Some saveCard;
     AddMoneyToWallet.currency := None |}.

End Sample.

(** ** Symbolic execution *)

Ltac run :=
  unfold exec, outcome, final_db, effects, getOrder, getUser, updateOrder,
         updateUser, setUserMerge, queryUserByCustomer, request, emit, read_db,
         modify_db, throw, try_catch, mbind, mret, Async_bind, Async_ret,
         set_users, set_orders;
  cbn [db trace fst snd app users orders].

(** ** The reconciliation engine: [handlePaymentSuccess] case by case *)

Section WebhookFacts.

Context (Number : string → Js.num).

Lemma success_missing_metadata now pi d :
  Js.truthy (metadata_of pi !! "orderId") = None ∨
  Js.truthy (metadata_of pi !! "userId") = None →
  exec (handlePaymentSuccess Number now pi) d = (Returned tt, d, []).
Proof.
  unfold handlePaymentSuccess. intros [H|H]; rewrite H; [done|].
  by destruct (Js.truthy (_ !! "orderId")).
Qed.

Lemma success_missing_doc now pi d oid uid :
  Js.truthy (metadata_of pi !! "orderId") = Some oid →
  Js.truthy (metadata_of pi !! "userId") = Some uid →
  orders d !! oid = None ∨ users d !! uid = None →
  exec (handlePaymentSuccess Number now pi) d
  = (Returned tt, d, [FsGet Orders oid; FsGet Users uid]).
Proof.
  unfold handlePaymentSuccess. intros -> -> H. run.
  destruct H as [H|H]; rewrite H; [done|].
  by destruct (orders d !! oid).
Qed.

Lemma success_already_paid now pi d oid uid o u :
  Js.truthy (metadata_of pi !! "orderId") = Some oid →
  Js.truthy (metadata_of pi !! "userId") = Some uid →
  orders d !! oid = Some o → users d !! uid = Some u →
  Order.paymentStatus o = Some "paid" →
  exec (handlePaymentSuccess Number now pi) d
  = (Returned tt, d, [FsGet Orders oid; FsGet Users uid]).
Proof.
  unfold handlePaymentSuccess. intros -> -> Ho Hu Hp. run.
  rewrite Ho, Hu. by rewrite decide_True.
Qed.

Lemma success_unpaid now pi d oid uid o u :
  Js.truthy (metadata_of pi !! "orderId") = Some oid →
  Js.truthy (metadata_of pi !! "userId") = Some uid →
  orders d !! oid = Some o → users d !! uid = Some u →
  Order.paymentStatus o ≠ Some "paid" →
  exec (handlePaymentSuccess Number now pi) d
  = (Returned tt,
     {| orders := <[oid := order_paid now pi o]> (orders d);
        users := <[uid := user_paid now oid (deduction Number pi u) u]> (users d) |},
     [FsGet Orders oid; FsGet Users uid]
       ++ match deduction Number pi u with
          | Some _ => [FsUpdate Users uid wallet_fields]
          | None => []
          end
       ++ [FsUpdate Orders oid paid_fields; FsUpdate Users uid history_fields]).
Proof.
  unfold handlePaymentSuccess. intros -> -> Ho Hu Hp. destruct d as [os us].
  run. cbn [orders users] in Ho, Hu.
  rewrite Ho, Hu. rewrite decide_False by done.
  unfold deduction, user_paid.
  destruct (walletAmountNum Number pi) as [w|];
    [|run; rewrite Ho; run; rewrite Hu; done].
  destruct (bool_decide (0 < w)) eqn:Hw.
  - destruct (bool_decide (0 ≤ _)) eqn:Hb.
    + rewrite bool_decide_true.
      2:{ apply bool_decide_eq_true in Hw, Hb. done. }
      run. rewrite Hu. run. rewrite Ho. run. rewrite lookup_insert_eq. run.
      by rewrite insert_insert_eq.
    + rewrite bool_decide_false.
      2:{ apply bool_decide_eq_false in Hb. tauto. }
      run. rewrite Ho. run. rewrite Hu. done.
  - rewrite bool_decide_false.
    2:{ apply bool_decide_eq_false in Hw. tauto. }
    run. rewrite Ho. run. rewrite Hu. done.
Qed.

(** Whatever the event and the database, a balance that
    [handlePaymentSuccess] changes is changed to a value that is not
    negative. *)
Lemma success_balance_never_negative now pi d uid u' :
  users (final_db (exec (handlePaymentSuccess Number now pi) d)) !! uid = Some u' →
  User.walletBalance <$> users d !! uid = Some (User.walletBalance u')
  ∨ ∃ b, User.walletBalance u' = Some b ∧ 0 ≤ b.
Proof.
  destruct (Js.truthy (metadata_of pi !! "orderId")) as [oid|] eqn:Eo;
    [|rewrite success_missing_metadata by auto; cbn; intros ->; by left].
  destruct (Js.truthy (metadata_of pi !! "userId")) as [uid0|] eqn:Eu;
    [|rewrite success_missing_metadata by auto; cbn; intros ->; by left].
  destruct (orders d !! oid) as [o|] eqn:Ho;
    [|erewrite success_missing_doc by eauto; cbn; intros ->; by left].
  destruct (users d !! uid0) as [u|] eqn:Hu;
    [|erewrite success_missing_doc by eauto; cbn; intros ->; by left].
  destruct (decide (Order.paymentStatus o = Some "paid")) as [Hp|Hp];
    [erewrite success_already_paid by eauto; cbn; intros ->; by left|].
  erewrite success_unpaid by eauto. cbn.
  destruct (decide (uid0 = uid)) as [->|Hne].
  - rewrite lookup_insert_eq. intros [= <-]. rewrite Hu. cbn.
    unfold deduction. destruct (walletAmountNum Number pi) as [w|]; [|by left].
    case_bool_decide as Hw; [|by left]. right. eexists. split; [done|]. lia.
  - rewrite lookup_insert_ne by done. intros ->. by left.
Qed.

End WebhookFacts.

(** Once the order is paid, any number of further deliveries of the event
    leaves the database alone and writes nothing. *)
Lemma redeliver_paid Number pi clocks d oid uid o u :
  Js.truthy (metadata_of pi !! "orderId") = Some oid →
  Js.truthy (metadata_of pi !! "userId") = Some uid →
  orders d !! oid = Some o → users d !! uid = Some u →
  Order.paymentStatus o = Some "paid" →
  (redeliver Number pi clocks d).1 = d ∧
  writes (redeliver Number pi clocks d).2 = [].
Proof.
  intros Eo Eu Ho Hu Hp. induction clocks as [|now rest [IHd IHw]]; [done|].
  cbn [redeliver].
  rewrite (success_already_paid Number now pi d oid uid o u) by done.
  unfold final_db, effects. cbn [fst snd].
  destruct (redeliver Number pi rest d) as [d' t]. cbn [fst snd] in *.
  split; [done|]. unfold writes in *. by rewrite List.filter_app, IHw.
Qed.

(** However often the event is delivered, the outcome is that of the
    first delivery: same database, same writes. *)
Lemma redeliver_once Number pi now clocks d oid uid o u :
  Js.truthy (metadata_of pi !! "orderId") = Some oid →
  Js.truthy (metadata_of pi !! "userId") = Some uid →
  orders d !! oid = Some o → users d !! uid = Some u →
  let first := exec (handlePaymentSuccess Number now pi) d in
  (redeliver Number pi (now :: clocks) d).1 = final_db first ∧
  writes (redeliver Number pi (now :: clocks) d).2 = writes (effects first).
Proof.
  intros Eo Eu Ho Hu first. cbn [redeliver]. fold first.
  assert (∃ o' u', orders (final_db first) !! oid = Some o'
                   ∧ users (final_db first) !! uid = Some u'
                   ∧ Order.paymentStatus o' = Some "paid") as (o' & u' & Ho' & Hu' & Hp').
  { subst first. destruct (decide (Order.paymentStatus o = Some "paid")) as [Hp|Hp].
    - rewrite (success_already_paid Number now pi d oid uid o u) by done. by exists o, u.
    - rewrite (success_unpaid Number now pi d oid uid o u) by done.
      eexists _, _. cbn. by rewrite !lookup_insert_eq. }
  destruct (redeliver_paid Number pi clocks (final_db first) oid uid o' u')
    as [Hd Hw]; try done.
  destruct (redeliver Number pi clocks (final_db first)) as [d' t].
  cbn [fst snd] in *. split; [done|].
  unfold writes in *. rewrite List.filter_app, Hw. apply app_nil_r.
Qed.

(** ** Statements about the webhook *)

Lemma exec_then_ret {A B} (m : Async A) (b : B) d a d' t :
  exec m d = (Returned a, d', t) →
  exec (m ;; mret b) d = (Returned b, d', t).
Proof.
  unfold exec, mbind, Async_bind, mret, Async_ret.
  destruct (m _) as [[a'|e] w]; intros [= <- <- <-]; done.
Qed.

Lemma is_update_same c id k fields :
  is_update c id k (FsUpdate c id fields) = bool_decide (k ∈ fields).
Proof.
  unfold is_update.
  by rewrite (bool_decide_true (c = c)), (bool_decide_true (id = id)).
Qed.

(** C1. Delivering the same [payment_intent.succeeded] event a second time
    changes nothing: for an event whose metadata names an existing order
    and an existing user, the second run of [handlePaymentSuccess] (at any
    later time) returns, leaves the database as the first run left it and
    issues no write.  After the first run the order is paid.  Over both
    runs the order's payment status is written at most once; and when the
    order was not paid before, the two runs together write the payment
    status exactly once, append to the order history exactly once and
    write the wallet balance once if a deduction applies (not at all
    otherwise), so that the balance is deducted a single time and the
    history holds the order. *)
Theorem payment_success_idempotent
    (Number : string → Js.num) (now1 now2 : Clock)
    (pi : Stripe.PaymentIntent) (d : Firestore) (oid uid : string)
    (o : Order.t) (u : User.t) :
  Js.truthy (metadata_of pi !! "orderId") = Some oid →
  Js.truthy (metadata_of pi !! "userId") = Some uid →
  orders d !! oid = Some o →
  users d !! uid = Some u →
  let first := exec (handlePaymentSuccess Number now1 pi) d in
  let second := exec (handlePaymentSuccess Number now2 pi) (final_db first) in
  let both := effects first ++ effects second in
  outcome first = Returned tt ∧
  outcome second = Returned tt ∧
  final_db second = final_db first ∧
  writes (effects second) = [] ∧
  orders (final_db first) !! oid ≫= Order.paymentStatus = Some "paid" ∧
  (count (is_update Orders oid "paymentStatus") both ≤ 1)%nat ∧
  (Order.paymentStatus o ≠ Some "paid" →
   count (is_update Orders oid "paymentStatus") both = 1%nat ∧
   count (is_update Users uid "orderHistory") both = 1%nat ∧
   count (is_update Users uid "walletBalance") both
     = match deduction Number pi u with Some _ => 1%nat | None => 0%nat end ∧
   User.walletBalance <$> users (final_db second) !! uid
     = Some (match deduction Number pi u with
             | Some b => Some b
             | None => User.walletBalance u
             end) ∧
   User.orderHistory <$> users (final_db second) !! uid
     = Some (arrayUnion oid (User.orderHistory u))) ∧
  (Order.paymentStatus o = Some "paid" →
   final_db first = d ∧ writes (effects first) = []).
Proof.
  intros Eo Eu Ho Hu first second both.
  destruct (decide (Order.paymentStatus o = Some "paid")) as [Hp|Hp].
  - assert (first = (Returned tt, d, [FsGet Orders oid; FsGet Users uid])) as E1
      by (by eapply success_already_paid).
    assert (second = (Returned tt, d, [FsGet Orders oid; FsGet Users uid])) as E2.
    { subst second. rewrite E1. cbn. by eapply success_already_paid. }
    subst both. rewrite E1, E2. cbn. rewrite Ho. cbn.
    repeat split; try done; lia.
  - pose proof (success_unpaid Number now1 pi d oid uid o u Eo Eu Ho Hu Hp) as E1.
    fold first in E1.
    set (d1 := {| orders := <[oid:=order_paid now1 pi o]> (orders d);
                  users := <[uid:=user_paid now1 oid (deduction Number pi u) u]>
                             (users d) |}) in *.
    assert (second = (Returned tt, d1, [FsGet Orders oid; FsGet Users uid])) as E2.
    { subst second. rewrite E1. cbn. eapply success_already_paid; try done.
      - cbn. apply lookup_insert_eq.
      - cbn. apply lookup_insert_eq.
      - done. }
    subst both. rewrite E1, E2. unfold outcome, final_db, effects, writes.
    cbn [fst snd]. subst d1. cbn [orders users]. rewrite !lookup_insert_eq.
    assert (∀ c id k, count (is_update c id k)
              (([FsGet Orders oid; FsGet Users uid]
                ++ match deduction Number pi u with
                   | Some _ => [FsUpdate Users uid wallet_fields]
                   | None => []
                   end
                ++ [FsUpdate Orders oid paid_fields; FsUpdate Users uid history_fields])
               ++ [FsGet Orders oid; FsGet Users uid])
            = (match deduction Number pi u with
               | Some _ => if is_update c id k (FsUpdate Users uid wallet_fields) then 1 else 0
               | None => 0
               end
               + (if is_update c id k (FsUpdate Orders oid paid_fields) then 1 else 0)
               + (if is_update c id k (FsUpdate Users uid history_fields) then 1 else 0))%nat)
      as Hcount.
    { intros c id k. destruct (deduction Number pi u); cbn; lia. }
    rewrite !Hcount, !is_update_same.
    assert (is_update Orders oid "paymentStatus" (FsUpdate Users uid wallet_fields) = false)
      as -> by done.
    assert (is_update Orders oid "paymentStatus" (FsUpdate Users uid history_fields) = false)
      as -> by done.
    assert (is_update Users uid "orderHistory" (FsUpdate Orders oid paid_fields) = false)
      as -> by done.
    assert (is_update Users uid "walletBalance" (FsUpdate Orders oid paid_fields) = false)
      as -> by done.
    change (bool_decide ("paymentStatus" ∈ paid_fields)) with true.
    change (bool_decide ("orderHistory" ∈ history_fields)) with true.
    change (bool_decide ("orderHistory" ∈ wallet_fields)) with false.
    change (bool_decide ("walletBalance" ∈ wallet_fields)) with true.
    change (bool_decide ("walletBalance" ∈ history_fields)) with false.
    repeat split; try done.
    + destruct (deduction Number pi u); lia.
    + destruct (deduction Number pi u); lia.
    + destruct (deduction Number pi u); lia.
    + destruct (deduction Number pi u); lia.
    + by destruct (deduction Number pi u).
    + by destruct (deduction Number pi u).
Qed.

Lemma payment_success_idempotent_witness :
  let pi := Demo.intent "succeeded" Demo.metadata in
  let first := exec (handlePaymentSuccess Demo.Number Demo.clock pi) (Demo.database "unpaid" 1000) in
  let second := exec (handlePaymentSuccess Demo.Number Demo.later pi) (final_db first) in
  final_db second = final_db first ∧
  writes (effects second) = [] ∧
  User.walletBalance <$> users (final_db second) !! "u1" = Some (Some 600) ∧
  User.orderHistory <$> users (final_db second) !! "u1" = Some ["o1"].
Proof.
  intros pi first second.
  destruct (payment_success_idempotent Demo.Number Demo.clock Demo.later pi
              (Demo.database "unpaid" 1000) "o1" "u1"
              (Demo.order "unpaid") (Demo.user 1000))
    as (_ & _ & Hdb & Hw & _ & _ & Hunpaid & _);
    [vm_compute; reflexivity ..|].
  destruct Hunpaid as (_ & _ & _ & Hb & Hh); [vm_compute; discriminate|].
  split; [exact Hdb|]. split; [exact Hw|]. split; [exact Hb|exact Hh].
Defined.

(** C2. When the wallet part of a payment exceeds the balance, the
    deduction is skipped and the order is finalized all the same: for an
    event that reaches the deduction (its metadata names an existing order
    that is not paid yet and an existing user) with [walletAmount > 0] and
    [walletAmount > currentBalance], [handlePaymentSuccess] returns having
    written no wallet balance, leaves the balance of the user (and of
    every other user) as it was, and leaves the order with payment status
    "paid", order status "confirmed" and [verified] true. *)
Theorem insufficient_wallet_skips_deduction
    (Number : string → Js.num) (now : Clock)
    (pi : Stripe.PaymentIntent) (d : Firestore) (oid uid : string)
    (o : Order.t) (u : User.t) (w : Z) :
  Js.truthy (metadata_of pi !! "orderId") = Some oid →
  Js.truthy (metadata_of pi !! "userId") = Some uid →
  orders d !! oid = Some o →
  users d !! uid = Some u →
  Order.paymentStatus o ≠ Some "paid" →
  walletAmountNum Number pi = Js.Num w →
  0 < w →
  walletBalance_of u < w →
  let x := exec (handlePaymentSuccess Number now pi) d in
  outcome x = Returned tt ∧
  User.walletBalance <$> users (final_db x) !! uid = Some (User.walletBalance u) ∧
  (∀ uid', User.walletBalance <$> users (final_db x) !! uid'
           = User.walletBalance <$> users d !! uid') ∧
  count (is_update Users uid "walletBalance") (effects x) = 0%nat ∧
  ∃ o', orders (final_db x) !! oid = Some o' ∧
        Order.paymentStatus o' = Some "paid" ∧
        Order.orderStatus o' = Some "confirmed" ∧
        Order.verified o' = Some true.
Proof.
  intros Eo Eu Ho Hu Hp Hn Hw Hlt x.
  assert (deduction Number pi u = None) as Hd.
  { unfold deduction, walletBalance_of in *. rewrite Hn.
    rewrite bool_decide_false; [done|lia]. }
  pose proof (success_unpaid Number now pi d oid uid o u Eo Eu Ho Hu Hp) as E.
  fold x in E. rewrite Hd in E. rewrite E.
  unfold outcome, final_db, effects. cbn [fst snd orders users app].
  rewrite !lookup_insert_eq. cbn [count]. rewrite !is_update_same.
  change (bool_decide ("walletBalance" ∈ history_fields)) with false.
  assert (is_update Users uid "walletBalance" (FsUpdate Orders oid paid_fields) = false)
    as -> by done.
  repeat split; try done.
  - intros uid'. destruct (decide (uid = uid')) as [<-|Hne].
    + by rewrite lookup_insert_eq, Hu.
    + by rewrite lookup_insert_ne.
  - by eexists.
Qed.

(** Balance 100, wallet part 400: the order is paid, the balance stays. *)
Lemma insufficient_wallet_skips_deduction_witness :
  let x := exec (handlePaymentSuccess Demo.Number Demo.clock
                   (Demo.intent "succeeded" Demo.metadata))
                (Demo.database "unpaid" 100) in
  User.walletBalance <$> users (final_db x) !! "u1" = Some (Some 100) ∧
  ∃ o', orders (final_db x) !! "o1" = Some o' ∧
        Order.paymentStatus o' = Some "paid" ∧
        Order.orderStatus o' = Some "confirmed" ∧
        Order.verified o' = Some true.
Proof.
  intros x.
  destruct (insufficient_wallet_skips_deduction Demo.Number Demo.clock
              (Demo.intent "succeeded" Demo.metadata)
              (Demo.database "unpaid" 100) "o1" "u1"
              (Demo.order "unpaid") (Demo.user 100) 400)
    as (_ & Hb & _ & _ & Ho);
    [vm_compute; reflexivity| vm_compute; reflexivity| vm_compute; reflexivity
    | vm_compute; reflexivity| vm_compute; discriminate| vm_compute; reflexivity
    | lia | vm_compute; reflexivity |].
  split; [exact Hb|exact Ho].
Defined.

(** C3. A webhook request whose signature does not verify is answered
    with status 400 and the text "Webhook Error: " followed by the
    verifier's message; no handler runs: the database is unchanged and
    nothing is read, written or requested. *)
Theorem webhook_bad_signature
    (stripe : Stripe.Api) (secret : option string) (Number : string → Js.num)
    (now : Clock) (rawBody : string) (sig : option string)
    (err : Js.error) (d : Firestore) :
  Stripe.constructEvent stripe rawBody sig secret = inl err →
  exec (stripe_webhook stripe secret Number now rawBody sig) d
  = (Returned {| status := 400; body := Text ("Webhook Error: " +:+ Js.message err) |},
     d, []).
Proof.
  intros H. unfold stripe_webhook. rewrite H. done.
Qed.

(** A body signed with another secret, where the event it carries would
    otherwise pay order [o1]. *)
Lemma webhook_bad_signature_witness :
  exec (stripe_webhook
          (Demo.stripe "succeeded" true
             (Stripe.payment_intent_succeeded (Demo.intent "succeeded" Demo.metadata)))
          (Some "whsec_1") Demo.Number Demo.clock "{}" (Some "whsec_other"))
       (Demo.database "unpaid" 1000)
  = (Returned {| status := 400;
                 body := Text "Webhook Error: No signatures found matching the expected signature for payload" |},
     Demo.database "unpaid" 1000, []).
Proof.
  apply (webhook_bad_signature _ _ _ _ _ _ Demo.bad_signature).
  vm_compute. reflexivity.
Defined.

(** C4. A verified [payment_intent.succeeded] event whose metadata lacks
    [orderId] or [userId] (absent or empty), or whose order or user
    document does not exist, changes nothing: the endpoint answers
    [{received: true}] with status 200, the database is unchanged, and no
    write and no processor request is issued. *)
Theorem webhook_missing_target_noop
    (stripe : Stripe.Api) (secret : option string) (Number : string → Js.num)
    (now : Clock) (rawBody : string) (sig : option string)
    (pi : Stripe.PaymentIntent) (d : Firestore) :
  Stripe.constructEvent stripe rawBody sig secret
    = inr (Stripe.payment_intent_succeeded pi) →
  missing_target pi d →
  let x := exec (stripe_webhook stripe secret Number now rawBody sig) d in
  outcome x = Returned {| status := 200; body := Json [("received", Js.JBool true)] |} ∧
  final_db x = d ∧
  writes (effects x) = [] ∧
  requests (effects x) = [].
Proof.
  intros Hev Hmiss x. subst x. unfold stripe_webhook. rewrite Hev.
  unfold missing_target in Hmiss.
  assert (∃ t, exec (handlePaymentSuccess Number now pi) d = (Returned tt, d, t)
               ∧ writes t = [] ∧ requests t = []) as (t & E & Hw & Hr).
  { destruct (Js.truthy (metadata_of pi !! "orderId")) as [oid|] eqn:Eo;
      [|eexists; split; [by apply success_missing_metadata; left|done]].
    destruct (Js.truthy (metadata_of pi !! "userId")) as [uid|] eqn:Eu;
      [|eexists; split; [by apply success_missing_metadata; right|done]].
    eexists. split; [by eapply success_missing_doc|done]. }
  by rewrite (exec_then_ret _ _ _ _ _ _ E).
Qed.

(** The event names order [o9], which does not exist. *)
Lemma webhook_missing_target_noop_witness :
  let pi := Demo.intent "succeeded" {[ "orderId" := "o9"; "userId" := "u1" ]} in
  let x := exec (stripe_webhook
                   (Demo.stripe "succeeded" true (Stripe.payment_intent_succeeded pi))
                   (Some "whsec_1") Demo.Number Demo.clock "{}" (Some "whsec_1"))
                (Demo.database "unpaid" 1000) in
  outcome x = Returned {| status := 200; body := Json [("received", Js.JBool true)] |} ∧
  final_db x = Demo.database "unpaid" 1000.
Proof.
  intros pi x.
  destruct (webhook_missing_target_noop
              (Demo.stripe "succeeded" true (Stripe.payment_intent_succeeded pi))
              (Some "whsec_1") Demo.Number Demo.clock "{}" (Some "whsec_1")
              pi (Demo.database "unpaid" 1000))
    as (Hr & Hd & _); [vm_compute; reflexivity| vm_compute; left; reflexivity|].
  split; [exact Hr|exact Hd].
Defined.

(** C7. [handlePaymentFailure] has no guard on the current status: for an
    event whose metadata carries the id of an existing order and a user
    id, whatever the order's payment status (also "paid"), the handler
    returns, sets the payment status to "failed" and stores as
    [paymentError] the processor's failure message, or "Payment failed"
    when there is none.  The only effect is that one update of the
    order. *)
Theorem payment_failure_overwrites
    (now : Clock) (pi : Stripe.PaymentIntent) (d : Firestore)
    (oid uid : string) (o : Order.t) :
  Js.truthy (metadata_of pi !! "orderId") = Some oid →
  Js.truthy (metadata_of pi !! "userId") = Some uid →
  orders d !! oid = Some o →
  let x := exec (handlePaymentFailure now pi) d in
  outcome x = Returned tt ∧
  effects x = [FsUpdate Orders oid ["paymentStatus"; "paymentError"; "updatedAt"]] ∧
  users (final_db x) = users d ∧
  ∃ o', orders (final_db x) !! oid = Some o' ∧
        Order.paymentStatus o' = Some "failed" ∧
        Order.paymentError o'
          = Some (default "Payment failed"
                    (Js.truthy (Stripe.last_payment_error pi ≫= Stripe.pe_message))) ∧
        Order.orderStatus o' = Order.orderStatus o ∧
        Order.verified o' = Order.verified o.
Proof.
  intros Eo Eu Ho x. subst x. unfold handlePaymentFailure. rewrite Eo, Eu.
  run. rewrite Ho. run. rewrite lookup_insert_eq.
  repeat split; try done. by eexists.
Qed.

(** A failure event for the paid order [o1]. *)
Lemma payment_failure_overwrites_witness :
  let x := exec (handlePaymentFailure Demo.clock
                   (Demo.intent "requires_payment_method" Demo.metadata))
                (Demo.database "paid" 600) in
  Order.paymentStatus <$> orders (Demo.database "paid" 600) !! "o1" = Some (Some "paid") ∧
  ∃ o', orders (final_db x) !! "o1" = Some o' ∧
        Order.paymentStatus o' = Some "failed" ∧
        Order.paymentError o' = Some "Your card was declined.".
Proof.
  intros x. split; [vm_compute; reflexivity|].
  destruct (payment_failure_overwrites Demo.clock
              (Demo.intent "requires_payment_method" Demo.metadata)
              (Demo.database "paid" 600) "o1" "u1" (Demo.order "paid"))
    as (_ & _ & _ & o' & Ho & Hs & He & _); [vm_compute; reflexivity ..|].
  exists o'. split; [exact Ho|]. split; [exact Hs|]. exact He.
Defined.

(** ** Statements about the payment routes *)

Section PaymentsFacts.

Context (stripe : Stripe.Api).

Lemma getOrCreateCustomer_run uid os us t u :
  us !! uid = Some u →
  getOrCreateCustomer stripe uid (User.email u)
    {| db := {| orders := os; users := us |}; trace := t |}
  = match Js.truthy (User.stripeCustomerId u) with
    | Some c =>
      (Returned c,
       {| db := {| orders := os; users := us |}; trace := t ++ [FsGet Users uid] |})
    | None =>
      match Stripe.customersCreate stripe (customer_email uid u) uid with
      | inl e =>
        (Thrown e,
         {| db := {| orders := os; users := us |};
            trace := t ++ [FsGet Users uid;
                           StripeRequest (Stripe.customers_create (customer_email uid u) uid)] |})
      | inr c =>
        (Returned c,
         {| db := {| orders := os; users := <[uid := User.with_stripeCustomerId c u]> us |};
            trace := t ++ [FsGet Users uid;
                           StripeRequest (Stripe.customers_create (customer_email uid u) uid);
                           FsSetMerge Users uid ["stripeCustomerId"]] |})
      end
    end.
Proof.
  intros Hu. unfold getOrCreateCustomer, customer_email. run. rewrite Hu. cbn [option_bind].
  destruct (Js.truthy (User.stripeCustomerId u)); [done|].
  run. destruct (Stripe.customersCreate _ _ _); run.
  - by rewrite <- !app_assoc.
  - rewrite Hu. by rewrite <- !app_assoc.
Qed.

Lemma attach_ignoring_errors_run pm c w :
  attach_ignoring_errors stripe pm c w
  = (Returned tt,
     {| db := db w;
        trace := trace w ++ [StripeRequest (Stripe.paymentMethods_attach pm c)] |}).
Proof.
  unfold attach_ignoring_errors. run.
  by destruct (Stripe.paymentMethodsAttach _ _ _) as [e|[]].
Qed.

(** C9. [create-payment-intent] validates before it does anything else:
    when [amount] is missing, zero or negative the answer is a 400 with
    error "Invalid amount"; when the amount is valid but [orderId] or
    [userId] is missing (absent or empty) the answer is a 400 with error
    "Missing required fields".  In both cases the handler has issued no
    processor request and no database read or write, and the database is
    unchanged. *)
Theorem create_payment_intent_validates
    (req : CreatePaymentIntent.body) (d : Firestore) :
  invalid_amount (CreatePaymentIntent.amount req)
  ∨ Js.truthy (CreatePaymentIntent.orderId req) = None
  ∨ Js.truthy (CreatePaymentIntent.userId req) = None →
  ∃ r, exec (create_payment_intent stripe req) d = (Returned r, d, []) ∧
       status r = 400 ∧
       (invalid_amount (CreatePaymentIntent.amount req) →
        body r = Json [("error", Js.JStr "Invalid amount")]) ∧
       (¬ invalid_amount (CreatePaymentIntent.amount req) →
        body r = Json [("error", Js.JStr "Missing required fields")]).
Proof.
  intros H. unfold create_payment_intent, invalid_amount in *.
  destruct (CreatePaymentIntent.amount req) as [a|]; cbn [Js.truthy_num].
  2:{ eexists. split; [reflexivity|]. split; [done|split; [done|tauto]]. }
  destruct (decide (a = 0)) as [->|Hne].
  { eexists. split; [reflexivity|]. split; [done|split; [done|lia]]. }
  case_bool_decide as Hle.
  { eexists. split; [reflexivity|]. split; [done|split; [done|tauto]]. }
  destruct H as [H|H]; [done|].
  eexists. split.
  - destruct H as [H|H]; rewrite H; [reflexivity|].
    destruct (Js.truthy (CreatePaymentIntent.orderId req)); reflexivity.
  - split; [done|split; [lia|done]].
Qed.

(** C6, as amended.  A [create-payment-intent] call that passes
    validation (a positive [amount], [orderId] and [userId] present, an
    existing user) and whose [walletAmount] equals [amount] issues no
    payment-intent request to the processor.  When the customer is
    resolved, the answer is exactly
    [{clientSecret: null, paymentIntentId: null, walletOnly: true}]: of the
    declared fields it carries the first three and neither [status] nor
    [requiresConfirmation]. *)
Theorem wallet_only_short_circuit
    (req : CreatePaymentIntent.body) (d : Firestore)
    (a : Z) (oid uid : string) (u : User.t) :
  CreatePaymentIntent.amount req = Some a →
  0 < a →
  CreatePaymentIntent.walletAmount req = Some a →
  Js.truthy (CreatePaymentIntent.orderId req) = Some oid →
  Js.truthy (CreatePaymentIntent.userId req) = Some uid →
  users d !! uid = Some u →
  let x := exec (create_payment_intent stripe req) d in
  count is_paymentIntents_create (effects x) = 0%nat ∧
  ∀ c, customer_of stripe uid u = inr c →
    ∃ r, outcome x = Returned r ∧
         r = {| status := 200;
                body := Json [("clientSecret", Js.JNull);
                              ("paymentIntentId", Js.JNull);
                              ("walletOnly", Js.JBool true)] |} ∧
         field "walletOnly" r = Some (Js.JBool true) ∧
         field "status" r = None ∧
         field "requiresConfirmation" r = None.
Proof.
  intros Ha Hpos Hw Ho Hu Hd x. subst x.
  unfold create_payment_intent, customer_of. rewrite Ha, Hw, Ho, Hu.
  cbn [Js.truthy_num default]. rewrite decide_False by lia.
  rewrite bool_decide_false by lia.
  rewrite (bool_decide_true (a - a ≤ 0)) by lia.
  destruct d as [os us]. cbn [users] in Hd.
  run. rewrite Hd. run. rewrite (getOrCreateCustomer_run uid os us _ u Hd).
  destruct (Js.truthy (User.stripeCustomerId u)) as [c|].
  - cbn. split; [done|]. intros c' [= <-]. by eexists.
  - destruct (Stripe.customersCreate _ _ _) as [e|c]; cbn.
    + split; [done|]. intros c' [=].
    + split; [done|]. intros c' [= <-]. by eexists.
Qed.

End PaymentsFacts.

Lemma create_payment_intent_validates_witness :
  exec (create_payment_intent
          (Demo.stripe "requires_payment_method" true (Stripe.other_event "ping"))
          Demo.no_amount_request)
       (Demo.database "unpaid" 500)
  = (Returned {| status := 400; body := Json [("error", Js.JStr "Invalid amount")] |},
     Demo.database "unpaid" 500, []).
Proof.
  destruct (create_payment_intent_validates
              (Demo.stripe "requires_payment_method" true (Stripe.other_event "ping"))
              Demo.no_amount_request (Demo.database "unpaid" 500))
    as (r & E & Hs & Hb & _); [left; exact I|].
  rewrite E. destruct r as [s b]. cbn in Hs, Hb. rewrite Hs, (Hb I). reflexivity.
Defined.

Lemma wallet_only_short_circuit_witness :
  let x := exec (create_payment_intent
                   (Demo.stripe "requires_payment_method" true (Stripe.other_event "ping"))
                   Demo.wallet_only_request)
                (Demo.database "unpaid" 500) in
  count is_paymentIntents_create (effects x) = 0%nat ∧
  ∃ r, outcome x = Returned r ∧ field "walletOnly" r = Some (Js.JBool true)
       ∧ field "status" r = None.
Proof.
  intros x.
  destruct (wallet_only_short_circuit
              (Demo.stripe "requires_payment_method" true (Stripe.other_event "ping"))
              Demo.wallet_only_request (Demo.database "unpaid" 500)
              500 "o1" "u1" (Demo.user 500))
    as (Hn & Hr); [vm_compute; reflexivity| lia | vm_compute; reflexivity ..|].
  split; [exact Hn|].
  destruct (Hr "cus_1") as (r & Hx & _ & Hw & Hs & _); [vm_compute; reflexivity|].
  exists r. split; [exact Hx|]. split; [exact Hw|exact Hs].
Defined.

(** The hybrid payment: the issuer asks the processor for the remainder,
    600, and hands it the metadata that the webhook later reads. *)
Example hybrid_payment_requests_remainder :
  let x := exec (create_payment_intent
                   (Demo.stripe "requires_payment_method" true (Stripe.other_event "ping"))
                   Demo.hybrid_request)
                (Demo.database "unpaid" 1000) in
  ∃ p r, effects x = [FsGet Users "u1"; FsGet Users "u1";
                      StripeRequest (Stripe.paymentIntents_create p)] ∧
         Stripe.p_amount p = 600 ∧
         Stripe.p_metadata p = Demo.metadata ∧
         outcome x = Returned r ∧
         field "walletOnly" r = Some (Js.JBool false) ∧
         field "requiresConfirmation" r = Some (Js.JBool true).
Proof.
  eexists _, _. split; [vm_compute; reflexivity|]. split; [reflexivity|].
  split; [vm_compute; reflexivity|]. split; [vm_compute; reflexivity|].
  split; reflexivity.
Qed.

(** C6, as stated, fails: with [walletAmount = amount = 500] the answer
    has [walletOnly = true] but does not carry all the declared fields;
    [status] and [requiresConfirmation] are missing. *)
Lemma wallet_only_response_lacks_declared_fields :
  let x := exec (create_payment_intent
                   (Demo.stripe "requires_payment_method" true (Stripe.other_event "ping"))
                   Demo.wallet_only_request)
                (Demo.database "unpaid" 500) in
  CreatePaymentIntent.walletAmount Demo.wallet_only_request
    = CreatePaymentIntent.amount Demo.wallet_only_request ∧
  ∃ r, outcome x = Returned r ∧
       field "walletOnly" r = Some (Js.JBool true) ∧
       field "status" r = None ∧
       field "requiresConfirmation" r = None ∧
       ¬ (∀ k, k ∈ declared_fields → is_Some (field k r)).
Proof.
  intros x. split; [reflexivity|].
  eexists. split; [vm_compute; reflexivity|].
  split; [reflexivity|]. split; [reflexivity|]. split; [reflexivity|].
  intros H. destruct (H "status") as [v Hv].
  - unfold declared_fields. set_solver.
  - vm_compute in Hv. discriminate.
Qed.

Lemma filter_keeps_all {A} (P : A → Prop) `{∀ x, Decision (P x)} (l : list A) :
  (∀ x, x ∈ l → P x) → filter P l = l.
Proof.
  induction l as [|a l IH]; intros H'; [done|].
  rewrite filter_cons_True by (apply H'; left).
  f_equal. apply IH. intros x Hx. apply H'. by right.
Qed.

(** C10. Removing a card from an existing user.  When the processor has
    detached the payment method and its identity is the stored default,
    the default is cleared and the saved cards are the former ones
    without that identity: every other card is kept.  When the identity is
    neither among the saved cards nor the stored default, the saved cards
    and the default are as before, whatever the processor answered.  (When
    the processor refuses to detach, the call ends in a 500 answer and the
    database is untouched.) *)
Theorem remove_card
    (stripe : Stripe.Api) (now : Clock) (pm : string) (userId : option string)
    (d : Firestore) (uid : string) (u : User.t) :
  Js.truthy userId = Some uid →
  users d !! uid = Some u →
  let x := exec (delete_card stripe now pm userId) d in
  (pm ≠ "" →
   Stripe.paymentMethodsDetach stripe pm = inr tt →
   User.defaultPaymentMethod u = Some pm →
   ∃ u', users (final_db x) !! uid = Some u' ∧
         User.defaultPaymentMethod u' = None ∧
         savedCards_of u' = filter (λ card, Card.id card ≠ pm) (savedCards_of u) ∧
         ∀ card, card ∈ savedCards_of u → Card.id card ≠ pm → card ∈ savedCards_of u') ∧
  ((∀ card, card ∈ savedCards_of u → Card.id card ≠ pm) →
   User.defaultPaymentMethod u ≠ Some pm →
   ∃ u', users (final_db x) !! uid = Some u' ∧
         savedCards_of u' = savedCards_of u ∧
         User.defaultPaymentMethod u' = User.defaultPaymentMethod u) ∧
  (∀ e, pm ≠ "" →
   Stripe.paymentMethodsDetach stripe pm = inl e →
   final_db x = d ∧ ∃ r, outcome x = Returned r ∧ status r = 500).
Proof.
  intros Hu Hd x. subst x. unfold delete_card. rewrite Hu.
  destruct d as [os us]. cbn [users] in Hd. split; [|split].
  3:{ intros e Hpm Hdet. cbn [Js.truthy]. rewrite decide_False by done.
      run. rewrite Hdet. run. split; [done|]. by eexists. }
  - intros Hpm Hdet Hdef. cbn [Js.truthy]. rewrite decide_False by done.
    run. rewrite Hdet. run. rewrite Hd. run. rewrite Hd. run.
    rewrite lookup_insert_eq. eexists. split; [done|].
    rewrite decide_True by done. split; [done|]. split; [done|].
    intros card Hin Hne. cbn. apply list_elem_of_filter. done.
  - intros Hall Hdef. cbn [Js.truthy].
    destruct (decide (pm = "")) as [->|Hpm]; [run; by eexists|].
    run. destruct (Stripe.paymentMethodsDetach stripe pm) as [e|[]]; [run; by eexists|].
    run. rewrite Hd. run. rewrite Hd. run.
    rewrite lookup_insert_eq. eexists. split; [done|].
    rewrite decide_False by done. split; [|done].
    cbn. by apply filter_keeps_all.
Qed.

Lemma remove_card_witness :
  let x := exec (delete_card (Demo.stripe "succeeded" true (Stripe.other_event "ping"))
                   Demo.clock "pm_1" (Some "u1"))
                (Demo.database "paid" 0) in
  let y := exec (delete_card (Demo.stripe "succeeded" true (Stripe.other_event "ping"))
                   Demo.clock "pm_9" (Some "u1"))
                (Demo.database "paid" 0) in
  (∃ u', users (final_db x) !! "u1" = Some u' ∧
         User.defaultPaymentMethod u' = None ∧
         savedCards_of u' = [Demo.amex]) ∧
  (∃ u', users (final_db y) !! "u1" = Some u' ∧
         savedCards_of u' = [Demo.visa; Demo.amex] ∧
         User.defaultPaymentMethod u' = Some "pm_1").
Proof.
  intros x y. split.
  - destruct (remove_card (Demo.stripe "succeeded" true (Stripe.other_event "ping"))
                Demo.clock "pm_1" (Some "u1") (Demo.database "paid" 0) "u1" (Demo.user 0))
      as (H & _ & _); [vm_compute; reflexivity ..|].
    destruct H as (u' & Hu' & Hdef & Hcards & _);
      [discriminate| vm_compute; reflexivity ..|].
    exists u'. split; [exact Hu'|]. split; [exact Hdef|]. exact Hcards.
  - destruct (remove_card (Demo.stripe "succeeded" true (Stripe.other_event "ping"))
                Demo.clock "pm_9" (Some "u1") (Demo.database "paid" 0) "u1" (Demo.user 0))
      as (_ & H & _); [vm_compute; reflexivity ..|].
    destruct H as (u' & Hu' & Hcards & Hdef).
    + intros card Hin. vm_compute in Hin.
      apply elem_of_cons in Hin as [->|Hin]; [discriminate|].
      apply elem_of_cons in Hin as [->|Hin]; [discriminate|].
      by apply elem_of_nil in Hin.
    + discriminate.
    + exists u'. split; [exact Hu'|]. split; [exact Hcards|exact Hdef].
Defined.

(** *** The wallet top-up *)

Section TopUpFacts.

Context (stripe : Stripe.Api) (now : Clock).

Lemma settle_other uid ud a pmid sc pi w :
  Stripe.status pi ≠ "succeeded" →
  Stripe.status pi ≠ "requires_action" →
  Stripe.status pi ≠ "requires_payment_method" →
  add_money_settle stripe now uid ud a pmid sc pi w
  = (Returned (top_up_done pi a (walletBalance_of ud)), w).
Proof.
  intros H1 H2 H3. unfold add_money_settle.
  rewrite !bool_decide_false by done. cbn [orb]. run. done.
Qed.

Lemma settle_pending uid ud a pmid sc pi w :
  Stripe.status pi = "requires_action" ∨ Stripe.status pi = "requires_payment_method" →
  add_money_settle stripe now uid ud a pmid sc pi w
  = (Returned (res_json
       [("requiresConfirmation", Js.JBool true);
        ("clientSecret", str_or_null (Stripe.client_secret pi));
        ("paymentIntentId", Js.JStr (Stripe.id pi));
        ("status", Js.JStr (Stripe.status pi))]), w).
Proof.
  intros H. unfold add_money_settle.
  destruct H as [H|H]; rewrite H; done.
Qed.

Lemma settle_succeeded uid ud a pmid sc pi os us t u1 :
  Stripe.status pi = "succeeded" →
  us !! uid = Some u1 →
  ∃ us' t',
    add_money_settle stripe now uid ud a pmid sc pi
      {| db := {| orders := os; users := us |}; trace := t |}
    = (Returned (top_up_done pi a (walletBalance_of ud)),
       {| db := {| orders := os; users := us' |}; trace := t ++ t' |}) ∧
    count is_paymentIntents_create t' = 0%nat ∧
    (∀ uid', uid' ≠ uid → us' !! uid' = us !! uid') ∧
    ∃ u', us' !! uid = Some u' ∧
          User.walletBalance u' = Some (walletBalance_of ud + a) ∧
          User.walletTransactions u'
            = arrayUnion (deposit now a (walletBalance_of ud) (walletBalance_of ud + a)
                            pi pmid sc)
                         (User.walletTransactions u1).
Proof.
  intros Hs Hu. unfold add_money_settle.
  rewrite (bool_decide_false (_ = "requires_action")) by (by rewrite Hs).
  rewrite (bool_decide_false (_ = "requires_payment_method")) by (by rewrite Hs).
  rewrite (bool_decide_true (_ = "succeeded")) by done.
  cbn [orb]. run. rewrite Hu. run.
  set (u2 := User.with_walletTransactions _ _).
  assert (∀ uid', uid' ≠ uid → <[uid := u2]> us !! uid' = us !! uid') as Hframe
    by (intros; by rewrite lookup_insert_ne).
  destruct sc; [destruct pmid|].
  - exists (<[uid := u2]> us), [FsUpdate Users uid ["walletBalance"; "updatedAt"; "walletTransactions"]].
    run. split; [reflexivity|split; [done|split; [exact Hframe|]]].
    exists u2. by rewrite lookup_insert_eq.
  - destruct (Js.truthy (Stripe.payment_method pi)) as [pm|].
    + run. destruct (Stripe.paymentMethodsRetrieve stripe pm) as [e|card].
      * run. rewrite <- app_assoc. eexists _, [_; _]. cbn [app].
        split; [reflexivity|split; [done|split; [exact Hframe|]]].
        exists u2. by rewrite lookup_insert_eq.
      * run. rewrite lookup_insert_eq. run. rewrite <- !app_assoc.
        eexists _, [_; _; _]. cbn [app]. split; [reflexivity|].
        split; [done|]. split.
        { intros uid' Hne. rewrite !lookup_insert_ne by done. done. }
        eexists. rewrite lookup_insert_eq. done.
    + exists (<[uid := u2]> us), [FsUpdate Users uid ["walletBalance"; "updatedAt"; "walletTransactions"]].
      run. split; [reflexivity|split; [done|split; [exact Hframe|]]].
    exists u2. by rewrite lookup_insert_eq.
  - exists (<[uid := u2]> us), [FsUpdate Users uid ["walletBalance"; "updatedAt"; "walletTransactions"]].
    run. split; [reflexivity|split; [done|split; [exact Hframe|]]].
    exists u2. by rewrite lookup_insert_eq.
Qed.

(** Up to the created intent, a valid top-up request only reads the user
    and resolves the customer: the wallet is as it was. *)
Lemma add_money_prefix req os us a uid u c pi :
  AddMoneyToWallet.amount req = Some a →
  0 < a →
  Js.truthy (AddMoneyToWallet.userId req) = Some uid →
  us !! uid = Some u →
  customer_of stripe uid u = inr c →
  Stripe.paymentIntentsCreate stripe
    (top_up_params a (default "gbp" (AddMoneyToWallet.currency req)) c uid
       (default false (AddMoneyToWallet.saveCard req))
       (Js.truthy (AddMoneyToWallet.paymentMethodId req))) = inr pi →
  ∃ us1 t1 u1,
    add_money_to_wallet stripe now req
      {| db := {| orders := os; users := us |}; trace := [] |}
    = try_catch
        (add_money_settle stripe now uid u a
           (Js.truthy (AddMoneyToWallet.paymentMethodId req))
           (default false (AddMoneyToWallet.saveCard req)) pi)
        (λ err, mret (res_status_json 500
                        (error_details "Failed to add money to wallet" err)))
        {| db := {| orders := os; users := us1 |}; trace := t1 |} ∧
    (∀ k id col, count (is_update col id k) t1 = 0%nat) ∧
    us1 !! uid = Some u1 ∧
    User.walletBalance u1 = User.walletBalance u ∧
    User.walletTransactions u1 = User.walletTransactions u ∧
    (∀ uid', uid' ≠ uid → us1 !! uid' = us !! uid').
Proof.
  intros Ha Hpos Hu Hd Hc Hcreate.
  unfold add_money_to_wallet. rewrite Ha, Hu.
  unfold Js.truthy_num. rewrite decide_False by lia.
  rewrite bool_decide_false by lia.
  run. rewrite Hd. run. rewrite (getOrCreateCustomer_run stripe uid os us _ u Hd).
  unfold customer_of in Hc.
  destruct (Js.truthy (User.stripeCustomerId u)) as [c0|].
  - injection Hc as ->.
    destruct (Js.truthy (AddMoneyToWallet.paymentMethodId req)) as [pm|] eqn:Epm.
    + rewrite attach_ignoring_errors_run. run. rewrite Hcreate.
      eexists us, _, u. split; [reflexivity|]. by repeat split.
    + run. rewrite Hcreate.
      eexists us, _, u. split; [reflexivity|]. by repeat split.
  - rewrite Hc.
    destruct (Js.truthy (AddMoneyToWallet.paymentMethodId req)) as [pm|] eqn:Epm.
    + rewrite attach_ignoring_errors_run. run. rewrite Hcreate.
      eexists _, _, _. split; [reflexivity|]. split; [done|].
      split; [apply lookup_insert_eq|]. split; [done|]. split; [done|].
      intros uid' Hne. by rewrite lookup_insert_ne.
    + run. rewrite Hcreate.
      eexists _, _, _. split; [reflexivity|]. split; [done|].
      split; [apply lookup_insert_eq|]. split; [done|]. split; [done|].
      intros uid' Hne. by rewrite lookup_insert_ne.
Qed.

Lemma arrayUnion_elem {A} `{EqDecision A} (x : A) (l : list A) : x ∈ arrayUnion x l.
Proof.
  unfold arrayUnion. case_decide; [done|]. apply elem_of_app. right. by left.
Qed.

Lemma arrayUnion_fresh {A} `{EqDecision A} (x : A) (l : list A) :
  x ∉ l → arrayUnion x l = l ++ [x].
Proof. intros H'. unfold arrayUnion. by rewrite decide_False. Qed.

(** C5. A top-up whose created intent has status "succeeded" credits the
    wallet: for a valid request of an existing user for which the customer
    is resolved and the processor answers the creation request with an
    intent [pi], if the status of [pi] is "succeeded" then the answer
    reports success, the user's balance becomes the previous balance
    ([walletBalance || 0]) plus [amount], and the deposit record, whose
    [amount], [previousBalance] and [newBalance] are these values, is in
    the transaction list (array union), appended at its end when the
    intent is new, that is, when no earlier transaction carries its id; if
    the status is anything else, the balance and the transaction list are
    as before. *)
Theorem wallet_top_up_credited
    (req : AddMoneyToWallet.body) (d : Firestore)
    (a : Z) (uid : string) (u : User.t) (c : string) (pi : Stripe.PaymentIntent) :
  AddMoneyToWallet.amount req = Some a →
  0 < a →
  Js.truthy (AddMoneyToWallet.userId req) = Some uid →
  users d !! uid = Some u →
  customer_of stripe uid u = inr c →
  Stripe.paymentIntentsCreate stripe
    (top_up_params a (default "gbp" (AddMoneyToWallet.currency req)) c uid
       (default false (AddMoneyToWallet.saveCard req))
       (Js.truthy (AddMoneyToWallet.paymentMethodId req))) = inr pi →
  let x := exec (add_money_to_wallet stripe now req) d in
  let previousBalance := walletBalance_of u in
  let tx := deposit now a previousBalance (previousBalance + a) pi
              (Js.truthy (AddMoneyToWallet.paymentMethodId req))
              (default false (AddMoneyToWallet.saveCard req)) in
  ∃ u', users (final_db x) !! uid = Some u' ∧
    (Stripe.status pi = "succeeded" →
       outcome x = Returned (top_up_done pi a previousBalance) ∧
       User.walletBalance u' = Some (previousBalance + a) ∧
       User.walletTransactions u' = arrayUnion tx (User.walletTransactions u) ∧
       tx ∈ User.walletTransactions u' ∧
       ((∀ t, t ∈ User.walletTransactions u →
              WalletTransaction.stripePaymentIntentId t ≠ Stripe.id pi) →
        User.walletTransactions u' = User.walletTransactions u ++ [tx]) ∧
       WalletTransaction.type tx = "deposit" ∧
       WalletTransaction.amount tx = a ∧
       WalletTransaction.previousBalance tx = previousBalance ∧
       WalletTransaction.newBalance tx = previousBalance + a) ∧
    (Stripe.status pi ≠ "succeeded" →
       User.walletBalance u' = User.walletBalance u ∧
       User.walletTransactions u' = User.walletTransactions u).
Proof.
  intros Ha Hpos Hu Hd Hc Hcreate x previousBalance tx. subst x.
  destruct d as [os us]. cbn [users] in Hd.
  destruct (add_money_prefix req os us a uid u c pi Ha Hpos Hu Hd Hc Hcreate)
    as (us1 & t1 & u1 & E & _ & Hu1 & Hb1 & Ht1 & _).
  unfold exec. rewrite E. unfold try_catch.
  destruct (decide (Stripe.status pi = "succeeded")) as [Hs|Hs].
  - destruct (settle_succeeded uid u a
                (Js.truthy (AddMoneyToWallet.paymentMethodId req))
                (default false (AddMoneyToWallet.saveCard req))
                pi os us1 t1 u1 Hs Hu1)
      as (us' & t' & E' & _ & _ & u' & Hu' & Hb' & Ht').
    rewrite E'. cbn. exists u'. split; [done|]. split; [|done].
    intros _. rewrite Ht1 in Ht'. fold previousBalance tx in Hb', Ht'.
    split; [done|]. split; [done|]. split; [done|].
    split; [rewrite Ht'; apply arrayUnion_elem|].
    split; [|done]. intros Hfresh. rewrite Ht'. apply arrayUnion_fresh.
    intros Hin. by apply (Hfresh tx Hin).
  - exists u1.
    destruct (decide (Stripe.status pi = "requires_action"
                      ∨ Stripe.status pi = "requires_payment_method")) as [Hp|Hp].
    + rewrite settle_pending by done. cbn. split; [done|]. split; [done|]. done.
    + rewrite settle_other by tauto. cbn. split; [done|]. split; [done|]. done.
Qed.

(** C8. A top-up whose created intent has a status other than
    "succeeded", "requires_action" and "requires_payment_method" (for
    instance "processing") writes nothing to the wallet: no update of the
    balance is issued, and the balance and the transaction list of every
    user are as before.  Yet the answer reports [success: true],
    [requiresConfirmation: false] and, as [newBalance], the previous
    balance plus [amount]. *)
Theorem top_up_reports_unwritten_balance
    (req : AddMoneyToWallet.body) (d : Firestore)
    (a : Z) (uid : string) (u : User.t) (c : string) (pi : Stripe.PaymentIntent) :
  AddMoneyToWallet.amount req = Some a →
  0 < a →
  Js.truthy (AddMoneyToWallet.userId req) = Some uid →
  users d !! uid = Some u →
  customer_of stripe uid u = inr c →
  Stripe.paymentIntentsCreate stripe
    (top_up_params a (default "gbp" (AddMoneyToWallet.currency req)) c uid
       (default false (AddMoneyToWallet.saveCard req))
       (Js.truthy (AddMoneyToWallet.paymentMethodId req))) = inr pi →
  Stripe.status pi ≠ "succeeded" →
  Stripe.status pi ≠ "requires_action" →
  Stripe.status pi ≠ "requires_payment_method" →
  let x := exec (add_money_to_wallet stripe now req) d in
  (∃ r, outcome x = Returned r ∧
        status r = 200 ∧
        field "success" r = Some (Js.JBool true) ∧
        field "requiresConfirmation" r = Some (Js.JBool false) ∧
        field "amountAdded" r = Some (Js.JNum a) ∧
        field "newBalance" r = Some (Js.JNum (walletBalance_of u + a))) ∧
  (∀ uid', User.walletBalance <$> users (final_db x) !! uid'
           = User.walletBalance <$> users d !! uid' ∧
           User.walletTransactions <$> users (final_db x) !! uid'
           = User.walletTransactions <$> users d !! uid') ∧
  (∀ uid', count (is_update Users uid' "walletBalance") (effects x) = 0%nat) ∧
  User.walletBalance <$> users (final_db x) !! uid = Some (User.walletBalance u).
Proof.
  intros Ha Hpos Hu Hd Hc Hcreate Hs1 Hs2 Hs3 x. subst x.
  destruct d as [os us]. cbn [users] in Hd.
  destruct (add_money_prefix req os us a uid u c pi Ha Hpos Hu Hd Hc Hcreate)
    as (us1 & t1 & u1 & E & Hcount & Hu1 & Hb1 & Ht1 & Hframe).
  unfold exec. rewrite E. unfold try_catch. rewrite settle_other by done.
  cbn. split; [by eexists|].
  assert (∀ uid', User.walletBalance <$> us1 !! uid' = User.walletBalance <$> us !! uid'
                  ∧ User.walletTransactions <$> us1 !! uid'
                    = User.walletTransactions <$> us !! uid') as Hsame.
  { intros uid'. destruct (decide (uid' = uid)) as [->|Hne].
    - rewrite Hu1, Hd. cbn. by rewrite Hb1, Ht1.
    - by rewrite Hframe. }
  split; [done|]. split; [done|].
  destruct (Hsame uid) as [-> _]. by rewrite Hd.
Qed.

End TopUpFacts.

(** The top-up of 500 on a balance of 100, with an intent that succeeds at
    once. *)
Lemma wallet_top_up_credited_witness :
  let x := exec (add_money_to_wallet
                   (Demo.stripe "succeeded" true (Stripe.other_event "ping"))
                   Demo.clock Demo.top_up_request)
                (Demo.database "paid" 100) in
  ∃ u', users (final_db x) !! "u1" = Some u' ∧
        User.walletBalance u' = Some 600 ∧
        WalletTransaction.newBalance <$> User.walletTransactions u' = [600].
Proof.
  intros x.
  destruct (wallet_top_up_credited
              (Demo.stripe "succeeded" true (Stripe.other_event "ping"))
              Demo.clock Demo.top_up_request (Demo.database "paid" 100)
              500 "u1" (Demo.user 100) "cus_1" (Demo.top_up_intent "succeeded"))
    as (u' & Hu' & Hok & _); [vm_compute; reflexivity| lia | vm_compute; reflexivity ..|].
  destruct Hok as (_ & Hb & Ht & _); [reflexivity|].
  exists u'. split; [exact Hu'|]. split; [exact Hb|]. rewrite Ht. reflexivity.
Defined.

(** The same top-up with an intent that is still "processing". *)
Lemma top_up_reports_unwritten_balance_witness :
  let x := exec (add_money_to_wallet
                   (Demo.stripe "processing" true (Stripe.other_event "ping"))
                   Demo.clock Demo.top_up_request)
                (Demo.database "paid" 100) in
  (∃ r, outcome x = Returned r ∧
        field "success" r = Some (Js.JBool true) ∧
        field "newBalance" r = Some (Js.JNum 600)) ∧
  User.walletBalance <$> users (final_db x) !! "u1" = Some (Some 100).
Proof.
  intros x.
  destruct (top_up_reports_unwritten_balance
              (Demo.stripe "processing" true (Stripe.other_event "ping"))
              Demo.clock Demo.top_up_request (Demo.database "paid" 100)
              500 "u1" (Demo.user 100) "cus_1" (Demo.top_up_intent "processing"))
    as ((r & Hr & _ & Hs & _ & _ & Hn) & _ & _ & Hb);
    [vm_compute; reflexivity| lia | vm_compute; reflexivity| vm_compute; reflexivity
    | vm_compute; reflexivity| vm_compute; reflexivity
    | discriminate | discriminate | discriminate |].
  split; [|exact Hb]. exists r. split; [exact Hr|]. split; [exact Hs|exact Hn].
Defined.

(** * Further properties of the webhook *)



(** The four cases of [handlePaymentSuccess], as one case distinction. *)
Lemma success_cases Number now pi d :
  exec (handlePaymentSuccess Number now pi) d = (Returned tt, d, [])
  ∨ (∃ oid uid,
       Js.truthy (metadata_of pi !! "orderId") = Some oid ∧
       Js.truthy (metadata_of pi !! "userId") = Some uid ∧
       (exec (handlePaymentSuccess Number now pi) d
          = (Returned tt, d, [FsGet Orders oid; FsGet Users uid])
        ∨ ∃ o u,
            orders d !! oid = Some o ∧ users d !! uid = Some u ∧
            Order.paymentStatus o ≠ Some "paid" ∧
            exec (handlePaymentSuccess Number now pi) d
            = (Returned tt,
               {| orders := <[oid := order_paid now pi o]> (orders d);
                  users := <[uid := user_paid now oid (deduction Number pi u) u]> (users d) |},
               [FsGet Orders oid; FsGet Users uid]
                 ++ match deduction Number pi u with
                    | Some _ => [FsUpdate Users uid wallet_fields]
                    | None => []
                    end
                 ++ [FsUpdate Orders oid paid_fields; FsUpdate Users uid history_fields]))).
Proof.
  destruct (Js.truthy (metadata_of pi !! "orderId")) as [oid|] eqn:Eo;
    [|left; apply success_missing_metadata; by left].
  destruct (Js.truthy (metadata_of pi !! "userId")) as [uid|] eqn:Eu;
    [|left; apply success_missing_metadata; by right].
  right. exists oid, uid. split; [done|]. split; [done|].
  destruct (orders d !! oid) as [o|] eqn:Ho;
    [|left; apply success_missing_doc; auto].
  destruct (users d !! uid) as [u|] eqn:Hu;
    [|left; apply success_missing_doc; auto].
  destruct (decide (Order.paymentStatus o = Some "paid")) as [Hp|Hp];
    [left; by eapply success_already_paid|].
  right. exists o, u. split; [done|]. split; [done|]. split; [done|].
  by apply success_unpaid.
Qed.



(** X2. [handlePaymentFailure] never throws and touches nothing but the
    order its metadata names: users are as before, every other order is as
    before, and no order document is created.  When the metadata lacks an
    id, or the order does not exist (the update is refused and the error
    swallowed), the database is unchanged. *)
Theorem payment_failure_frame
    (now : Clock) (pi : Stripe.PaymentIntent) (d : Firestore) :
  let x := exec (handlePaymentFailure now pi) d in
  outcome x = Returned tt ∧
  users (final_db x) = users d ∧
  (∀ oid, Js.truthy (metadata_of pi !! "orderId") ≠ Some oid →
          orders (final_db x) !! oid = orders d !! oid) ∧
  (∀ oid, orders d !! oid = None → orders (final_db x) !! oid = None) ∧
  (Js.truthy (metadata_of pi !! "orderId") = None
   ∨ Js.truthy (metadata_of pi !! "userId") = None
   ∨ (∃ oid, Js.truthy (metadata_of pi !! "orderId") = Some oid ∧ orders d !! oid = None) →
   final_db x = d).
Proof.
  intros x. subst x. unfold handlePaymentFailure.
  destruct (Js.truthy (metadata_of pi !! "orderId")) as [oid|] eqn:Eo.
  2:{ cbn. repeat split; done. }
  destruct (Js.truthy (metadata_of pi !! "userId")) as [uid|] eqn:Eu.
  2:{ cbn. repeat split; done. }
  destruct d as [os us]. run.
  destruct (os !! oid) as [o|] eqn:Ho; run.
  - split; [done|]. split; [done|]. split.
    { intros oid' Hne. rewrite lookup_insert_ne; [done|congruence]. }
    split.
    { intros oid' Hnone. rewrite lookup_insert_ne; [done|congruence]. }
    intros [H|[H|(oid' & H & Hnone)]]; [done|done|]. congruence.
  - repeat split; done.
Qed.

Lemma failure_existing now pi d oid uid o :
  Js.truthy (metadata_of pi !! "orderId") = Some oid →
  Js.truthy (metadata_of pi !! "userId") = Some uid →
  orders d !! oid = Some o →
  exec (handlePaymentFailure now pi) d
  = (Returned tt,
     {| orders := <[oid := order_failed now pi o]> (orders d); users := users d |},
     [FsUpdate Orders oid ["paymentStatus"; "paymentError"; "updatedAt"]]).
Proof.
  intros Eo Eu Ho. unfold handlePaymentFailure. rewrite Eo, Eu.
  run. rewrite Ho. by run.
Qed.

Lemma failure_users now pi d :
  users (final_db (exec (handlePaymentFailure now pi) d)) = users d.
Proof.
  unfold handlePaymentFailure.
  destruct (Js.truthy (metadata_of pi !! "orderId")) as [oid|]; [|done].
  destruct (Js.truthy (metadata_of pi !! "userId")) as [uid|]; [|done].
  destruct d as [os us]. run. by destruct (os !! oid).
Qed.

(** X3. A failure event between two deliveries of a success event
    re-opens the order.  For an unpaid order whose event deducts [w > 0]
    from a balance of at least [2 * w]: after the success event the
    balance is down by [w]; after a [payment_failed] event for the same
    order and then the same success event again, the order is paid again
    and the balance is down by [2 * w]: the second delivery wrote the
    wallet balance once more. *)
Theorem failure_reopens_paid_order
    (Number : string → Js.num) (now1 now2 now3 : Clock)
    (pi : Stripe.PaymentIntent) (d : Firestore) (oid uid : string)
    (o : Order.t) (u : User.t) (w : Z) :
  Js.truthy (metadata_of pi !! "orderId") = Some oid →
  Js.truthy (metadata_of pi !! "userId") = Some uid →
  orders d !! oid = Some o →
  users d !! uid = Some u →
  Order.paymentStatus o ≠ Some "paid" →
  walletAmountNum Number pi = Js.Num w →
  0 < w →
  2 * w ≤ walletBalance_of u →
  let first := exec (handlePaymentSuccess Number now1 pi) d in
  let failed := exec (handlePaymentFailure now2 pi) (final_db first) in
  let again := exec (handlePaymentSuccess Number now3 pi) (final_db failed) in
  User.walletBalance <$> users (final_db first) !! uid
    = Some (Some (walletBalance_of u - w)) ∧
  orders (final_db failed) !! oid ≫= Order.paymentStatus = Some "failed" ∧
  User.walletBalance <$> users (final_db again) !! uid
    = Some (Some (walletBalance_of u - 2 * w)) ∧
  orders (final_db again) !! oid ≫= Order.paymentStatus = Some "paid" ∧
  count (is_update Users uid "walletBalance") (effects again) = 1%nat.
Proof.
  intros Eo Eu Ho Hu Hp Hn Hw Hbal first failed again.
  assert (deduction Number pi u = Some (walletBalance_of u - w)) as Hd1.
  { unfold deduction, walletBalance_of in *. rewrite Hn.
    rewrite bool_decide_true; [done|lia]. }
  pose proof (success_unpaid Number now1 pi d oid uid o u Eo Eu Ho Hu Hp) as E1.
  fold first in E1. rewrite Hd1 in E1.
  set (u1 := user_paid now1 oid (Some (walletBalance_of u - w)) u) in *.
  set (d1 := {| orders := _; users := _ |}) in E1.
  assert (final_db first = d1) as Hf1 by (by rewrite E1).
  assert (failed = (Returned tt,
            {| orders := <[oid := order_failed now2 pi (order_paid now1 pi o)]> (orders d1);
               users := users d1 |},
            [FsUpdate Orders oid ["paymentStatus"; "paymentError"; "updatedAt"]])) as E2.
  { subst failed. rewrite Hf1. eapply failure_existing; try done.
    subst d1. cbn. apply lookup_insert_eq. }
  set (d2 := {| orders := _; users := users d1 |}) in E2.
  assert (final_db failed = d2) as Hf2 by (by rewrite E2).
  assert (users d2 !! uid = Some u1) as Hu2 by (subst d2 d1; cbn; apply lookup_insert_eq).
  assert (deduction Number pi u1 = Some (walletBalance_of u - 2 * w)) as Hd3.
  { unfold deduction, walletBalance_of in *. rewrite Hn. subst u1. cbn.
    rewrite bool_decide_true by lia. f_equal. lia. }
  assert (orders d2 !! oid = Some (order_failed now2 pi (order_paid now1 pi o))) as Ho2
    by (subst d2; cbn; apply lookup_insert_eq).
  pose proof (success_unpaid Number now3 pi d2 oid uid _ u1 Eo Eu Ho2 Hu2) as E3.
  rewrite Hd3 in E3. subst again.
  rewrite Hf1, Hf2, E3 by done. unfold final_db, effects. subst d2 d1. cbn [fst snd orders users].
  rewrite !lookup_insert_eq. cbn [count app]. rewrite !is_update_same.
  assert (is_update Users uid "walletBalance" (FsUpdate Orders oid paid_fields) = false)
    as -> by done.
  repeat split; try done.
Qed.

Lemma failure_reopens_paid_order_witness :
  let pi := Demo.intent "succeeded" Demo.metadata in
  let first := exec (handlePaymentSuccess Demo.Number Demo.clock pi) (Demo.database "unpaid" 1000) in
  let failed := exec (handlePaymentFailure Demo.later pi) (final_db first) in
  let again := exec (handlePaymentSuccess Demo.Number Demo.later pi) (final_db failed) in
  User.walletBalance <$> users (final_db first) !! "u1" = Some (Some 600) ∧
  User.walletBalance <$> users (final_db again) !! "u1" = Some (Some 200).
Proof.
  intros pi first failed again.
  destruct (failure_reopens_paid_order Demo.Number Demo.clock Demo.later Demo.later pi
              (Demo.database "unpaid" 1000) "o1" "u1"
              (Demo.order "unpaid") (Demo.user 1000) 400)
    as (H1 & _ & H3 & _);
    [vm_compute; reflexivity| vm_compute; reflexivity| vm_compute; reflexivity
    | vm_compute; reflexivity| vm_compute; discriminate| vm_compute; reflexivity
    | lia | vm_compute; discriminate |].
  split; [exact H1|exact H3].
Defined.

(** *** The saved-card handler *)

Lemma customer_query_found us c uid u :
  customer_query c us = Some (uid, u) →
  us !! uid = Some u ∧ User.stripeCustomerId u = Some c.
Proof.
  intros H. apply head_Some_elem_of in H.
  apply list_elem_of_filter in H as [Hc Hin].
  by apply elem_of_map_to_list in Hin.
Qed.

Lemma customer_query_none us c uid u :
  customer_query c us = None →
  us !! uid = Some u → User.stripeCustomerId u ≠ Some c.
Proof.
  intros H Hu Hc. apply head_None in H.
  apply (filter_nil_not_elem_of _ _ (uid, u)) in H; [|done].
  apply H. by apply elem_of_map_to_list.
Qed.

Lemma customer_query_unique us c uid u :
  us !! uid = Some u → User.stripeCustomerId u = Some c →
  (∀ uid' u', us !! uid' = Some u' → User.stripeCustomerId u' = Some c → uid' = uid) →
  customer_query c us = Some (uid, u).
Proof.
  intros Hu Hc Huniq.
  destruct (customer_query c us) as [[uid' u']|] eqn:E.
  - destruct (customer_query_found _ _ _ _ E) as [Hu' Hc'].
    assert (uid' = uid) as -> by eauto. congruence.
  - by destruct (customer_query_none _ _ _ _ E Hu).
Qed.

Lemma setup_run stripe now si d :
  exec (handleSetupIntentSuccess stripe now si) d
  = match Js.truthy (Stripe.si_customer si), Js.truthy (Stripe.si_payment_method si) with
    | Some c, Some pm =>
      match Stripe.paymentMethodsRetrieve stripe pm with
      | inl e => (Returned tt, d, [StripeRequest (Stripe.paymentMethods_retrieve pm)])
      | inr method =>
        match customer_query c (users d) with
        | None =>
          (Returned tt, d,
           [StripeRequest (Stripe.paymentMethods_retrieve pm);
            FsQuery Users "stripeCustomerId" c])
        | Some (uid, u) =>
          (Returned tt,
           {| orders := orders d;
              users := <[uid := user_with_card now (cardData now pm method) u]> (users d) |},
           [StripeRequest (Stripe.paymentMethods_retrieve pm);
            FsQuery Users "stripeCustomerId" c;
            FsUpdate Users uid ["savedCards"; "updatedAt"]])
        end
      end
    | _, _ => (Returned tt, d, [])
    end.
Proof.
  unfold handleSetupIntentSuccess.
  destruct (Js.truthy (Stripe.si_customer si)) as [c|]; [|done].
  destruct (Js.truthy (Stripe.si_payment_method si)) as [pm|]; [|done].
  destruct d as [os us]. run.
  destruct (Stripe.paymentMethodsRetrieve stripe pm) as [e|method]; [done|].
  run. fold (customer_query c us).
  destruct (customer_query c us) as [[uid u]|] eqn:E; [|done].
  destruct (customer_query_found _ _ _ _ E) as [Hu _].
  run. rewrite Hu. done.
Qed.

(** X4. [handlePaymentSuccess] touches only the order and the user that
    the metadata names, creates and deletes no document, and issues no
    processor request.  Of a user document it changes at most the
    balance, the order history and [updatedAt]: in particular the wallet
    deduction leaves no entry in [walletTransactions]. *)
Theorem payment_success_frame
    (Number : string → Js.num) (now : Clock)
    (pi : Stripe.PaymentIntent) (d : Firestore) :
  let x := exec (handlePaymentSuccess Number now pi) d in
  (∀ oid, Js.truthy (metadata_of pi !! "orderId") ≠ Some oid →
          orders (final_db x) !! oid = orders d !! oid) ∧
  (∀ uid, Js.truthy (metadata_of pi !! "userId") ≠ Some uid →
          users (final_db x) !! uid = users d !! uid) ∧
  (∀ oid, is_Some (orders (final_db x) !! oid) ↔ is_Some (orders d !! oid)) ∧
  (∀ uid, is_Some (users (final_db x) !! uid) ↔ is_Some (users d !! uid)) ∧
  (∀ uid u u', users d !! uid = Some u → users (final_db x) !! uid = Some u' →
     User.walletTransactions u' = User.walletTransactions u ∧
     User.savedCards u' = User.savedCards u ∧
     User.defaultPaymentMethod u' = User.defaultPaymentMethod u ∧
     User.stripeCustomerId u' = User.stripeCustomerId u ∧
     User.email u' = User.email u) ∧
  requests (effects x) = [].
Proof.
  intros x. subst x.
  destruct (success_cases Number now pi d)
    as [E|(oid & uid & Eo & Eu & [E|(o & u & Ho & Hu & Hp & E)])]; rewrite E;
    unfold final_db, effects; cbn [fst snd].
  - repeat split; try done. all: intros; by simplify_eq.
  - repeat split; try done. all: intros; by simplify_eq.
  - cbn [orders users]. split.
    { intros oid' Hne. rewrite lookup_insert_ne; [done|congruence]. }
    split.
    { intros uid' Hne. rewrite lookup_insert_ne; [done|congruence]. }
    split.
    { intros oid'. destruct (decide (oid = oid')) as [<-|Hne].
      - rewrite lookup_insert_eq, Ho. split; eauto.
      - by rewrite lookup_insert_ne. }
    split.
    { intros uid'. destruct (decide (uid = uid')) as [<-|Hne].
      - rewrite lookup_insert_eq, Hu. split; eauto.
      - by rewrite lookup_insert_ne. }
    split.
    { intros uid' u0 u' Hu0. destruct (decide (uid = uid')) as [<-|Hne].
      - rewrite lookup_insert_eq. intros [= <-]. simplify_eq.
        unfold user_paid. by case_match.
      - rewrite lookup_insert_ne by done. intros. by simplify_eq. }
    by destruct (deduction Number pi u).
Qed.

(** X5. No webhook request makes a wallet balance negative: if every
    stored balance is non-negative before a request to the webhook
    endpoint, verified or not and of whatever event type, every stored
    balance is non-negative after it. *)
Theorem webhook_keeps_wallets_nonnegative
    (stripe : Stripe.Api) (secret : option string) (Number : string → Js.num)
    (now : Clock) (rawBody : string) (sig : option string) (d : Firestore) :
  wallets_nonnegative d →
  wallets_nonnegative (final_db (exec (stripe_webhook stripe secret Number now rawBody sig) d)).
Proof.
  intros Hinv. unfold stripe_webhook.
  destruct (Stripe.constructEvent stripe rawBody sig secret) as [err|event]; [done|].
  assert (∀ (m : Async unit) (r : Response),
            final_db (exec (m ;; mret r) d) = final_db (exec m d)) as Hthen.
  { intros m r. unfold exec, final_db, mbind, Async_bind, mret, Async_ret.
    by destruct (m _) as [[[]|e] w]. }
  rewrite Hthen. destruct event as [pi|pi|si|ty]; [| | |done].
  - intros uid u' b Hu' Hb.
    destruct (success_balance_never_negative Number now pi d uid u' Hu')
      as [Hsame|(b' & Hb' & Hpos)].
    + destruct (users d !! uid) as [u|] eqn:Hu; [|done].
      injection Hsame as Hsame. apply (Hinv uid u b Hu). congruence.
    + congruence.
  - intros uid u b. rewrite failure_users. apply Hinv.
  - rewrite setup_run.
    destruct (Js.truthy (Stripe.si_customer si)) as [c|]; [|done].
    destruct (Js.truthy (Stripe.si_payment_method si)) as [pm|]; [|done].
    destruct (Stripe.paymentMethodsRetrieve stripe pm) as [e|method]; [done|].
    destruct (customer_query c (users d)) as [[uid0 u0]|] eqn:E; [|done].
    destruct (customer_query_found _ _ _ _ E) as [Hu0 _].
    intros uid u b. unfold final_db. cbn.
    destruct (decide (uid0 = uid)) as [<-|Hne].
    + rewrite lookup_insert_eq. intros [= <-]. cbn. by apply (Hinv uid0 u0 b).
    + rewrite lookup_insert_ne by done. apply (Hinv uid u b).
Qed.

Lemma webhook_keeps_wallets_nonnegative_witness :
  let d := Demo.database "unpaid" 100 in
  let pi := Demo.intent "succeeded" Demo.metadata in
  wallets_nonnegative d ∧
  wallets_nonnegative
    (final_db (exec (stripe_webhook
                       (Demo.stripe "succeeded" true (Stripe.payment_intent_succeeded pi))
                       (Some "whsec_1") Demo.Number Demo.clock "{}" (Some "whsec_1")) d)).
Proof.
  intros d pi.
  assert (wallets_nonnegative d) as Hd.
  { intros uid u b Hu Hb. unfold d, Demo.database in Hu. cbn [users] in Hu.
    apply lookup_singleton_Some in Hu as [_ <-].
    injection Hb as <-. lia. }
  split; [exact Hd|].
  exact (webhook_keeps_wallets_nonnegative _ _ _ _ _ _ d Hd).
Defined.

(** X6. A [setup_intent.succeeded] event for the one user who holds the
    intent's customer identity saves the card: when the processor returns
    the payment method, the card summary built from it (the method's id,
    brand, last four digits and expiry, stamped with the current time) is
    array-unioned into the user's saved cards; the cards saved before are
    kept, the wallet and the default card are as before, and no other
    user and no order changes. *)
Theorem setup_intent_saves_card
    (stripe : Stripe.Api) (now : Clock) (si : Stripe.SetupIntent) (d : Firestore)
    (c pm : string) (method : Stripe.PaymentMethod) (uid : string) (u : User.t) :
  Js.truthy (Stripe.si_customer si) = Some c →
  Js.truthy (Stripe.si_payment_method si) = Some pm →
  Stripe.paymentMethodsRetrieve stripe pm = inr method →
  users d !! uid = Some u →
  User.stripeCustomerId u = Some c →
  (∀ uid' u', users d !! uid' = Some u' → User.stripeCustomerId u' = Some c → uid' = uid) →
  let x := exec (handleSetupIntentSuccess stripe now si) d in
  let card := cardData now pm method in
  outcome x = Returned tt ∧
  orders (final_db x) = orders d ∧
  (∀ uid', uid' ≠ uid → users (final_db x) !! uid' = users d !! uid') ∧
  ∃ u', users (final_db x) !! uid = Some u' ∧
        savedCards_of u' = arrayUnion card (savedCards_of u) ∧
        card ∈ savedCards_of u' ∧
        (∀ k, k ∈ savedCards_of u → k ∈ savedCards_of u') ∧
        Card.id card = pm ∧
        User.walletBalance u' = User.walletBalance u ∧
        User.walletTransactions u' = User.walletTransactions u ∧
        User.defaultPaymentMethod u' = User.defaultPaymentMethod u.
Proof.
  intros Ec Epm Hret Hu Hc Huniq x card. subst x.
  rewrite setup_run, Ec, Epm, Hret.
  rewrite (customer_query_unique _ _ _ _ Hu Hc Huniq).
  unfold outcome, final_db. cbn [fst snd orders users].
  split; [done|]. split; [done|]. split.
  { intros uid' Hne. by rewrite lookup_insert_ne. }
  rewrite lookup_insert_eq. eexists. split; [done|].
  unfold savedCards_of. cbn. fold card.
  split; [done|]. split; [apply arrayUnion_elem|]. split; [|done].
  intros k Hk. unfold arrayUnion. case_decide; [done|].
  apply elem_of_app. by left.
Qed.

Lemma setup_intent_saves_card_witness :
  let si := {| Stripe.si_customer := Some "cus_1"; Stripe.si_payment_method := Some "pm_3" |} in
  let x := exec (handleSetupIntentSuccess
                   (Demo.stripe "succeeded" true (Stripe.other_event "ping")) Demo.clock si)
                (Demo.database "paid" 0) in
  ∃ u', users (final_db x) !! "u1" = Some u' ∧
        ids_of (savedCards_of u') = ["pm_1"; "pm_2"; "pm_3"].
Proof.
  intros si x.
  destruct (setup_intent_saves_card
              (Demo.stripe "succeeded" true (Stripe.other_event "ping")) Demo.clock si
              (Demo.database "paid" 0) "cus_1" "pm_3"
              {| Stripe.pm_id := "pm_3"; Stripe.card_brand := "visa";
                 Stripe.card_last4 := "4242"; Stripe.card_exp_month := 12;
                 Stripe.card_exp_year := 2030 |}
              "u1" (Demo.user 0))
    as (_ & _ & _ & u' & Hu' & Hcards & _);
    [reflexivity| reflexivity| reflexivity| vm_compute; reflexivity| reflexivity| |].
  - intros uid' u' Hu' _. unfold Demo.database in Hu'. cbn [users] in Hu'.
    by apply lookup_singleton_Some in Hu' as [<- _].
  - exists u'. split; [exact Hu'|]. rewrite Hcards. vm_compute. reflexivity.
Defined.

(** X7. [handleSetupIntentSuccess] does nothing when it cannot save: when
    the intent lacks the customer or the payment method, when the
    processor does not return the payment method (the error is
    swallowed), or when no user holds the customer identity, the handler
    returns and the database is unchanged; nothing is written. *)
Theorem setup_intent_noop
    (stripe : Stripe.Api) (now : Clock) (si : Stripe.SetupIntent) (d : Firestore) :
  Js.truthy (Stripe.si_customer si) = None
  ∨ Js.truthy (Stripe.si_payment_method si) = None
  ∨ (∃ pm e, Js.truthy (Stripe.si_payment_method si) = Some pm
             ∧ Stripe.paymentMethodsRetrieve stripe pm = inl e)
  ∨ (∃ c, Js.truthy (Stripe.si_customer si) = Some c
          ∧ ∀ uid u, users d !! uid = Some u → User.stripeCustomerId u ≠ Some c) →
  let x := exec (handleSetupIntentSuccess stripe now si) d in
  outcome x = Returned tt ∧ final_db x = d ∧ writes (effects x) = [].
Proof.
  intros H x. subst x. rewrite setup_run.
  destruct (Js.truthy (Stripe.si_customer si)) as [c|] eqn:Ec; [|done].
  destruct (Js.truthy (Stripe.si_payment_method si)) as [pm|] eqn:Epm; [|done].
  destruct (Stripe.paymentMethodsRetrieve stripe pm) as [e|method] eqn:Hret; [done|].
  destruct (customer_query c (users d)) as [[uid u]|] eqn:E; [|done].
  destruct (customer_query_found _ _ _ _ E) as [Hu Hc].
  destruct H as [H|[H|[(pm' & e & H1 & H2)|(c' & H1 & H2)]]]; [done|done| |].
  - congruence.
  - injection H1 as <-. by destruct (H2 uid u Hu).
Qed.

Lemma setup_intent_noop_witness :
  let si := {| Stripe.si_customer := Some "cus_9"; Stripe.si_payment_method := Some "pm_3" |} in
  let x := exec (handleSetupIntentSuccess
                   (Demo.stripe "succeeded" true (Stripe.other_event "ping")) Demo.clock si)
                (Demo.database "paid" 0) in
  outcome x = Returned tt ∧ final_db x = Demo.database "paid" 0.
Proof.
  intros si x.
  destruct (setup_intent_noop
              (Demo.stripe "succeeded" true (Stripe.other_event "ping")) Demo.clock si
              (Demo.database "paid" 0)) as (Hr & Hd & _).
  - right. right. right. exists "cus_9". split; [reflexivity|]. intros uid u Hu.
    unfold Demo.database in Hu. cbn [users] in Hu.
    apply lookup_singleton_Some in Hu as [_ <-]. discriminate.
  - split; [exact Hr|exact Hd].
Defined.

(** X8. Saved cards are not kept unique under redelivery.  The card
    summary carries the time it was built, and array union compares whole
    summaries: when a [setup_intent.succeeded] event is delivered twice at
    different times to the one user holding the customer identity, who
    had no card with that payment-method id, the user ends with two saved
    cards of that id.  Delivered twice at the same time, the event saves
    one. *)
Theorem setup_intent_redelivery_duplicates
    (stripe : Stripe.Api) (now1 now2 : Clock) (si : Stripe.SetupIntent) (d : Firestore)
    (c pm : string) (method : Stripe.PaymentMethod) (uid : string) (u : User.t) :
  Js.truthy (Stripe.si_customer si) = Some c →
  Js.truthy (Stripe.si_payment_method si) = Some pm →
  Stripe.paymentMethodsRetrieve stripe pm = inr method →
  users d !! uid = Some u →
  User.stripeCustomerId u = Some c →
  (∀ uid' u', users d !! uid' = Some u' → User.stripeCustomerId u' = Some c → uid' = uid) →
  (∀ k, k ∈ savedCards_of u → Card.id k ≠ pm) →
  let first := exec (handleSetupIntentSuccess stripe now1 si) d in
  let second := exec (handleSetupIntentSuccess stripe now2 si) (final_db first) in
  ∃ u'', users (final_db second) !! uid = Some u'' ∧
    (isoNow now1 ≠ isoNow now2 →
       savedCards_of u''
       = savedCards_of u ++ [cardData now1 pm method; cardData now2 pm method]) ∧
    (isoNow now1 = isoNow now2 →
       savedCards_of u'' = savedCards_of u ++ [cardData now1 pm method]).
Proof.
  intros Ec Epm Hret Hu Hc Huniq Hfresh first second.
  assert (first = (Returned tt,
            {| orders := orders d;
               users := <[uid := user_with_card now1 (cardData now1 pm method) u]> (users d) |},
            [StripeRequest (Stripe.paymentMethods_retrieve pm);
             FsQuery Users "stripeCustomerId" c;
             FsUpdate Users uid ["savedCards"; "updatedAt"]])) as E1.
  { subst first. rewrite setup_run, Ec, Epm, Hret.
    by rewrite (customer_query_unique _ _ _ _ Hu Hc Huniq). }
  set (u1 := user_with_card now1 (cardData now1 pm method) u) in *.
  set (d1 := {| orders := orders d; users := <[uid := u1]> (users d) |}) in *.
  assert (customer_query c (users d1) = Some (uid, u1)) as Hq.
  { apply customer_query_unique.
    - subst d1. cbn. apply lookup_insert_eq.
    - done.
    - intros uid' u' Hu' Hc'. destruct (decide (uid' = uid)) as [|Hne]; [done|].
      subst d1. cbn in Hu'. rewrite lookup_insert_ne in Hu' by done. eauto. }
  subst second. rewrite E1. unfold final_db at 2. cbn [fst snd].
  rewrite setup_run, Ec, Epm, Hret, Hq.
  unfold final_db. cbn [fst snd users]. rewrite lookup_insert_eq.
  eexists. split; [done|].
  assert (∀ now card v, savedCards_of (user_with_card now card v)
                        = arrayUnion card (savedCards_of v)) as Hcards by done.
  assert (savedCards_of u1 = savedCards_of u ++ [cardData now1 pm method]) as Hs1.
  { unfold u1. rewrite Hcards. unfold arrayUnion.
    rewrite decide_False; [done|]. intros Hin. by apply (Hfresh _ Hin). }
  rewrite Hcards, Hs1. unfold arrayUnion. split.
  - intros Hne. rewrite decide_False; [by rewrite <- app_assoc|].
    intros Hin. apply elem_of_app in Hin as [Hin|Hin].
    + by apply (Hfresh _ Hin).
    + apply list_elem_of_singleton in Hin. apply Hne. by injection Hin.
  - intros Heq. rewrite decide_True; [done|].
    apply elem_of_app. right. apply list_elem_of_singleton.
    unfold cardData. by rewrite Heq.
Qed.

Lemma setup_intent_redelivery_duplicates_witness :
  let si := {| Stripe.si_customer := Some "cus_1"; Stripe.si_payment_method := Some "pm_3" |} in
  let stripe := Demo.stripe "succeeded" true (Stripe.other_event "ping") in
  let first := exec (handleSetupIntentSuccess stripe Demo.clock si) (Demo.database "paid" 0) in
  let second := exec (handleSetupIntentSuccess stripe Demo.later si) (final_db first) in
  ∃ u'', users (final_db second) !! "u1" = Some u'' ∧
         ids_of (savedCards_of u'') = ["pm_1"; "pm_2"; "pm_3"; "pm_3"].
Proof.
  intros si stripe first second.
  destruct (setup_intent_redelivery_duplicates stripe Demo.clock Demo.later si
              (Demo.database "paid" 0) "cus_1" "pm_3"
              {| Stripe.pm_id := "pm_3"; Stripe.card_brand := "visa";
                 Stripe.card_last4 := "4242"; Stripe.card_exp_month := 12;
                 Stripe.card_exp_year := 2030 |}
              "u1" (Demo.user 0))
    as (u'' & Hu'' & Hdup & _);
    [reflexivity| reflexivity| reflexivity| vm_compute; reflexivity| reflexivity| | |].
  - intros uid' u' Hu' _. unfold Demo.database in Hu'. cbn [users] in Hu'.
    by apply lookup_singleton_Some in Hu' as [<- _].
  - intros k Hk. vm_compute in Hk.
    apply elem_of_cons in Hk as [->|Hk]; [discriminate|].
    apply elem_of_cons in Hk as [->|Hk]; [discriminate|].
    by apply elem_of_nil in Hk.
  - exists u''. split; [exact Hu''|]. rewrite Hdup by discriminate. reflexivity.
Defined.

(** * Further properties of the payment routes *)

(** *** The customer registry *)

(** X9. A stored customer identity is reused: for a user document that
    holds one, [getOrCreateCustomer] returns it after a single read,
    without contacting the processor and without writing, whatever the
    email it is given. *)
Theorem customer_stored_is_reused
    (stripe : Stripe.Api) (userId : string) (email : option string)
    (d : Firestore) (u : User.t) (c : string) :
  users d !! userId = Some u →
  Js.truthy (User.stripeCustomerId u) = Some c →
  exec (getOrCreateCustomer stripe userId email) d
  = (Returned c, d, [FsGet Users userId]).
Proof.
  intros Hu Hc. unfold getOrCreateCustomer. destruct d as [os us]. run.
  cbn [users] in Hu. rewrite Hu. cbn [option_bind]. by rewrite Hc.
Qed.

Lemma customer_stored_is_reused_witness :
  exec (getOrCreateCustomer (Demo.stripe "succeeded" true (Stripe.other_event "ping"))
          "u1" None)
       (Demo.database "paid" 0)
  = (Returned "cus_1", Demo.database "paid" 0, [FsGet Users "u1"]).
Proof.
  apply (customer_stored_is_reused _ "u1" None (Demo.database "paid" 0) (Demo.user 0) "cus_1");
    vm_compute; reflexivity.
Defined.

(** X10. A customer is created once.  When the user has no stored
    customer identity (the field is absent or empty, or the user document
    does not exist) and the processor answers the creation request with a
    non-empty identity [c], [getOrCreateCustomer] returns [c] after one
    creation request, sent with the given email or else the placeholder
    built from the user id, and merges [c] into the user document: the
    other fields of an existing document are kept, a missing document is
    created holding only [c], and no other user and no order changes.  A
    second call, with whatever email, returns [c] after a single read. *)
Theorem customer_created_once
    (stripe : Stripe.Api) (userId : string) (email email' : option string)
    (d : Firestore) (c : string) :
  users d !! userId ≫= (λ u, Js.truthy (User.stripeCustomerId u)) = None →
  Stripe.customersCreate stripe
    (default ("user_" +:+ userId +:+ "@example.com") (Js.truthy email)) userId = inr c →
  c ≠ "" →
  let first := exec (getOrCreateCustomer stripe userId email) d in
  let second := exec (getOrCreateCustomer stripe userId email') (final_db first) in
  outcome first = Returned c ∧
  requests (effects first)
    = [StripeRequest (Stripe.customers_create
                        (default ("user_" +:+ userId +:+ "@example.com") (Js.truthy email))
                        userId)] ∧
  users (final_db first) !! userId
    = Some (User.with_stripeCustomerId c (default User.empty (users d !! userId))) ∧
  (∀ uid, uid ≠ userId → users (final_db first) !! uid = users d !! uid) ∧
  orders (final_db first) = orders d ∧
  second = (Returned c, final_db first, [FsGet Users userId]).
Proof.
  intros Hnone Hcreate Hc first second.
  assert (first = (Returned c,
            {| orders := orders d;
               users := <[userId := User.with_stripeCustomerId c
                                      (default User.empty (users d !! userId))]> (users d) |},
            [FsGet Users userId;
             StripeRequest (Stripe.customers_create
               (default ("user_" +:+ userId +:+ "@example.com") (Js.truthy email)) userId);
             FsSetMerge Users userId ["stripeCustomerId"]])) as E1.
  { subst first. unfold getOrCreateCustomer. destruct d as [os us]. run.
    cbn [users] in Hnone.
    destruct (us !! userId) as [u|] eqn:Hu; cbn in Hnone |- *.
    - rewrite Hnone. run. rewrite Hcreate. run. by rewrite Hu.
    - run. rewrite Hcreate. run. by rewrite Hu. }
  subst second. rewrite E1. unfold outcome, final_db, effects. cbn [fst snd orders users].
  rewrite lookup_insert_eq.
  split; [done|]. split; [done|]. split; [done|]. split.
  { intros uid Hne. by rewrite lookup_insert_ne. }
  split; [done|].
  eapply customer_stored_is_reused.
  - cbn. apply lookup_insert_eq.
  - cbn. by rewrite decide_False.
Qed.

(** A first-time user [u7], not in the database. *)
Lemma customer_created_once_witness :
  let stripe := Demo.stripe "succeeded" true (Stripe.other_event "ping") in
  let first := exec (getOrCreateCustomer stripe "u7" None) (Demo.database "paid" 0) in
  let second := exec (getOrCreateCustomer stripe "u7" (Some "x@example.com")) (final_db first) in
  users (final_db first) !! "u7" = Some (User.with_stripeCustomerId "cus_u7" User.empty) ∧
  second = (Returned "cus_u7", final_db first, [FsGet Users "u7"]).
Proof.
  intros stripe first second.
  destruct (customer_created_once stripe "u7" None (Some "x@example.com")
              (Demo.database "paid" 0) "cus_u7")
    as (_ & _ & Hu & _ & _ & H2);
    [vm_compute; reflexivity| vm_compute; reflexivity| discriminate|].
  split; [exact Hu|exact H2].
Defined.

(** *** [create-payment-intent] *)

Lemma same_but_customer_refl u : same_but_customer u u.
Proof. by repeat split. Qed.

Lemma same_but_customer_set c u : same_but_customer u (User.with_stripeCustomerId c u).
Proof. by repeat split. Qed.

(** X11. [create-payment-intent] takes no money and changes no order:
    whatever the request, the processor's answers and the database, the
    handler answers (it never leaves the request without a response), the
    orders are unchanged, no user document is created or deleted, no
    update is issued, and every user document is as before but possibly
    for the stored customer identity.  In particular the wallet part of a
    payment is not debited here. *)
Theorem create_payment_intent_frame
    (stripe : Stripe.Api) (req : CreatePaymentIntent.body) (d : Firestore) :
  let x := exec (create_payment_intent stripe req) d in
  (∃ r, outcome x = Returned r) ∧
  orders (final_db x) = orders d ∧
  (∀ uid, users d !! uid = None → users (final_db x) !! uid = None) ∧
  (∀ uid u, users d !! uid = Some u →
     ∃ u', users (final_db x) !! uid = Some u' ∧ same_but_customer u u') ∧
  (∀ c id k, count (is_update c id k) (effects x) = 0%nat).
Proof.
  intros x. subst x. destruct d as [os us].
  assert (∀ (r : Response) t, let x := (Returned r, {| orders := os; users := us |}, t) in
     (∀ c id k, count (is_update c id k) t = 0%nat) →
     (∃ r, outcome x = Returned r) ∧
     orders (final_db x) = os ∧
     (∀ uid, us !! uid = None → users (final_db x) !! uid = None) ∧
     (∀ uid u, us !! uid = Some u →
        ∃ u', users (final_db x) !! uid = Some u' ∧ same_but_customer u u') ∧
     (∀ c id k, count (is_update c id k) (effects x) = 0%nat)) as Hsame.
  { intros r t x Ht. split; [by eexists|]. split; [done|]. split; [done|].
    split; [|done]. intros uid u Hu. exists u. split; [done|apply same_but_customer_refl]. }
  unfold create_payment_intent.
  destruct (Js.truthy_num (CreatePaymentIntent.amount req)) as [a|]; [|by apply Hsame].
  case_bool_decide; [by apply Hsame|].
  destruct (Js.truthy (CreatePaymentIntent.orderId req)) as [oid|]; [|by apply Hsame].
  destruct (Js.truthy (CreatePaymentIntent.userId req)) as [uid|]; [|by apply Hsame].
  run. destruct (us !! uid) as [u|] eqn:Hu; [|by apply Hsame].
  run. rewrite (getOrCreateCustomer_run stripe uid os us _ u Hu).
  assert (∀ (r : Response) c t, let x := (Returned r,
                     {| orders := os; users := <[uid := User.with_stripeCustomerId c u]> us |}, t) in
     (∀ c id k, count (is_update c id k) t = 0%nat) →
     (∃ r, outcome x = Returned r) ∧
     orders (final_db x) = os ∧
     (∀ uid, us !! uid = None → users (final_db x) !! uid = None) ∧
     (∀ uid u, us !! uid = Some u →
        ∃ u', users (final_db x) !! uid = Some u' ∧ same_but_customer u u') ∧
     (∀ c id k, count (is_update c id k) (effects x) = 0%nat)) as Hset.
  { intros r c t x Ht. split; [by eexists|]. split; [done|]. split.
    { intros uid' Hnone. unfold final_db. cbn.
      rewrite lookup_insert_ne; [done|congruence]. }
    split; [|done]. intros uid' u' Hu'. unfold final_db. cbn.
    destruct (decide (uid = uid')) as [<-|Hne].
    - rewrite lookup_insert_eq. eexists. split; [done|].
      simplify_eq. apply same_but_customer_set.
    - rewrite lookup_insert_ne by done. exists u'. split; [done|apply same_but_customer_refl]. }
  destruct (Js.truthy (User.stripeCustomerId u)) as [c|].
  - case_bool_decide; [by apply Hsame|].
    destruct (Js.truthy (CreatePaymentIntent.paymentMethodId req)) as [pm|].
    + rewrite attach_ignoring_errors_run. run.
      destruct (Stripe.paymentIntentsCreate stripe _) as [e|pi]; by apply Hsame.
    + run. destruct (Stripe.paymentIntentsCreate stripe _) as [e|pi]; by apply Hsame.
  - destruct (Stripe.customersCreate stripe _ uid) as [e|c]; [by apply Hsame|].
    case_bool_decide; [by apply Hset|].
    destruct (Js.truthy (CreatePaymentIntent.paymentMethodId req)) as [pm|].
    + rewrite attach_ignoring_errors_run. run.
      destruct (Stripe.paymentIntentsCreate stripe _) as [e|pi]; by apply Hset.
    + run. destruct (Stripe.paymentIntentsCreate stripe _) as [e|pi]; by apply Hset.
Qed.

Lemma customer_resolved_run stripe uid os us t u c :
  us !! uid = Some u →
  customer_of stripe uid u = inr c →
  getOrCreateCustomer stripe uid (User.email u)
    {| db := {| orders := os; users := us |}; trace := t |}
  = (Returned c,
     {| db := {| orders := os; users := users_with_customer uid c u us |};
        trace := t ++ customer_effects uid u |}).
Proof.
  intros Hu Hc. rewrite (getOrCreateCustomer_run stripe uid os us t u Hu).
  unfold customer_of, users_with_customer, customer_effects in *.
  destruct (Js.truthy (User.stripeCustomerId u)); [by injection Hc as ->|].
  by rewrite Hc.
Qed.

Lemma customer_failed_run stripe uid os us t u e :
  us !! uid = Some u →
  customer_of stripe uid u = inl e →
  getOrCreateCustomer stripe uid (User.email u)
    {| db := {| orders := os; users := us |}; trace := t |}
  = (Thrown e,
     {| db := {| orders := os; users := us |};
        trace := t ++ [FsGet Users uid;
                       StripeRequest (Stripe.customers_create (customer_email uid u) uid)] |}).
Proof.
  intros Hu Hc. rewrite (getOrCreateCustomer_run stripe uid os us t u Hu).
  unfold customer_of in Hc.
  destruct (Js.truthy (User.stripeCustomerId u)); [done|]. by rewrite Hc.
Qed.

Lemma users_with_customer_lookup uid c u us :
  us !! uid = Some u →
  ∃ u1, users_with_customer uid c u us !! uid = Some u1 ∧ same_but_customer u u1.
Proof.
  intros Hu. unfold users_with_customer. destruct (Js.truthy _).
  - exists u. split; [done|apply same_but_customer_refl].
  - eexists. split; [apply lookup_insert_eq|apply same_but_customer_set].
Qed.

Lemma users_with_customer_other uid c u us uid' :
  uid' ≠ uid → users_with_customer uid c u us !! uid' = us !! uid'.
Proof.
  intros Hne. unfold users_with_customer. destruct (Js.truthy _); [done|].
  by rewrite lookup_insert_ne.
Qed.

(** The run of [create-payment-intent] that creates an intent. *)
Lemma intent_run stripe req os us a oid uid u c :
  CreatePaymentIntent.amount req = Some a →
  0 < a →
  default 0 (CreatePaymentIntent.walletAmount req) < a →
  Js.truthy (CreatePaymentIntent.orderId req) = Some oid →
  Js.truthy (CreatePaymentIntent.userId req) = Some uid →
  us !! uid = Some u →
  customer_of stripe uid u = inr c →
  let w := default 0 (CreatePaymentIntent.walletAmount req) in
  let p := intent_params (a - w) w (default "gbp" (CreatePaymentIntent.currency req))
             c oid uid (Js.truthy (CreatePaymentIntent.paymentMethodId req)) in
  exec (create_payment_intent stripe req) {| orders := os; users := us |}
  = (match Stripe.paymentIntentsCreate stripe p with
     | inr pi => Returned (intent_answer pi)
     | inl e => Returned (res_status_json 500
                            (error_details "Failed to create payment intent" e))
     end,
     {| orders := os; users := users_with_customer uid c u us |},
     [FsGet Users uid] ++ customer_effects uid u
       ++ attach_effects (Js.truthy (CreatePaymentIntent.paymentMethodId req)) c
       ++ [StripeRequest (Stripe.paymentIntents_create p)]).
Proof.
  intros Ha Hpos Hw Ho Hu Hd Hc w p. subst w p.
  unfold create_payment_intent. rewrite Ha, Ho, Hu.
  cbn [Js.truthy_num]. rewrite decide_False by lia.
  rewrite bool_decide_false by lia. run. rewrite Hd. run.
  rewrite (customer_resolved_run stripe uid os us _ u c Hd Hc).
  rewrite bool_decide_false by lia.
  destruct (Js.truthy (CreatePaymentIntent.paymentMethodId req)) as [pm|].
  - rewrite attach_ignoring_errors_run. run. fold (intent_params
      (a - default 0 (CreatePaymentIntent.walletAmount req))
      (default 0 (CreatePaymentIntent.walletAmount req))
      (default "gbp" (CreatePaymentIntent.currency req)) c oid uid (Some pm)).
    destruct (Stripe.paymentIntentsCreate stripe _) as [e|pi0]; cbn;
      by rewrite <- !app_assoc.
  - run. fold (intent_params
      (a - default 0 (CreatePaymentIntent.walletAmount req))
      (default 0 (CreatePaymentIntent.walletAmount req))
      (default "gbp" (CreatePaymentIntent.currency req)) c oid uid None).
    destruct (Stripe.paymentIntentsCreate stripe _) as [e|pi0]; cbn;
      by rewrite ?app_nil_r, <- ?app_assoc.
Qed.

(** X12. An unknown user is a 404: when the request is valid but no
    document exists for its user id, [create-payment-intent] and
    [add-money-to-wallet] answer 404 "User not found" after a single
    read; the processor is not contacted, no customer is created and the
    database is unchanged. *)
Theorem unknown_user_not_found
    (stripe : Stripe.Api) (now : Clock)
    (creq : CreatePaymentIntent.body) (areq : AddMoneyToWallet.body)
    (d : Firestore) (uid oid : string) (a a' : Z) :
  users d !! uid = None →
  CreatePaymentIntent.amount creq = Some a → 0 < a →
  Js.truthy (CreatePaymentIntent.orderId creq) = Some oid →
  Js.truthy (CreatePaymentIntent.userId creq) = Some uid →
  AddMoneyToWallet.amount areq = Some a' → 0 < a' →
  Js.truthy (AddMoneyToWallet.userId areq) = Some uid →
  let not_found := {| status := 404; body := Json [("error", Js.JStr "User not found")] |} in
  exec (create_payment_intent stripe creq) d = (Returned not_found, d, [FsGet Users uid]) ∧
  exec (add_money_to_wallet stripe now areq) d = (Returned not_found, d, [FsGet Users uid]).
Proof.
  intros Hd Ha Hpos Ho Hu Ha' Hpos' Hu' not_found. destruct d as [os us].
  cbn [users] in Hd. split.
  - unfold create_payment_intent. rewrite Ha, Ho, Hu. cbn [Js.truthy_num].
    rewrite decide_False by lia. rewrite bool_decide_false by lia.
    run. by rewrite Hd.
  - unfold add_money_to_wallet. rewrite Ha', Hu'. cbn [Js.truthy_num].
    rewrite decide_False by lia. rewrite bool_decide_false by lia.
    run. by rewrite Hd.
Qed.

Lemma unknown_user_not_found_witness :
  let stripe := Demo.stripe "succeeded" true (Stripe.other_event "ping") in
  let d := {| orders := ∅; users := ∅ |} in
  exec (create_payment_intent stripe Demo.hybrid_request) d
  = (Returned {| status := 404; body := Json [("error", Js.JStr "User not found")] |},
     d, [FsGet Users "u1"]).
Proof.
  intros stripe d.
  destruct (unknown_user_not_found stripe Demo.clock Demo.hybrid_request
              Demo.top_up_request d "u1" "o1" 1000 500) as [H _];
    [reflexivity| reflexivity| lia| reflexivity| reflexivity| reflexivity| lia
    | reflexivity|].
  exact H.
Defined.

(** X13. The intent is issued for the remainder.  For a valid request of
    an existing user whose [walletAmount] (0 when absent; its sign and
    the user's balance are not checked) is below [amount], once the
    customer is resolved the handler sends one payment-intent request:
    for [amount - walletAmount], in the given currency or else "gbp",
    unconfirmed, with metadata [orderId], [userId] and the decimal text of
    [walletAmount].  When the processor answers with an intent, the
    response carries all five declared fields, with [walletOnly] false,
    the intent's id and status, and [requiresConfirmation] true exactly
    for the statuses "requires_confirmation" and
    "requires_payment_method". *)
Theorem intent_issued_for_remainder
    (stripe : Stripe.Api) (req : CreatePaymentIntent.body) (d : Firestore)
    (a : Z) (oid uid : string) (u : User.t) (c : string) (pi : Stripe.PaymentIntent) :
  CreatePaymentIntent.amount req = Some a →
  0 < a →
  default 0 (CreatePaymentIntent.walletAmount req) < a →
  Js.truthy (CreatePaymentIntent.orderId req) = Some oid →
  Js.truthy (CreatePaymentIntent.userId req) = Some uid →
  users d !! uid = Some u →
  customer_of stripe uid u = inr c →
  let w := default 0 (CreatePaymentIntent.walletAmount req) in
  let p := intent_params (a - w) w (default "gbp" (CreatePaymentIntent.currency req))
             c oid uid (Js.truthy (CreatePaymentIntent.paymentMethodId req)) in
  Stripe.paymentIntentsCreate stripe p = inr pi →
  let x := exec (create_payment_intent stripe req) d in
  List.filter is_paymentIntents_create (effects x)
    = [StripeRequest (Stripe.paymentIntents_create p)] ∧
  Stripe.p_amount p = a - w ∧
  Stripe.p_confirm p = false ∧
  Stripe.p_metadata p !! "orderId" = Some oid ∧
  Stripe.p_metadata p !! "userId" = Some uid ∧
  Stripe.p_metadata p !! "walletAmount" = Some (pretty w) ∧
  ∃ r, outcome x = Returned r ∧
       (∀ k, k ∈ declared_fields → is_Some (field k r)) ∧
       field "walletOnly" r = Some (Js.JBool false) ∧
       field "paymentIntentId" r = Some (Js.JStr (Stripe.id pi)) ∧
       field "status" r = Some (Js.JStr (Stripe.status pi)) ∧
       field "requiresConfirmation" r
         = Some (Js.JBool (bool_decide (Stripe.status pi = "requires_confirmation"
                                        ∨ Stripe.status pi = "requires_payment_method"))).
Proof.
  intros Ha Hpos Hw Ho Hu Hd Hc w p Hcreate x. subst x.
  destruct d as [os us]. cbn [users] in Hd.
  rewrite (intent_run stripe req os us a oid uid u c Ha Hpos Hw Ho Hu Hd Hc).
  fold w. fold p. rewrite Hcreate. unfold outcome, effects. cbn [fst snd].
  split.
  { unfold customer_effects, attach_effects.
    destruct (Js.truthy (User.stripeCustomerId u));
      by destruct (Js.truthy (CreatePaymentIntent.paymentMethodId req)). }
  split; [done|]. split; [done|].
  split; [reflexivity|]. split; [reflexivity|]. split; [reflexivity|].
  eexists. split; [done|]. split.
  { intros k Hk. unfold declared_fields in Hk.
    repeat (apply elem_of_cons in Hk as [->|Hk]; [by eexists|]).
    by apply elem_of_nil in Hk. }
  split; [done|]. split; [done|]. split; [done|].
  cbn. do 2 f_equal.
  destruct (decide (Stripe.status pi = "requires_confirmation")) as [->|H1]; [done|].
  destruct (decide (Stripe.status pi = "requires_payment_method")) as [->|H2]; [done|].
  rewrite !bool_decide_false; [done|tauto|done|done].
Qed.

Lemma intent_issued_for_remainder_witness :
  let x := exec (create_payment_intent
                   (Demo.stripe "requires_payment_method" true (Stripe.other_event "ping"))
                   Demo.hybrid_request)
                (Demo.database "unpaid" 1000) in
  ∃ p, List.filter is_paymentIntents_create (effects x)
         = [StripeRequest (Stripe.paymentIntents_create p)] ∧
       Stripe.p_amount p = 600.
Proof.
  intros x.
  edestruct (intent_issued_for_remainder
              (Demo.stripe "requires_payment_method" true (Stripe.other_event "ping"))
              Demo.hybrid_request (Demo.database "unpaid" 1000)
              1000 "o1" "u1" (Demo.user 1000) "cus_1")
    as (Hreq & Ham & _).
  1-7: first [reflexivity | lia | vm_compute; reflexivity].
  - reflexivity.
  - eexists. split; [exact Hreq|exact Ham].
Defined.

(** X14. Processor errors are passed on as a 500.  For a valid request of
    an existing user, when the processor refuses to create the customer,
    or (the remainder being positive) refuses to create the intent, the
    answer has status 500, carries the processor's message as [error] (or
    "Failed to create payment intent" when the message is empty) and its
    [type] and [code], when it has them, as [details] and [code]. *)
Theorem processor_error_is_passed_on
    (stripe : Stripe.Api) (req : CreatePaymentIntent.body) (d : Firestore)
    (a : Z) (oid uid : string) (u : User.t) (e : Js.error) :
  CreatePaymentIntent.amount req = Some a →
  0 < a →
  Js.truthy (CreatePaymentIntent.orderId req) = Some oid →
  Js.truthy (CreatePaymentIntent.userId req) = Some uid →
  users d !! uid = Some u →
  let w := default 0 (CreatePaymentIntent.walletAmount req) in
  customer_of stripe uid u = inl e
  ∨ (∃ c, customer_of stripe uid u = inr c ∧ w < a ∧
          Stripe.paymentIntentsCreate stripe
            (intent_params (a - w) w (default "gbp" (CreatePaymentIntent.currency req))
               c oid uid (Js.truthy (CreatePaymentIntent.paymentMethodId req))) = inl e) →
  let x := exec (create_payment_intent stripe req) d in
  ∃ r, outcome x = Returned r ∧
       status r = 500 ∧
       field "error" r
         = Some (Js.JStr (if decide (Js.message e = "")
                          then "Failed to create payment intent" else Js.message e)) ∧
       field "details" r = Js.JStr <$> Js.type e ∧
       field "code" r = Js.JStr <$> Js.code e.
Proof.
  intros Ha Hpos Ho Hu Hd w Herr x. subst x.
  destruct d as [os us]. cbn [users] in Hd.
  assert (∀ r, r = res_status_json 500 (error_details "Failed to create payment intent" e) →
     status r = 500 ∧
     field "error" r
       = Some (Js.JStr (if decide (Js.message e = "")
                        then "Failed to create payment intent" else Js.message e)) ∧
     field "details" r = Js.JStr <$> Js.type e ∧
     field "code" r = Js.JStr <$> Js.code e) as Hfields.
  { intros r ->. unfold field, error_details, message_or, prop. cbn.
    destruct (Js.type e), (Js.code e); by repeat split. }
  destruct Herr as [Hc|(c & Hc & Hw & Hcreate)].
  - unfold create_payment_intent. rewrite Ha, Ho, Hu. cbn [Js.truthy_num].
    rewrite decide_False by lia. rewrite bool_decide_false by lia.
    run. rewrite Hd. run. rewrite (getOrCreateCustomer_run stripe uid os us _ u Hd).
    unfold customer_of in Hc.
    destruct (Js.truthy (User.stripeCustomerId u)); [done|].
    rewrite Hc. cbn. eexists. split; [done|]. by apply Hfields.
  - rewrite (intent_run stripe req os us a oid uid u c Ha Hpos Hw Ho Hu Hd Hc).
    fold w. rewrite Hcreate. unfold outcome. cbn [fst].
    eexists. split; [done|]. by apply Hfields.
Qed.

Lemma processor_error_is_passed_on_witness :
  let refusing := Sample.refusing in
  let x := exec (create_payment_intent refusing Demo.hybrid_request)
                (Demo.database "unpaid" 1000) in
  ∃ r, outcome x = Returned r ∧ status r = 500 ∧
       field "error" r = Some (Js.JStr "No such PaymentMethod") ∧
       field "code" r = Some (Js.JStr "resource_missing").
Proof.
  intros refusing x.
  destruct (processor_error_is_passed_on refusing Demo.hybrid_request
              (Demo.database "unpaid" 1000) 1000 "o1" "u1" (Demo.user 1000)
              Demo.card_declined)
    as (r & Hr & Hs & He & _ & Hc);
    [reflexivity| lia| reflexivity| reflexivity| vm_compute; reflexivity| |].
  - right. exists "cus_1". split; [reflexivity|]. split; [vm_compute; reflexivity|reflexivity].
  - exists r. split; [exact Hr|]. split; [exact Hs|]. split; [exact He|exact Hc].
Defined.

(** X15. A failed attach is not fatal.  Whatever the processor answers
    to the attach request, [create-payment-intent] and
    [add-money-to-wallet] run the same: same answer, same database, same
    requests. *)
Theorem attach_failure_is_not_fatal
    (stripe : Stripe.Api) (f : string → string → Js.error + unit) (now : Clock)
    (creq : CreatePaymentIntent.body) (areq : AddMoneyToWallet.body) (d : Firestore) :
  exec (create_payment_intent (with_attach f stripe) creq) d
    = exec (create_payment_intent stripe creq) d ∧
  exec (add_money_to_wallet (with_attach f stripe) now areq) d
    = exec (add_money_to_wallet stripe now areq) d.
Proof.
  destruct d as [os us]. split.
  - unfold create_payment_intent.
    destruct (Js.truthy_num (CreatePaymentIntent.amount creq)) as [a|]; [|done].
    case_bool_decide; [done|].
    destruct (Js.truthy (CreatePaymentIntent.orderId creq)) as [oid|]; [|done].
    destruct (Js.truthy (CreatePaymentIntent.userId creq)) as [uid|]; [|done].
    run. destruct (us !! uid) as [u|] eqn:Hu; [|done].
    run. rewrite !(getOrCreateCustomer_run _ uid os us _ u Hu).
    cbn [with_attach Stripe.customersCreate].
    destruct (Js.truthy (User.stripeCustomerId u)) as [c|].
    + case_bool_decide; [done|].
      destruct (Js.truthy (CreatePaymentIntent.paymentMethodId creq)) as [pm|]; [|done].
      by rewrite !attach_ignoring_errors_run.
    + destruct (Stripe.customersCreate stripe _ uid) as [e|c]; [done|].
      case_bool_decide; [done|].
      destruct (Js.truthy (CreatePaymentIntent.paymentMethodId creq)) as [pm|]; [|done].
      by rewrite !attach_ignoring_errors_run.
  - unfold add_money_to_wallet.
    destruct (Js.truthy_num (AddMoneyToWallet.amount areq)) as [a|]; [|done].
    case_bool_decide; [done|].
    destruct (Js.truthy (AddMoneyToWallet.userId areq)) as [uid|]; [|done].
    run. destruct (us !! uid) as [u|] eqn:Hu; [|done].
    run. rewrite !(getOrCreateCustomer_run _ uid os us _ u Hu).
    cbn [with_attach Stripe.customersCreate].
    destruct (Js.truthy (User.stripeCustomerId u)) as [c|].
    + destruct (Js.truthy (AddMoneyToWallet.paymentMethodId areq)) as [pm|]; [|done].
      by rewrite !attach_ignoring_errors_run.
    + destruct (Stripe.customersCreate stripe _ uid) as [e|c]; [done|].
      destruct (Js.truthy (AddMoneyToWallet.paymentMethodId areq)) as [pm|]; [|done].
      by rewrite !attach_ignoring_errors_run.
Qed.

Lemma truthy_Some_inv o s : Js.truthy o = Some s → o = Some s ∧ s ≠ "".
Proof.
  unfold Js.truthy. destruct o as [s'|]; [|done].
  case_decide; [done|]. by intros [= <-].
Qed.

Lemma truthy_Some s : s ≠ "" → Js.truthy (Some s) = Some s.
Proof. intros H. unfold Js.truthy. by rewrite decide_False. Qed.

(** X16. A hybrid payment, end to end.  A request for [amount] with a
    wallet part [0 < walletAmount < amount] that the balance covers makes
    the issuer ask the processor for [amount - walletAmount] and debit
    nothing.  When the success event of an intent carrying the metadata of
    that request is then reconciled (and [Number] reads the decimal text
    of [walletAmount] back), the unpaid order becomes paid, the balance
    goes down by exactly [walletAmount], and the order enters the user's
    history: card part and wallet part add up to [amount]. *)
Theorem hybrid_payment_end_to_end
    (stripe : Stripe.Api) (Number : string → Js.num) (now : Clock)
    (req : CreatePaymentIntent.body) (d : Firestore)
    (a w : Z) (oid uid : string) (u : User.t) (c : string) (o : Order.t)
    (event_intent : Stripe.PaymentIntent) :
  CreatePaymentIntent.amount req = Some a →
  CreatePaymentIntent.walletAmount req = Some w →
  0 < w → w < a →
  Js.truthy (CreatePaymentIntent.orderId req) = Some oid →
  Js.truthy (CreatePaymentIntent.userId req) = Some uid →
  users d !! uid = Some u →
  w ≤ walletBalance_of u →
  orders d !! oid = Some o →
  Order.paymentStatus o ≠ Some "paid" →
  customer_of stripe uid u = inr c →
  Number (pretty w) = Js.Num w →
  let p := intent_params (a - w) w (default "gbp" (CreatePaymentIntent.currency req))
             c oid uid (Js.truthy (CreatePaymentIntent.paymentMethodId req)) in
  Stripe.metadata event_intent = Some (Stripe.p_metadata p) →
  let issued := exec (create_payment_intent stripe req) d in
  let paid := exec (handlePaymentSuccess Number now event_intent) (final_db issued) in
  List.filter is_paymentIntents_create (effects issued)
    = [StripeRequest (Stripe.paymentIntents_create p)] ∧
  Stripe.p_amount p + w = a ∧
  User.walletBalance <$> users (final_db issued) !! uid = Some (User.walletBalance u) ∧
  User.walletBalance <$> users (final_db paid) !! uid = Some (Some (walletBalance_of u - w)) ∧
  orders (final_db paid) !! oid ≫= Order.paymentStatus = Some "paid" ∧
  (∃ u', users (final_db paid) !! uid = Some u' ∧ oid ∈ User.orderHistory u').
Proof.
  intros Ha Hwa Hw Hlt Ho Hu Hd Hbal Hod Hp Hc HN p Hmeta issued paid.
  destruct d as [os us]. cbn [users orders] in Hd, Hod.
  assert (default 0 (CreatePaymentIntent.walletAmount req) = w) as Hdw by (by rewrite Hwa).
  pose proof (intent_run stripe req os us a oid uid u c Ha ltac:(lia) ltac:(lia) Ho Hu Hd Hc) as E.
  cbv zeta in E. rewrite Hdw in E. fold p in E. fold issued in E.
  destruct (users_with_customer_lookup uid c u us Hd) as (u1 & Hu1 & Hsame).
  destruct Hsame as (_ & Hb1 & _ & _ & _ & Hh1 & _).
  set (d1 := {| orders := os; users := users_with_customer uid c u us |}) in *.
  assert (final_db issued = d1) as Hf by (by rewrite E).
  destruct (truthy_Some_inv _ _ Ho) as [_ Hoid].
  destruct (truthy_Some_inv _ _ Hu) as [_ Huid].
  assert (metadata_of event_intent = Stripe.p_metadata p) as Hm
    by (unfold metadata_of; by rewrite Hmeta).
  assert (Js.truthy (metadata_of event_intent !! "orderId") = Some oid) as Eo.
  { rewrite Hm. change (Stripe.p_metadata p !! "orderId") with (Some oid).
    by apply truthy_Some. }
  assert (Js.truthy (metadata_of event_intent !! "userId") = Some uid) as Eu.
  { rewrite Hm. change (Stripe.p_metadata p !! "userId") with (Some uid).
    by apply truthy_Some. }
  assert (deduction Number event_intent u1 = Some (walletBalance_of u - w)) as Hded.
  { unfold deduction, walletAmountNum. rewrite Hm.
    change (Stripe.p_metadata p !! "walletAmount") with (Some (pretty w)).
    cbv beta iota. rewrite HN. unfold walletBalance_of in *. rewrite Hb1.
    rewrite bool_decide_true; [done|lia]. }
  pose proof (success_unpaid Number now event_intent d1 oid uid o u1 Eo Eu Hod Hu1 Hp) as E2.
  rewrite <- Hf in E2. fold paid in E2. rewrite Hded in E2.
  split.
  { rewrite E. unfold effects. cbn [snd].
    unfold customer_effects, attach_effects.
    destruct (Js.truthy (User.stripeCustomerId u));
      by destruct (Js.truthy (CreatePaymentIntent.paymentMethodId req)). }
  split; [cbn; lia|].
  split; [rewrite Hf; unfold d1; cbn [users]; rewrite Hu1; cbn; by rewrite Hb1|].
  rewrite E2. unfold final_db, d1. cbn [fst snd orders users].
  rewrite !lookup_insert_eq. split; [done|]. split; [done|].
  eexists. split; [done|]. cbn. apply arrayUnion_elem.
Qed.

Lemma hybrid_payment_end_to_end_witness :
  let stripe := Demo.stripe "requires_payment_method" true (Stripe.other_event "ping") in
  let issued := exec (create_payment_intent stripe Demo.hybrid_request)
                     (Demo.database "unpaid" 1000) in
  let paid := exec (handlePaymentSuccess Demo.Number Demo.clock
                      (Demo.intent "succeeded" Demo.metadata)) (final_db issued) in
  User.walletBalance <$> users (final_db issued) !! "u1" = Some (Some 1000) ∧
  User.walletBalance <$> users (final_db paid) !! "u1" = Some (Some 600) ∧
  orders (final_db paid) !! "o1" ≫= Order.paymentStatus = Some "paid".
Proof.
  intros stripe issued paid.
  destruct (hybrid_payment_end_to_end stripe Demo.Number Demo.clock Demo.hybrid_request
              (Demo.database "unpaid" 1000) 1000 400 "o1" "u1" (Demo.user 1000) "cus_1"
              (Demo.order "unpaid") (Demo.intent "succeeded" Demo.metadata))
    as (_ & _ & H1 & H2 & H3 & _).
  1-13: first [reflexivity | lia | discriminate | vm_compute; reflexivity
              | vm_compute; discriminate].
  split; [exact H1|]. split; [exact H2|exact H3].
Defined.

(** *** [add-money-to-wallet] *)

Lemma arrayUnion_keeps {A} `{EqDecision A} (x y : A) (l : list A) :
  y ∈ l → y ∈ arrayUnion x l.
Proof.
  intros Hy. unfold arrayUnion. case_decide; [done|]. apply elem_of_app. by left.
Qed.

Lemma grown_same_but_customer u u' : same_but_customer u u' → grown u u'.
Proof.
  intros (He & Hb & Hc & Hd & Ht & Hh & _). unfold grown, savedCards_of.
  rewrite Hc, Ht. split; [by left|]. by repeat split.
Qed.

(** Whatever the status of the created intent, settling a top-up of a
    positive amount only grows the user's document. *)
Lemma settle_grows stripe now uid ud a pmid sc pi os us t u1 :
  0 < a →
  us !! uid = Some u1 →
  same_but_customer ud u1 →
  ∃ r us' t',
    add_money_settle stripe now uid ud a pmid sc pi
      {| db := {| orders := os; users := us |}; trace := t |}
    = (Returned r, {| db := {| orders := os; users := us' |}; trace := t ++ t' |}) ∧
    (∀ uid', uid' ≠ uid → us' !! uid' = us !! uid') ∧
    ∃ u', us' !! uid = Some u' ∧ grown ud u'.
Proof.
  intros Hpos Hu Hsame.
  assert (∀ r : Response, ∃ (r' : Response) us' t',
    (Returned r, {| db := {| orders := os; users := us |}; trace := t |})
    = (Returned r', {| db := {| orders := os; users := us' |}; trace := t ++ t' |}) ∧
    (∀ uid', uid' ≠ uid → us' !! uid' = us !! uid') ∧
    ∃ u', us' !! uid = Some u' ∧ grown ud u') as Hsame_db.
  { intros r. exists r, us, []. rewrite app_nil_r. split; [done|]. split; [done|].
    exists u1. split; [done|by apply grown_same_but_customer]. }
  destruct (decide (Stripe.status pi = "requires_action"
                    ∨ Stripe.status pi = "requires_payment_method")) as [Hp|Hp].
  { rewrite settle_pending by done. apply Hsame_db. }
  destruct (decide (Stripe.status pi = "succeeded")) as [Hs|Hs].
  2:{ rewrite settle_other by tauto. apply Hsame_db. }
  destruct Hsame as (He & Hb & Hc & Hd & Ht & Hh & _).
  unfold add_money_settle.
  rewrite (bool_decide_false (_ = "requires_action")) by tauto.
  rewrite (bool_decide_false (_ = "requires_payment_method")) by tauto.
  rewrite (bool_decide_true (_ = "succeeded")) by done.
  cbn [orb]. run. rewrite Hu. run.
  set (u2 := User.with_walletTransactions _ _).
  assert (grown ud u2) as Hg2.
  { unfold grown, savedCards_of, walletBalance_of. subst u2. cbn.
    rewrite Hc, Ht. split; [right; eauto|]. split; [|done].
    intros tx Htx. by apply arrayUnion_keeps. }
  assert (∀ uid', uid' ≠ uid → <[uid := u2]> us !! uid' = us !! uid') as Hframe
    by (intros; by rewrite lookup_insert_ne).
  destruct sc; [destruct pmid|].
  - eexists _, _, [_]. run. split; [reflexivity|]. split; [exact Hframe|].
    exists u2. by rewrite lookup_insert_eq.
  - destruct (Js.truthy (Stripe.payment_method pi)) as [pm|].
    + run. destruct (Stripe.paymentMethodsRetrieve stripe pm) as [e|card].
      * run. rewrite <- app_assoc. eexists _, _, [_; _]. cbn [app].
        split; [reflexivity|]. split; [exact Hframe|].
        exists u2. by rewrite lookup_insert_eq.
      * run. rewrite lookup_insert_eq. run. rewrite <- !app_assoc.
        eexists _, _, [_; _; _]. cbn [app]. split; [reflexivity|]. split.
        { intros uid' Hne. rewrite !lookup_insert_ne by done. done. }
        eexists. rewrite lookup_insert_eq. split; [done|].
        destruct Hg2 as (Hg1 & Hg3 & Hg4 & Hg5 & Hg6 & Hg7).
        split; [done|]. split; [done|]. split; [|done].
        intros k Hk. unfold savedCards_of. cbn. apply arrayUnion_keeps. by apply Hg4.
    + eexists _, _, [_]. run. split; [reflexivity|]. split; [exact Hframe|].
      exists u2. by rewrite lookup_insert_eq.
  - eexists _, _, [_]. run. split; [reflexivity|]. split; [exact Hframe|].
    exists u2. by rewrite lookup_insert_eq.
Qed.

(** X17. A top-up only ever adds.  Whatever the request, the processor's
    answers and the database, [add-money-to-wallet] answers (it never
    leaves the request without a response), leaves the orders unchanged,
    creates and deletes no user document, and leaves every user document
    grown at most: the balance is as before or larger by a positive
    amount, no ledger entry and no saved card is lost, and the email, the
    default card and the order history are as before.  Hence balances
    that were all non-negative stay so. *)
Theorem top_up_only_adds
    (stripe : Stripe.Api) (now : Clock) (req : AddMoneyToWallet.body) (d : Firestore) :
  let x := exec (add_money_to_wallet stripe now req) d in
  (∃ r, outcome x = Returned r) ∧
  orders (final_db x) = orders d ∧
  (∀ uid, users d !! uid = None → users (final_db x) !! uid = None) ∧
  (∀ uid u, users d !! uid = Some u →
     ∃ u', users (final_db x) !! uid = Some u' ∧ grown u u') ∧
  (wallets_nonnegative d → wallets_nonnegative (final_db x)).
Proof.
  intros x.
  assert ((∃ r, x.1.1 = Returned r) ∧
          orders x.1.2 = orders d ∧
          (∀ uid, users d !! uid = None → users x.1.2 !! uid = None) ∧
          (∀ uid u, users d !! uid = Some u →
             ∃ u', users x.1.2 !! uid = Some u' ∧ grown u u')) as H.
  2:{ destruct H as (Hr & Ho & Hn & Hs). do 4 (split; [done|]).
      intros Hinv uid u' b Hu' Hb. unfold final_db in Hu'.
      destruct (users d !! uid) as [u|] eqn:Hu; [|by rewrite (Hn uid Hu) in Hu'].
      destruct (Hs uid u Hu) as (u'' & Hu'' & [[Hsame|(a & Hpos & Hnew)] _]).
      - simplify_eq. apply (Hinv uid u b Hu). congruence.
      - simplify_eq. assert (0 ≤ walletBalance_of u); [|lia].
        unfold walletBalance_of. destruct (User.walletBalance u) as [b0|] eqn:Hb0; [|done].
        by apply (Hinv uid u b0). }
  subst x. destruct d as [os us]. cbn [orders users].
  set (P := λ y : Outcome Response * Firestore,
     (∃ r, y.1 = Returned r) ∧
     orders y.2 = os ∧
     (∀ uid, us !! uid = None → users y.2 !! uid = None) ∧
     (∀ uid u, us !! uid = Some u → ∃ u', users y.2 !! uid = Some u' ∧ grown u u')).
  change (P (exec (add_money_to_wallet stripe now req) {| orders := os; users := us |}).1).
  assert (∀ r, P (Returned r, {| orders := os; users := us |})) as Hsame.
  { intros r. split; [by eexists|]. split; [done|]. split; [done|].
    intros uid u Hu. exists u. split; [done|].
    apply grown_same_but_customer, same_but_customer_refl. }
  unfold add_money_to_wallet.
  destruct (Js.truthy_num (AddMoneyToWallet.amount req)) as [a|]; [|by apply Hsame].
  case_bool_decide as Hle; [by apply Hsame|].
  destruct (Js.truthy (AddMoneyToWallet.userId req)) as [uid|]; [|by apply Hsame].
  run. destruct (us !! uid) as [u|] eqn:Hu; [|by apply Hsame].
  run. destruct (customer_of stripe uid u) as [e|c] eqn:Hc.
  { rewrite (customer_failed_run stripe uid os us _ u e Hu Hc). by apply Hsame. }
  rewrite (customer_resolved_run stripe uid os us _ u c Hu Hc).
  destruct (users_with_customer_lookup uid c u us Hu) as (u1 & Hu1 & Hsame1).
  pose proof (users_with_customer_other uid c u us) as Hframe1.
  set (us1 := users_with_customer uid c u us) in *.
  assert (∀ r, P (Returned r, {| orders := os; users := us1 |})) as Hsame1_db.
  { intros r. split; [by eexists|]. split; [done|]. split.
    { intros uid' Hnone. cbn. rewrite Hframe1; [done|congruence]. }
    intros uid' u' Hu'. cbn. destruct (decide (uid' = uid)) as [->|Hne].
    - exists u1. split; [done|]. simplify_eq. by apply grown_same_but_customer.
    - rewrite Hframe1 by done. exists u'. split; [done|].
      apply grown_same_but_customer, same_but_customer_refl. }
  assert (∀ pi t, P (let '(o, w) :=
                       add_money_settle stripe now uid u a
                         (Js.truthy (AddMoneyToWallet.paymentMethodId req))
                         (default false (AddMoneyToWallet.saveCard req)) pi
                         {| db := {| orders := os; users := us1 |}; trace := t |} in
                     (match o with
                      | Returned r => Returned r
                      | Thrown e =>
                        Returned (res_status_json 500
                                    (error_details "Failed to add money to wallet" e))
                      end, db w))) as Hsettle.
  { intros pi t.
    destruct (settle_grows stripe now uid u a
                (Js.truthy (AddMoneyToWallet.paymentMethodId req))
                (default false (AddMoneyToWallet.saveCard req)) pi os us1 t u1)
      as (r & us' & t' & E & Hframe' & u' & Hu' & Hg); [lia|done|done|].
    rewrite E. split; [by eexists|]. split; [done|]. split.
    { intros uid' Hnone. cbn. rewrite Hframe', Hframe1; [done|congruence|congruence]. }
    intros uid' u0 Hu0. cbn. destruct (decide (uid' = uid)) as [->|Hne].
    - exists u'. split; [done|]. by simplify_eq.
    - rewrite Hframe', Hframe1 by done. exists u0. split; [done|].
      apply grown_same_but_customer, same_but_customer_refl. }
  destruct (Js.truthy (AddMoneyToWallet.paymentMethodId req)) as [pm|] eqn:Epm.
  - rewrite attach_ignoring_errors_run. run.
    destruct (Stripe.paymentIntentsCreate stripe _) as [e|pi]; [by apply Hsame1_db|].
    match goal with |- context [add_money_settle _ _ _ _ _ _ _ pi ?w] =>
      specialize (Hsettle pi (trace w)); cbn [trace] in Hsettle end.
    by destruct (add_money_settle _ _ _ _ _ _ _ _ _) as [[r|e] w].
  - run.
    destruct (Stripe.paymentIntentsCreate stripe _) as [e|pi]; [by apply Hsame1_db|].
    match goal with |- context [add_money_settle _ _ _ _ _ _ _ pi ?w] =>
      specialize (Hsettle pi (trace w)); cbn [trace] in Hsettle end.
    by destruct (add_money_settle _ _ _ _ _ _ _ _ _) as [[r|e] w].
Qed.

(** X18. [add-money-to-wallet] validates before it does anything else:
    a missing, zero or negative [amount] is answered with 400 "Invalid
    amount", and a valid amount without a user id with 400 "Missing user
    ID"; in both cases nothing is read, written or requested. *)
Theorem top_up_validates
    (stripe : Stripe.Api) (now : Clock) (req : AddMoneyToWallet.body) (d : Firestore) :
  invalid_amount (AddMoneyToWallet.amount req)
  ∨ Js.truthy (AddMoneyToWallet.userId req) = None →
  ∃ r, exec (add_money_to_wallet stripe now req) d = (Returned r, d, []) ∧
       status r = 400 ∧
       (invalid_amount (AddMoneyToWallet.amount req) →
        body r = Json [("error", Js.JStr "Invalid amount")]) ∧
       (¬ invalid_amount (AddMoneyToWallet.amount req) →
        body r = Json [("error", Js.JStr "Missing user ID")]).
Proof.
  intros H. unfold add_money_to_wallet, invalid_amount in *.
  destruct (AddMoneyToWallet.amount req) as [a|]; cbn [Js.truthy_num].
  2:{ eexists. split; [reflexivity|]. split; [done|split; [done|tauto]]. }
  destruct (decide (a = 0)) as [->|Hne].
  { eexists. split; [reflexivity|]. split; [done|split; [done|lia]]. }
  case_bool_decide as Hle.
  { eexists. split; [reflexivity|]. split; [done|split; [done|tauto]]. }
  destruct H as [H|H]; [done|]. rewrite H.
  eexists. split; [reflexivity|]. split; [done|split; [lia|done]].
Qed.

Lemma top_up_validates_witness :
  let req := {| AddMoneyToWallet.amount := Some (-5);
                AddMoneyToWallet.userId := Some "u1";
                AddMoneyToWallet.paymentMethodId := None;
                AddMoneyToWallet.saveCard := None;
                AddMoneyToWallet.currency := None |} in
  exec (add_money_to_wallet (Demo.stripe "succeeded" true (Stripe.other_event "ping"))
          Demo.clock req)
       (Demo.database "paid" 100)
  = (Returned {| status := 400; body := Json [("error", Js.JStr "Invalid amount")] |},
     Demo.database "paid" 100, []).
Proof.
  intros req.
  destruct (top_up_validates (Demo.stripe "succeeded" true (Stripe.other_event "ping"))
              Demo.clock req (Demo.database "paid" 100))
    as (r & E & Hs & Hb & _); [left; cbn; lia|].
  rewrite E. destruct r as [s b]. cbn in Hs, Hb. rewrite Hs, Hb; [reflexivity|cbn; lia].
Defined.

(** X19. A top-up that awaits confirmation credits nothing.  When the
    created intent has status "requires_action" or
    "requires_payment_method", the answer is
    [{requiresConfirmation: true, clientSecret, paymentIntentId, status}],
    without [success] or [newBalance]; no update is issued and every
    balance and ledger is as before. *)
Theorem top_up_awaits_confirmation
    (stripe : Stripe.Api) (now : Clock) (req : AddMoneyToWallet.body) (d : Firestore)
    (a : Z) (uid : string) (u : User.t) (c : string) (pi : Stripe.PaymentIntent) :
  AddMoneyToWallet.amount req = Some a →
  0 < a →
  Js.truthy (AddMoneyToWallet.userId req) = Some uid →
  users d !! uid = Some u →
  customer_of stripe uid u = inr c →
  Stripe.paymentIntentsCreate stripe
    (top_up_params a (default "gbp" (AddMoneyToWallet.currency req)) c uid
       (default false (AddMoneyToWallet.saveCard req))
       (Js.truthy (AddMoneyToWallet.paymentMethodId req))) = inr pi →
  Stripe.status pi = "requires_action" ∨ Stripe.status pi = "requires_payment_method" →
  let x := exec (add_money_to_wallet stripe now req) d in
  outcome x
    = Returned {| status := 200;
                  body := Json [("requiresConfirmation", Js.JBool true);
                                ("clientSecret", str_or_null (Stripe.client_secret pi));
                                ("paymentIntentId", Js.JStr (Stripe.id pi));
                                ("status", Js.JStr (Stripe.status pi))] |} ∧
  (∀ col id k, count (is_update col id k) (effects x) = 0%nat) ∧
  (∀ uid', User.walletBalance <$> users (final_db x) !! uid'
           = User.walletBalance <$> users d !! uid' ∧
           User.walletTransactions <$> users (final_db x) !! uid'
           = User.walletTransactions <$> users d !! uid').
Proof.
  intros Ha Hpos Hu Hd Hc Hcreate Hst x. subst x.
  destruct d as [os us]. cbn [users] in Hd.
  destruct (add_money_prefix stripe now req os us a uid u c pi Ha Hpos Hu Hd Hc Hcreate)
    as (us1 & t1 & u1 & E & Hcount & Hu1 & Hb1 & Ht1 & Hframe).
  unfold exec. rewrite E. unfold try_catch. rewrite settle_pending by done.
  cbn. split; [done|]. split; [done|].
  intros uid'. destruct (decide (uid' = uid)) as [->|Hne].
  - rewrite Hu1, Hd. cbn. by rewrite Hb1, Ht1.
  - by rewrite Hframe.
Qed.

Lemma top_up_awaits_confirmation_witness :
  let x := exec (add_money_to_wallet
                   (Demo.stripe "requires_action" true (Stripe.other_event "ping"))
                   Demo.clock Demo.top_up_request)
                (Demo.database "paid" 100) in
  (∃ r, outcome x = Returned r ∧
        field "requiresConfirmation" r = Some (Js.JBool true) ∧
        field "newBalance" r = None) ∧
  User.walletBalance <$> users (final_db x) !! "u1" = Some (Some 100).
Proof.
  intros x.
  destruct (top_up_awaits_confirmation
              (Demo.stripe "requires_action" true (Stripe.other_event "ping"))
              Demo.clock Demo.top_up_request (Demo.database "paid" 100)
              500 "u1" (Demo.user 100) "cus_1" (Demo.top_up_intent "requires_action"))
    as (Hr & _ & Hb);
    [reflexivity| lia| reflexivity| vm_compute; reflexivity| reflexivity
    | vm_compute; reflexivity| left; reflexivity|].
  split.
  - eexists. split; [exact Hr|]. split; reflexivity.
  - destruct (Hb "u1") as [Hb1 _]. exact Hb1.
Defined.

Lemma settle_succeeded_exact stripe now uid ud a pmid sc pi os us t u1 :
  Stripe.status pi = "succeeded" →
  us !! uid = Some u1 →
  add_money_settle stripe now uid ud a pmid sc pi
    {| db := {| orders := os; users := us |}; trace := t |}
  = (Returned (top_up_done pi a (walletBalance_of ud)),
     {| db := {| orders := os;
                 users := <[uid := match new_card_of stripe sc pmid pi with
                                   | Some (_, inr method) =>
                                     card_saved now (cardData now (Stripe.pm_id method) method)
                                       (credited now a ud pi pmid sc u1)
                                   | _ => credited now a ud pi pmid sc u1
                                   end]> us |};
        trace := t ++ [FsUpdate Users uid ["walletBalance"; "updatedAt"; "walletTransactions"]]
                   ++ match new_card_of stripe sc pmid pi with
                      | Some (pm, inr _) =>
                        [StripeRequest (Stripe.paymentMethods_retrieve pm);
                         FsUpdate Users uid ["savedCards"; "updatedAt"]]
                      | Some (pm, inl _) => [StripeRequest (Stripe.paymentMethods_retrieve pm)]
                      | None => []
                      end |}).
Proof.
  intros Hs Hu. unfold add_money_settle, new_card_of.
  rewrite (bool_decide_false (_ = "requires_action")) by (by rewrite Hs).
  rewrite (bool_decide_false (_ = "requires_payment_method")) by (by rewrite Hs).
  rewrite (bool_decide_true (_ = "succeeded")) by done.
  cbn [orb]. run. rewrite Hu. run.
  fold (walletBalance_of ud). fold (credited now a ud pi pmid sc u1).
  destruct sc; [destruct pmid|]; [by run| |by run].
  destruct (Js.truthy (Stripe.payment_method pi)) as [pm|]; [|by run].
  run. destruct (Stripe.paymentMethodsRetrieve stripe pm) as [e|method].
  - run. by rewrite <- !app_assoc.
  - run. rewrite lookup_insert_eq. run. rewrite insert_insert_eq.
    by rewrite <- !app_assoc.
Qed.

(** The run of a valid top-up up to the created intent, exactly. *)
Lemma top_up_run stripe now req os us a uid u c pi :
  AddMoneyToWallet.amount req = Some a →
  0 < a →
  Js.truthy (AddMoneyToWallet.userId req) = Some uid →
  us !! uid = Some u →
  customer_of stripe uid u = inr c →
  let pmid := Js.truthy (AddMoneyToWallet.paymentMethodId req) in
  let sc := default false (AddMoneyToWallet.saveCard req) in
  let p := top_up_params a (default "gbp" (AddMoneyToWallet.currency req)) c uid sc pmid in
  Stripe.paymentIntentsCreate stripe p = inr pi →
  add_money_to_wallet stripe now req
    {| db := {| orders := os; users := us |}; trace := [] |}
  = try_catch
      (add_money_settle stripe now uid u a pmid sc pi)
      (λ err, mret (res_status_json 500
                      (error_details "Failed to add money to wallet" err)))
      {| db := {| orders := os; users := users_with_customer uid c u us |};
         trace := [FsGet Users uid] ++ customer_effects uid u ++ attach_effects pmid c
                    ++ [StripeRequest (Stripe.paymentIntents_create p)] |}.
Proof.
  intros Ha Hpos Hu Hd Hc pmid sc p Hcreate. subst pmid sc p.
  unfold add_money_to_wallet. rewrite Ha, Hu.
  unfold Js.truthy_num. rewrite decide_False by lia.
  rewrite bool_decide_false by lia.
  run. rewrite Hd. run. rewrite (customer_resolved_run stripe uid os us _ u c Hd Hc).
  destruct (Js.truthy (AddMoneyToWallet.paymentMethodId req)) as [pm|] eqn:Epm.
  - rewrite attach_ignoring_errors_run. run. rewrite Hcreate.
    cbn [attach_effects app]. by rewrite <- !app_assoc.
  - run. rewrite Hcreate. cbn [attach_effects app]. by rewrite ?app_nil_r, <- ?app_assoc.
Qed.

(** X20. Saving the new card is best effort.  For a top-up that succeeds
    at once with [saveCard] set, no payment method supplied and an intent
    naming the method used: when the processor returns that method, its
    card summary is array-unioned into the saved cards and the wallet is
    credited; when the retrieval fails, the error is swallowed, the saved
    cards are as before and the wallet is credited all the same.  Either
    way the answer reports success. *)
Theorem top_up_saves_new_card
    (stripe : Stripe.Api) (now : Clock) (req : AddMoneyToWallet.body) (d : Firestore)
    (a : Z) (uid : string) (u : User.t) (c : string) (pi : Stripe.PaymentIntent)
    (pm : string) :
  AddMoneyToWallet.amount req = Some a →
  0 < a →
  Js.truthy (AddMoneyToWallet.userId req) = Some uid →
  users d !! uid = Some u →
  customer_of stripe uid u = inr c →
  AddMoneyToWallet.saveCard req = Some true →
  Js.truthy (AddMoneyToWallet.paymentMethodId req) = None →
  Stripe.paymentIntentsCreate stripe
    (top_up_params a (default "gbp" (AddMoneyToWallet.currency req)) c uid true None)
    = inr pi →
  Stripe.status pi = "succeeded" →
  Js.truthy (Stripe.payment_method pi) = Some pm →
  let x := exec (add_money_to_wallet stripe now req) d in
  outcome x = Returned (top_up_done pi a (walletBalance_of u)) ∧
  ∃ u', users (final_db x) !! uid = Some u' ∧
        User.walletBalance u' = Some (walletBalance_of u + a) ∧
        match Stripe.paymentMethodsRetrieve stripe pm with
        | inr method =>
          savedCards_of u'
            = arrayUnion (cardData now (Stripe.pm_id method) method) (savedCards_of u)
        | inl _ => savedCards_of u' = savedCards_of u
        end.
Proof.
  intros Ha Hpos Hu Hd Hc Hsc Hpm Hcreate Hs Hpi x. subst x.
  destruct d as [os us]. cbn [users] in Hd.
  assert (default false (AddMoneyToWallet.saveCard req) = true) as Hsc' by (by rewrite Hsc).
  pose proof (top_up_run stripe now req os us a uid u c pi Ha Hpos Hu Hd Hc) as E.
  cbv zeta in E. rewrite Hsc', Hpm in E. specialize (E Hcreate).
  destruct (users_with_customer_lookup uid c u us Hd) as (u1 & Hu1 & Hsame).
  destruct Hsame as (_ & _ & Hc1 & _).
  unfold exec. rewrite E. unfold try_catch.
  rewrite (settle_succeeded_exact stripe now uid u a None true pi os _ _ u1 Hs Hu1).
  unfold new_card_of. rewrite Hpi. unfold outcome, final_db. cbn [fst snd db users].
  split; [done|]. rewrite lookup_insert_eq. eexists. split; [done|].
  destruct (Stripe.paymentMethodsRetrieve stripe pm) as [e|method].
  - split; [done|]. unfold savedCards_of. cbn. by rewrite Hc1.
  - split; [done|]. unfold savedCards_of. cbn. by rewrite Hc1.
Qed.

Lemma top_up_saves_new_card_witness :
  let x := exec (add_money_to_wallet (Sample.new_card true) Demo.clock (Sample.top_up 500 true))
                (Demo.database "paid" 100) in
  let y := exec (add_money_to_wallet (Sample.new_card false) Demo.clock (Sample.top_up 500 true))
                (Demo.database "paid" 100) in
  (∃ u', users (final_db x) !! "u1" = Some u' ∧
         User.walletBalance u' = Some 600 ∧
         ids_of (savedCards_of u') = ["pm_1"; "pm_2"; "pm_9"]) ∧
  (∃ u', users (final_db y) !! "u1" = Some u' ∧
         User.walletBalance u' = Some 600 ∧
         ids_of (savedCards_of u') = ["pm_1"; "pm_2"]).
Proof.
  intros x y. split.
  - edestruct (top_up_saves_new_card (Sample.new_card true) Demo.clock (Sample.top_up 500 true)
                 (Demo.database "paid" 100) 500 "u1" (Demo.user 100) "cus_1")
      as (_ & u' & Hu' & Hb & Hcards).
    1-10: first [reflexivity | lia | vm_compute; reflexivity].
    exists u'. split; [exact Hu'|]. split; [exact Hb|].
    cbn in Hcards. rewrite Hcards. vm_compute. reflexivity.
  - edestruct (top_up_saves_new_card (Sample.new_card false) Demo.clock (Sample.top_up 500 true)
                 (Demo.database "paid" 100) 500 "u1" (Demo.user 100) "cus_1")
      as (_ & u' & Hu' & Hb & Hcards).
    1-10: first [reflexivity | lia | vm_compute; reflexivity].
    exists u'. split; [exact Hu'|]. split; [exact Hb|].
    cbn in Hcards. rewrite Hcards. reflexivity.
Defined.



(** *** Cards *)

Lemma get_cards_run uid d :
  exec (get_cards uid) d
  = (Returned match users d !! uid with
              | Some u => Object (savedCards_of u)
              | None => Problem (res_status_json 404 [("error", Js.JStr "User not found")])
              end, d, [FsGet Users uid]).
Proof. unfold get_cards. destruct d as [os us]. run. by destruct (us !! uid). Qed.

(** The run of [delete_card] once the processor has detached the
    method. *)
Lemma delete_card_run stripe now pm uid d userId :
  pm ≠ "" →
  Js.truthy userId = Some uid →
  Stripe.paymentMethodsDetach stripe pm = inr tt →
  exec (delete_card stripe now pm userId) d
  = (Returned (res_json [("success", Js.JBool true);
                         ("message", Js.JStr "Card removed successfully")]),
     match users d !! uid with
     | Some u =>
       {| orders := orders d;
          users := <[uid := User.with_updatedAt (IsoString (isoNow now))
                             (User.with_defaultPaymentMethod
                                (if decide (User.defaultPaymentMethod u = Some pm)
                                 then None else User.defaultPaymentMethod u)
                                (User.with_savedCards
                                   (filter (λ card, Card.id card ≠ pm) (savedCards_of u)) u))]>
                     (users d) |}
     | None => d
     end,
     [StripeRequest (Stripe.paymentMethods_detach pm); FsGet Users uid]
       ++ match users d !! uid with
          | Some _ => [FsUpdate Users uid ["savedCards"; "defaultPaymentMethod"; "updatedAt"]]
          | None => []
          end).
Proof.
  intros Hpm Hu Hdet. unfold delete_card. rewrite Hu. cbn [Js.truthy].
  rewrite decide_False by done. destruct d as [os us]. run. rewrite Hdet. run.
  destruct (us !! uid) as [u|] eqn:Hd; run; [|done]. by rewrite Hd.
Qed.

(** X22. Edge cases of removing a card.  Without a user id the answer is
    400 "Missing required data" and the processor is not contacted.  With
    the id of a user that has no document, the method is still detached
    at the processor and the answer reports success, while the database
    is unchanged: nothing was there to remove.  When the processor
    refuses to detach, the answer is a 500 with its message and the
    database is unchanged. *)
Theorem remove_card_edge_cases
    (stripe : Stripe.Api) (now : Clock) (pm : string) (userId : option string)
    (d : Firestore) :
  pm ≠ "" →
  let x := exec (delete_card stripe now pm userId) d in
  (Js.truthy userId = None →
   x = (Returned {| status := 400; body := Json [("error", Js.JStr "Missing required data")] |},
        d, [])) ∧
  (∀ uid, Js.truthy userId = Some uid →
     (∀ e, Stripe.paymentMethodsDetach stripe pm = inl e →
        x = (Returned {| status := 500;
                         body := Json [("error", Js.JStr (if decide (Js.message e = "")
                                                          then "Failed to remove card"
                                                          else Js.message e))] |},
             d, [StripeRequest (Stripe.paymentMethods_detach pm)])) ∧
     (Stripe.paymentMethodsDetach stripe pm = inr tt → users d !! uid = None →
        x = (Returned {| status := 200;
                         body := Json [("success", Js.JBool true);
                                       ("message", Js.JStr "Card removed successfully")] |},
             d, [StripeRequest (Stripe.paymentMethods_detach pm); FsGet Users uid]))).
Proof.
  intros Hpm x. subst x. split.
  - intros Hu. unfold delete_card. rewrite Hu. cbn [Js.truthy].
    by rewrite decide_False by done.
  - intros uid Hu. split.
    + intros e Hdet. unfold delete_card. rewrite Hu. cbn [Js.truthy].
      rewrite decide_False by done. destruct d as [os us]. run. rewrite Hdet. by run.
    + intros Hdet Hnone. rewrite (delete_card_run stripe now pm uid d userId) by done.
      rewrite Hnone. done.
Qed.

Lemma remove_card_edge_cases_witness :
  exec (delete_card (Demo.stripe "succeeded" true (Stripe.other_event "ping"))
          Demo.clock "pm_1" (Some "u7"))
       (Demo.database "paid" 0)
  = (Returned {| status := 200;
                 body := Json [("success", Js.JBool true);
                               ("message", Js.JStr "Card removed successfully")] |},
     Demo.database "paid" 0,
     [StripeRequest (Stripe.paymentMethods_detach "pm_1"); FsGet Users "u7"]).
Proof.
  destruct (remove_card_edge_cases (Demo.stripe "succeeded" true (Stripe.other_event "ping"))
              Demo.clock "pm_1" (Some "u7") (Demo.database "paid" 0))
    as [_ H]; [discriminate|].
  destruct (H "u7") as [_ H']; [reflexivity|].
  apply H'; [reflexivity|vm_compute; reflexivity].
Defined.

Lemma filter_filter_same {A} (P : A → Prop) `{∀ x, Decision (P x)} (l : list A) :
  filter P (filter P l) = filter P l.
Proof.
  apply filter_keeps_all. intros x Hx. by apply list_elem_of_filter in Hx as [? _].
Qed.

(** X23. A removed card is gone, and removing is idempotent.  After the
    processor detached a payment method for an existing user, the card
    list that [cards/:userId] returns holds no card with that id and every
    saved card with another id, in the same order; the stored default is
    not that id; the wallet, the ledger and the order history are as
    before.  Removing the same id again, once more detached, leaves the
    cards and the default as the first removal left them. *)
Theorem removed_card_is_not_listed
    (stripe : Stripe.Api) (now1 now2 : Clock) (pm : string) (userId : option string)
    (d : Firestore) (uid : string) (u : User.t) :
  pm ≠ "" →
  Js.truthy userId = Some uid →
  Stripe.paymentMethodsDetach stripe pm = inr tt →
  users d !! uid = Some u →
  let removed := exec (delete_card stripe now1 pm userId) d in
  let listed := exec (get_cards uid) (final_db removed) in
  let again := exec (delete_card stripe now2 pm userId) (final_db removed) in
  ∃ cards u',
    outcome listed = Returned (Object cards) ∧
    cards = filter (λ card, Card.id card ≠ pm) (savedCards_of u) ∧
    (pm ∉ ids_of cards) ∧
    users (final_db removed) !! uid = Some u' ∧
    User.defaultPaymentMethod u' ≠ Some pm ∧
    User.walletBalance u' = User.walletBalance u ∧
    User.walletTransactions u' = User.walletTransactions u ∧
    User.orderHistory u' = User.orderHistory u ∧
    ∃ u'', users (final_db again) !! uid = Some u'' ∧
           savedCards_of u'' = cards ∧
           User.defaultPaymentMethod u'' = User.defaultPaymentMethod u'.
Proof.
  intros Hpm Hu Hdet Hd removed listed again.
  pose proof (delete_card_run stripe now1 pm uid d userId Hpm Hu Hdet) as E1.
  fold removed in E1. rewrite Hd in E1.
  set (u1 := User.with_updatedAt _ _) in E1.
  set (d1 := {| orders := orders d; users := <[uid := u1]> (users d) |}) in E1.
  assert (final_db removed = d1) as Hf by (by rewrite E1).
  assert (users d1 !! uid = Some u1) as Hu1 by (unfold d1; cbn; apply lookup_insert_eq).
  assert (savedCards_of u1 = filter (λ card, Card.id card ≠ pm) (savedCards_of u)) as Hc1
    by done.
  assert (User.defaultPaymentMethod u1 ≠ Some pm) as Hdef1.
  { unfold u1. cbn. by case_decide. }
  exists (filter (λ card, Card.id card ≠ pm) (savedCards_of u)), u1.
  split.
  { subst listed. rewrite Hf, get_cards_run, Hu1. unfold outcome. cbn [fst].
    by rewrite Hc1. }
  split; [done|]. split.
  { unfold ids_of. intros Hin. apply list_elem_of_fmap in Hin as (card & Hid & Hin).
    apply list_elem_of_filter in Hin as [Hne _]. by apply Hne. }
  split; [by rewrite Hf|]. split; [done|]. split; [done|]. split; [done|]. split; [done|].
  subst again. rewrite Hf.
  rewrite (delete_card_run stripe now2 pm uid d1 userId Hpm Hu Hdet), Hu1.
  unfold final_db. cbn [fst snd users]. rewrite lookup_insert_eq.
  eexists. split; [done|]. split.
  - change (filter (λ card, Card.id card ≠ pm) (savedCards_of u1)
            = filter (λ card, Card.id card ≠ pm) (savedCards_of u)).
    rewrite Hc1. apply filter_filter_same.
  - cbn. by rewrite decide_False.
Qed.

Lemma removed_card_is_not_listed_witness :
  let stripe := Demo.stripe "succeeded" true (Stripe.other_event "ping") in
  let removed := exec (delete_card stripe Demo.clock "pm_1" (Some "u1"))
                      (Demo.database "paid" 0) in
  outcome (exec (get_cards "u1") (final_db removed)) = Returned (Object [Demo.amex]).
Proof.
  intros stripe removed.
  destruct (removed_card_is_not_listed stripe Demo.clock Demo.later "pm_1" (Some "u1")
              (Demo.database "paid" 0) "u1" (Demo.user 0))
    as (cards & u' & Hl & Hc & _);
    [discriminate| reflexivity| reflexivity| vm_compute; reflexivity|].
  etransitivity; [exact Hl|]. rewrite Hc. reflexivity.
Defined.

(** X24. Setting the default card.  With the three identities present,
    once the processor has updated the customer, the existing user's
    document stores the payment method as its default and is otherwise as
    before, but for [updatedAt]: the saved cards are not consulted, so the
    default may name a card that is not saved.  The answer reports
    success after exactly one processor request. *)
Theorem set_default_card_sets
    (stripe : Stripe.Api) (now : Clock) (customerId paymentMethodId userId : option string)
    (d : Firestore) (c pm uid : string) (u : User.t) :
  Js.truthy customerId = Some c →
  Js.truthy paymentMethodId = Some pm →
  Js.truthy userId = Some uid →
  Stripe.customersUpdate stripe c pm = inr tt →
  users d !! uid = Some u →
  let x := exec (set_default_card stripe now customerId paymentMethodId userId) d in
  outcome x = Returned {| status := 200;
                          body := Json [("success", Js.JBool true);
                                        ("message", Js.JStr "Default card updated successfully")] |} ∧
  requests (effects x) = [StripeRequest (Stripe.customers_update c pm)] ∧
  orders (final_db x) = orders d ∧
  (∀ uid', uid' ≠ uid → users (final_db x) !! uid' = users d !! uid') ∧
  users (final_db x) !! uid
    = Some (User.with_updatedAt (IsoString (isoNow now))
              (User.with_defaultPaymentMethod (Some pm) u)).
Proof.
  intros Hc Hpm Hu Hupd Hd x. subst x. unfold set_default_card.
  rewrite Hc, Hpm, Hu. destruct d as [os us]. cbn [users] in Hd.
  run. rewrite Hupd. run. rewrite Hd. run.
  split; [done|]. split; [done|]. split; [done|]. split.
  - intros uid' Hne. by rewrite lookup_insert_ne.
  - apply lookup_insert_eq.
Qed.

Lemma set_default_card_sets_witness :
  let x := exec (set_default_card (Demo.stripe "succeeded" true (Stripe.other_event "ping"))
                   Demo.clock (Some "cus_1") (Some "pm_7") (Some "u1"))
                (Demo.database "paid" 0) in
  ∃ u', users (final_db x) !! "u1" = Some u' ∧
        User.defaultPaymentMethod u' = Some "pm_7" ∧
        ids_of (savedCards_of u') = ["pm_1"; "pm_2"].
Proof.
  intros x.
  destruct (set_default_card_sets (Demo.stripe "succeeded" true (Stripe.other_event "ping"))
              Demo.clock (Some "cus_1") (Some "pm_7") (Some "u1")
              (Demo.database "paid" 0) "cus_1" "pm_7" "u1" (Demo.user 0))
    as (_ & _ & _ & _ & Hu');
    [reflexivity| reflexivity| reflexivity| reflexivity| vm_compute; reflexivity|].
  eexists. split; [exact Hu'|]. split; reflexivity.
Defined.

(** X25. Setting the default card is not atomic, and fails closed on bad
    input.  When one of the three identities is missing the answer is 400
    and nothing is requested.  When the processor refuses the update the
    answer is a 500 and the database is unchanged.  When the processor
    has updated the customer but the user has no document, the answer is
    a 500 as well and no document is created: the processor then holds a
    default that the database does not. *)
Theorem set_default_card_failures
    (stripe : Stripe.Api) (now : Clock) (customerId paymentMethodId userId : option string)
    (d : Firestore) :
  let x := exec (set_default_card stripe now customerId paymentMethodId userId) d in
  (Js.truthy customerId = None ∨ Js.truthy paymentMethodId = None ∨ Js.truthy userId = None →
   x = (Returned {| status := 400; body := Json [("error", Js.JStr "Missing required data")] |},
        d, [])) ∧
  (∀ c pm uid, Js.truthy customerId = Some c → Js.truthy paymentMethodId = Some pm →
     Js.truthy userId = Some uid →
     (∀ e, Stripe.customersUpdate stripe c pm = inl e →
        final_db x = d ∧ effects x = [StripeRequest (Stripe.customers_update c pm)] ∧
        ∃ r, outcome x = Returned r ∧ status r = 500) ∧
     (Stripe.customersUpdate stripe c pm = inr tt → users d !! uid = None →
        final_db x = d ∧
        requests (effects x) = [StripeRequest (Stripe.customers_update c pm)] ∧
        ∃ r, outcome x = Returned r ∧ status r = 500)).
Proof.
  intros x. subst x. unfold set_default_card. split.
  - intros [H|[H|H]].
    + by rewrite H.
    + rewrite H. by destruct (Js.truthy customerId).
    + rewrite H. by destruct (Js.truthy customerId), (Js.truthy paymentMethodId).
  - intros c pm uid -> -> ->. destruct d as [os us]. split.
    + intros e He. run. rewrite He. run. split; [done|]. split; [done|]. by eexists.
    + intros Hupd Hnone. run. rewrite Hupd. run. cbn [users] in Hnone. rewrite Hnone.
      run. split; [done|]. split; [done|]. by eexists.
Qed.

(** X26. Attaching a payment method never touches the database and never
    leaves the request unanswered.  Without both identities nothing is
    requested and the answer is 400.  Otherwise exactly one attach request
    is sent: the processor's object is passed on when it accepts, and a
    refusal is answered with 400 exactly when it is an invalid-request
    error with code [resource_missing], else with 500. *)
Theorem attach_payment_method_answers
    (stripe : Stripe.Api) (paymentMethodId customerId : option string) (d : Firestore) :
  let x := exec (attach_payment_method stripe paymentMethodId customerId) d in
  final_db x = d ∧
  writes (effects x) = [] ∧
  match Js.truthy paymentMethodId, Js.truthy customerId with
  | Some pm, Some c =>
    effects x = [StripeRequest (Stripe.paymentMethods_attach pm c)] ∧
    match Stripe.paymentMethodsAttach stripe pm c with
    | inr o => outcome x = Returned (Object o)
    | inl e =>
      ∃ r, outcome x = Returned (Problem r) ∧
           (status r = 400 ∨ status r = 500) ∧
           (status r = 400 ↔ Js.type e = Some "StripeInvalidRequestError"
                             ∧ Js.code e = Some "resource_missing")
    end
  | _, _ =>
    effects x = [] ∧
    outcome x = Returned (Problem {| status := 400;
                                     body := Json [("error", Js.JStr "Missing required data")] |})
  end.
Proof.
  intros x. subst x. unfold attach_payment_method.
  destruct (Js.truthy paymentMethodId) as [pm|]; [|done].
  destruct (Js.truthy customerId) as [c|]; [|done].
  destruct d as [os us]. run.
  destruct (Stripe.paymentMethodsAttach stripe pm c) as [e|o]; run; [|done].
  split; [by repeat case_bool_decide|]. split; [by repeat case_bool_decide|].
  split; [by repeat case_bool_decide|].
  repeat case_bool_decide; cbn [andb]; run; eexists; (split; [done|]); cbn [status];
    (split; [auto|]); split; intros H'; try done; try lia; destruct H'; done.
Qed.

(** X27. Setting a card as default and then removing it leaves the user
    without a default card and without that card: the removal reads the
    default that the first request stored. *)
Theorem default_card_then_removed
    (stripe : Stripe.Api) (now now' : Clock) (customerId userId : option string)
    (d : Firestore) (c pm uid : string) (u : User.t) :
  Js.truthy customerId = Some c →
  Js.truthy (Some pm) = Some pm →
  Js.truthy userId = Some uid →
  Stripe.customersUpdate stripe c pm = inr tt →
  Stripe.paymentMethodsDetach stripe pm = inr tt →
  users d !! uid = Some u →
  let d1 := final_db (exec (set_default_card stripe now customerId (Some pm) userId) d) in
  let x := exec (delete_card stripe now' pm userId) d1 in
  ∃ u', users (final_db x) !! uid = Some u' ∧
        User.defaultPaymentMethod u' = None ∧
        (pm ∉ ids_of (savedCards_of u')) ∧
        User.walletBalance u' = User.walletBalance u ∧
        User.walletTransactions u' = User.walletTransactions u.
Proof.
  intros Hc Hpm Hu Hupd Hdet Hd d1 x.
  assert (pm ≠ "") as Hne.
  { intros ->. cbn in Hpm. discriminate. }
  assert (users d1 !! uid
          = Some (User.with_updatedAt (IsoString (isoNow now))
                    (User.with_defaultPaymentMethod (Some pm) u))) as H1.
  { subst d1. unfold set_default_card. rewrite Hc, Hpm, Hu.
    destruct d as [os us]. cbn [users] in Hd. run. rewrite Hupd. run. rewrite Hd. run.
    apply lookup_insert_eq. }
  subst x. rewrite (delete_card_run stripe now' pm uid d1 userId Hne Hu Hdet).
  rewrite H1. unfold final_db. cbn [fst snd users]. rewrite lookup_insert_eq.
  eexists. split; [done|]. cbn. rewrite decide_True by done.
  split; [done|]. split; [|done].
  unfold ids_of. intros Hin. apply list_elem_of_fmap in Hin as (k & Hk & Hin).
  apply list_elem_of_filter in Hin as [Hin _]. by apply Hin.
Qed.

Lemma default_card_then_removed_witness :
  let stripe := Demo.stripe "succeeded" true (Stripe.other_event "ping") in
  let d1 := final_db (exec (set_default_card stripe Demo.clock (Some "cus_1") (Some "pm_2")
                              (Some "u1")) (Demo.database "paid" 0)) in
  let x := exec (delete_card stripe Demo.later "pm_2" (Some "u1")) d1 in
  ∃ u', users (final_db x) !! "u1" = Some u' ∧
        User.defaultPaymentMethod u' = None ∧
        ("pm_2" ∉ ids_of (savedCards_of u')).
Proof.
  intros stripe d1 x.
  destruct (default_card_then_removed stripe Demo.clock Demo.later (Some "cus_1") (Some "u1")
              (Demo.database "paid" 0) "cus_1" "pm_2" "u1" (Demo.user 0))
    as (u' & Hu' & Hdef & Hnot & _);
    [reflexivity| reflexivity| reflexivity| reflexivity| reflexivity| vm_compute; reflexivity|].
  exists u'. split; [exact Hu'|]. split; [exact Hdef|exact Hnot].
Defined.

(** X28. A card saved by the webhook is listed: after a
    [setup_intent.succeeded] event for the one user who holds the
    customer identity, with the payment method returned by the processor,
    [GET /cards/:userId] answers with the user's cards, the new card's id
    among them and the cards saved before all kept, in their order, at
    the head of the list. *)
Theorem saved_card_is_listed
    (stripe : Stripe.Api) (now : Clock) (si : Stripe.SetupIntent) (d : Firestore)
    (c pm : string) (method : Stripe.PaymentMethod) (uid : string) (u : User.t) :
  Js.truthy (Stripe.si_customer si) = Some c →
  Js.truthy (Stripe.si_payment_method si) = Some pm →
  Stripe.paymentMethodsRetrieve stripe pm = inr method →
  users d !! uid = Some u →
  User.stripeCustomerId u = Some c →
  (∀ uid' u', users d !! uid' = Some u' → User.stripeCustomerId u' = Some c → uid' = uid) →
  let d1 := final_db (exec (handleSetupIntentSuccess stripe now si) d) in
  ∃ cards, outcome (exec (get_cards uid) d1) = Returned (Object cards) ∧
           pm ∈ ids_of cards ∧
           savedCards_of u `prefix_of` cards ∧
           (length cards ≤ S (length (savedCards_of u)))%nat.
Proof.
  intros Ec Epm Hret Hu Hc Huniq d1. subst d1.
  rewrite setup_run, Ec, Epm, Hret.
  rewrite (customer_query_unique _ _ _ _ Hu Hc Huniq).
  unfold final_db. cbn [fst snd]. rewrite get_cards_run. cbn [users].
  rewrite lookup_insert_eq. unfold outcome. cbn [fst].
  eexists. split; [done|].
  change (savedCards_of (user_with_card now (cardData now pm method) u))
    with (arrayUnion (cardData now pm method) (savedCards_of u)).
  split; [|split].
  - unfold ids_of. apply list_elem_of_fmap.
    exists (cardData now pm method). split; [done|apply arrayUnion_elem].
  - unfold arrayUnion. case_decide; [done|]. by apply prefix_app_r.
  - unfold arrayUnion. case_decide; [lia|]. rewrite length_app. cbn. lia.
Qed.

Lemma saved_card_is_listed_witness :
  let si := {| Stripe.si_customer := Some "cus_1"; Stripe.si_payment_method := Some "pm_3" |} in
  let d1 := final_db (exec (handleSetupIntentSuccess
                              (Demo.stripe "succeeded" true (Stripe.other_event "ping"))
                              Demo.clock si)
                           (Demo.database "paid" 0)) in
  ∃ cards, outcome (exec (get_cards "u1") d1) = Returned (Object cards) ∧
           "pm_3" ∈ ids_of cards ∧
           [Demo.visa; Demo.amex] `prefix_of` cards.
Proof.
  intros si d1.
  destruct (saved_card_is_listed (Demo.stripe "succeeded" true (Stripe.other_event "ping"))
              Demo.clock si (Demo.database "paid" 0) "cus_1" "pm_3"
              {| Stripe.pm_id := "pm_3"; Stripe.card_brand := "visa";
                 Stripe.card_last4 := "4242"; Stripe.card_exp_month := 12;
                 Stripe.card_exp_year := 2030 |} "u1" (Demo.user 0))
    as (cards & Ho & Hin & Hpre & _);
    [reflexivity| reflexivity| reflexivity| vm_compute; reflexivity| reflexivity| |].
  - intros uid' u' Hl _. unfold Demo.database in Hl. cbn [users] in Hl.
    by apply lookup_singleton_Some in Hl as [-> _].
  - exists cards. split; [exact Ho|]. split; [exact Hin|exact Hpre].
Defined.
